(** * BookMark_LinkMarker: the access-control core of the bookmark API

    A shallow embedding of the application module (the Express [app] with
    its Zod schemas and its seven routes), of [src/middleware.ts] (the access
    guard) and of [src/db.ts] (the Mongoose schemas, the pre-save hook and
    [comparePassword]).

    The handlers are functions from a request, the per-request environment
    (clock, fresh identifiers, random draws) and the store to a response and
    the next store; each is also given as the sequence of store operations
    it awaits, so that the stores the server can be in are those reached
    when handlers interleave.  The libraries the code calls (Mongoose's
    casting, bcryptjs, jsonwebtoken's codec, the layout of a Zod issue) are
    interfaces whose operations are parameters of the development. *)

From Stdlib Require Import ZArith List String Ascii Bool Lia.
From Stdlib Require DecimalString.
Import ListNotations.

Open Scope string_scope.
Open Scope list_scope.
Open Scope Z_scope.

(** ** JavaScript values *)

(** The values that travel through [req.body], token payloads and
    [res.json].  A [Date] is its epoch time in milliseconds. *)
#[local] Unset Elimination Schemes.
Inductive json : Type :=
| JUndefined
| JNull
| JBool (b : bool)
| JNum (z : Z)
| JStr (s : string)
| JArr (items : list json)
| JObj (fields : list (string * json)).
#[local] Set Elimination Schemes.

(** [!v] is [negb (truthy v)]. *)
Definition truthy (v : json) : bool :=
  match v with
  | JUndefined | JNull => false
  | JBool b => b
  | JNum z => negb (z =? 0)
  | JStr s => negb (s =? "")%string
  | JArr _ | JObj _ => true
  end.

Fixpoint assoc (k : string) (fields : list (string * json)) : json :=
  match fields with
  | [] => JUndefined
  | (k', v) :: rest => if (k =? k')%string then v else assoc k rest
  end.

(** Property access [v.k] on a parsed body or payload that is not
    [undefined] or [null]: a missing property is [undefined]. *)
Definition prop (k : string) (v : json) : json :=
  match v with
  | JObj fields => assoc k fields
  | _ => JUndefined
  end.

(** ** Strings

    A string is kept as its UTF-8 bytes, the form in which it travels in a
    request.  JavaScript measures a string in UTF-16 code units and trims
    the white space and line terminators of ECMAScript, and so do the
    functions below. *)

Definition is_continuation (c : ascii) : bool :=
  let n := nat_of_ascii c in ((128 <=? n) && (n <? 192))%nat.

(** The number of continuation bytes a leading byte announces. *)
Definition utf8_expected (c : ascii) : nat :=
  let n := nat_of_ascii c in
  if (n <? 192)%nat then 0%nat
  else if (n <? 224)%nat then 1%nat
  else if (n <? 240)%nat then 2%nat else 3%nat.

(** The UTF-16 code units of a byte sequence: one per code point, two for a
    code point above U+FFFF (a four-byte sequence, counted [astral]); a byte
    that belongs to no sequence counts as one replacement character. *)
Fixpoint utf16_units (pending : nat) (astral : bool) (l : list ascii) : nat :=
  match l with
  | [] => 0%nat
  | c :: rest =>
      if is_continuation c then
        match pending with
        | O => S (utf16_units 0 false rest)
        | S p =>
            ((if (p =? 0)%nat && astral then 1 else 0)
             + utf16_units p astral rest)%nat
        end
      else S (utf16_units (utf8_expected c) (240 <=? nat_of_ascii c)%nat rest)
  end.

(** [s.length] *)
Definition js_length (s : string) : nat :=
  utf16_units 0 false (list_ascii_of_string s).

(** The encodings of the code points [String.prototype.trim] strips: TAB,
    LF, VT, FF, CR, SP, U+00A0, U+1680, U+2000 to U+200A, U+2028, U+2029,
    U+202F, U+205F, U+3000 and U+FEFF. *)
Definition whitespace : list (list ascii) :=
  map (map ascii_of_nat)
    [ [9]; [10]; [11]; [12]; [13]; [32]; [194; 160]; [225; 154; 128];
      [226; 128; 128]; [226; 128; 129]; [226; 128; 130]; [226; 128; 131];
      [226; 128; 132]; [226; 128; 133]; [226; 128; 134]; [226; 128; 135];
      [226; 128; 136]; [226; 128; 137]; [226; 128; 138];
      [226; 128; 168]; [226; 128; 169]; [226; 128; 175]; [226; 129; 159];
      [227; 128; 128]; [239; 187; 191] ]%nat.

Fixpoint drop_prefix (w l : list ascii) : option (list ascii) :=
  match w, l with
  | [], _ => Some l
  | a :: w', b :: l' => if Ascii.eqb a b then drop_prefix w' l' else None
  | _ :: _, [] => None
  end.

(** Strips one of [pats] from the front of [l], when [l] starts with one. *)
Fixpoint strip_one (pats : list (list ascii)) (l : list ascii)
  : option (list ascii) :=
  match pats with
  | [] => None
  | w :: rest =>
      match drop_prefix w l with
      | Some r => Some r
      | None => strip_one rest l
      end
  end.

Fixpoint strip_all (pats : list (list ascii)) (fuel : nat) (l : list ascii)
  : list ascii :=
  match fuel with
  | O => l
  | S n =>
      match strip_one pats l with
      | Some r => strip_all pats n r
      | None => l
      end
  end.

Definition trimStart_bytes (l : list ascii) : list ascii :=
  strip_all whitespace (List.length l) l.

Definition trimEnd_bytes (l : list ascii) : list ascii :=
  rev (strip_all (map (@rev ascii) whitespace) (List.length l) (rev l)).

(** [s.trim()] *)
Definition trim (s : string) : string :=
  string_of_list_ascii
    (trimEnd_bytes (trimStart_bytes (list_ascii_of_string s))).

(** ** Input validation: the issues Zod reports *)

(** The type names Zod gives the values of a parsed body. *)
Definition parsed_type (v : json) : string :=
  match v with
  | JUndefined => "undefined"
  | JNull => "null"
  | JBool _ => "boolean"
  | JNum _ => "number"
  | JStr _ => "string"
  | JArr _ => "array"
  | JObj _ => "object"
  end.

(** One entry of [error.issues]: what failed, at which path, and the message
    the schema gives for the check (none for a type mismatch, whose text is
    the library's). *)
Inductive issue_code : Type :=
| invalid_type (expected received : string)
| too_small (minimum : nat)
| too_big (maximum : nat).

Record zod_issue : Type :=
  { zi_code : issue_code; zi_path : list string; zi_message : option string }.

(** ** Exceptions and the result of a call that may throw *)

Inductive exn : Type :=
| ZodError (issues : list zod_issue)
| TypeError
| CastError
| ValidationError (path : string)
| DuplicateKey (index : string)
| JsonWebTokenError
| TokenExpiredError.

Inductive result (A : Type) : Type :=
| Ok (a : A)
| Throw (e : exn).
Arguments Ok {A} a.
Arguments Throw {A} e.

Definition bind {A B : Type} (m : result A) (k : A -> result B) : result B :=
  match m with
  | Ok a => k a
  | Throw e => Throw e
  end.

Notation "'let*' x ':=' m 'in' k" := (bind m (fun x => k))
  (at level 10, x pattern, m at level 100, k at level 200).

(** [try { body } catch (error) { handler }] *)
Definition try_catch {A : Type} (body : result A) (handler : exn -> A) : A :=
  match body with
  | Ok a => a
  | Throw e => handler e
  end.

(** [const { k } = v]: reading a property of [undefined] or [null] throws a
    [TypeError]; any other value is read as by [v.k]. *)
Definition destructure (k : string) (v : json) : result json :=
  match v with
  | JUndefined | JNull => Throw TypeError
  | _ => Ok (prop k v)
  end.

Definition nullish (v : json) : bool :=
  match v with
  | JUndefined | JNull => true
  | _ => false
  end.

(** ** Input validation: the Zod schemas of the application module *)

(** The checks chained on [z.string()]. *)
Inductive z_check : Type :=
| z_min (n : nat) (message : string)
| z_max (n : nat) (message : string).

Definition z_check_issues (path : list string) (s : string) (c : z_check)
  : list zod_issue :=
  match c with
  | z_min n message =>
      if (js_length s <? n)%nat
      then [{| zi_code := too_small n; zi_path := path;
               zi_message := Some message |}]
      else []
  | z_max n message =>
      if (n <? js_length s)%nat
      then [{| zi_code := too_big n; zi_path := path;
               zi_message := Some message |}]
      else []
  end.

(** The issues of [z.string()] with [checks] on the value at [path]; the
    checks run on the string as received, before [.trim()] rewrites it. *)
Definition z_string_issues (path : list string) (checks : list z_check)
  (v : json) : list zod_issue :=
  match v with
  | JStr s => flat_map (z_check_issues path s) checks
  | _ => [{| zi_code := invalid_type "string" (parsed_type v); zi_path := path;
             zi_message := None |}]
  end.

Definition z_string_value (v : json) : string :=
  match v with
  | JStr s => s
  | _ => EmptyString
  end.

(** The issue of [z.object(...)] on a body that is not an object. *)
Definition z_object_issue (body : json) : zod_issue :=
  {| zi_code := invalid_type "object" (parsed_type body); zi_path := [];
     zi_message := None |}.

Record UserInput : Type := { in_username : string; in_password : string }.
Record ContentInput : Type := { in_title : string; in_link : string }.

Definition userSchema_issues (body : json) : list zod_issue :=
  z_string_issues ["username"]
    [z_min 3 "Username must be at least 3 characters";
     z_max 50 "Username cannot exceed 50 characters"] (prop "username" body)
  ++ z_string_issues ["password"]
       [z_min 6 "Password must be at least 6 characters";
        z_max 100 "Password cannot exceed 100 characters"]
       (prop "password" body).

(** [userSchema.parse(req.body)] *)
Definition userSchema_parse (body : json) : result UserInput :=
  match body with
  | JObj _ =>
      match userSchema_issues body with
      | [] => Ok {| in_username := trim (z_string_value (prop "username" body));
                    in_password := z_string_value (prop "password" body) |}
      | issues => Throw (ZodError issues)
      end
  | _ => Throw (ZodError [z_object_issue body])
  end.

Definition contentSchema_issues (body : json) : list zod_issue :=
  z_string_issues ["title"]
    [z_min 1 "Title is required";
     z_max 200 "Title cannot exceed 200 characters"] (prop "title" body)
  ++ z_string_issues ["link"]
       [z_max 2000 "URL cannot exceed 2000 characters"] (prop "link" body).

(** [contentSchema.parse(req.body)] *)
Definition contentSchema_parse (body : json) : result ContentInput :=
  match body with
  | JObj _ =>
      match contentSchema_issues body with
      | [] => Ok {| in_title := trim (z_string_value (prop "title" body));
                    in_link := z_string_value (prop "link" body) |}
      | issues => Throw (ZodError issues)
      end
  | _ => Throw (ZodError [z_object_issue body])
  end.

(** ** The store: the four collections of [db.ts] *)

(** An [ObjectId] is kept as its hexadecimal text, the form in which it is
    written into a token payload and into a response. *)
Definition ObjectId : Type := string.

Record User : Type :=
  { u_id : ObjectId; u_username : string; u_password : string }.

Record Content : Type :=
  { c_id : ObjectId; c_title : string; c_link : string;
    c_tags : list ObjectId; c_userId : ObjectId }.

Record Tag : Type :=
  { t_id : ObjectId; t_name : string; t_color : string }.

Record Share : Type :=
  { s_id : ObjectId; s_hash : string; s_userId : ObjectId; s_createdAt : Z }.

(** Each collection is the list of its documents in insertion order. *)
Record Store : Type :=
  { users : list User; contents : list Content;
    tags : list Tag; shares : list Share }.

Definition set_users (db : Store) (l : list User) : Store :=
  {| users := l; contents := contents db; tags := tags db; shares := shares db |}.
Definition set_contents (db : Store) (l : list Content) : Store :=
  {| users := users db; contents := l; tags := tags db; shares := shares db |}.
Definition set_shares (db : Store) (l : list Share) : Store :=
  {| users := users db; contents := contents db; tags := tags db; shares := l |}.

(** What a request draws from its surroundings: the clock ([Date.now()], in
    milliseconds), the identifier Mongoose gives a new document, the salt of
    [bcrypt.genSalt] and the string that [random(len)] of [./utils.js] returns. *)
Record Env : Type :=
  { now : Z; newObjectId : ObjectId; genSalt : nat -> string;
    random : nat -> string }.

(** Removes the first element that satisfies [p], as [deleteOne] and
    [findOneAndDelete] do. *)
Fixpoint remove_first {A : Type} (p : A -> bool) (l : list A) : list A :=
  match l with
  | [] => []
  | x :: rest => if p x then rest else x :: remove_first p rest
  end.

(** ** The library interfaces *)

(** Mongoose casts the value given for an [ObjectId] path, in a query or in a
    new document: [castObjectId v] is the one identifier [v] stands for, if
    any.  In a query, a value that stands for no identifier may still be read
    as conditions on the path (an object of operators such as [$ne] or [$in],
    an array): [castConditions v] is then the set of identifiers that meet
    them.  A value that is neither is a [CastError]. *)
Class Mongoose : Type :=
  { castObjectId : json -> option ObjectId;
    castConditions : json -> option (ObjectId -> bool) }.

(** Zod: how an issue is laid out in [error.issues] when it is sent. *)
Class Zod : Type :=
  { issue_json : zod_issue -> json }.

(** bcryptjs: [bcrypt.hash(password, salt)] and [bcrypt.compare(candidate, hash)]. *)
Class Bcrypt : Type :=
  { bcrypt_hash : string -> string -> string;
    bcrypt_compare : string -> string -> bool }.

(** jsonwebtoken's compact serialisation: [jwt_encode key claims] signs the
    claims, [jwt_decode key token] parses a token and checks its signature
    ([None]: malformed, or not signed with [key]). *)
Class JsonWebToken : Type :=
  { jwt_encode : string -> json -> string;
    jwt_decode : string -> string -> option json }.

(** The value a query or a new document gives for an [ObjectId] path: a
    JavaScript value that came with the request, or the [ObjectId] read from
    a stored document (which casts to itself). *)
Inductive qvalue : Type :=
| QJson (v : json)
| QOid (i : ObjectId).

Record response : Type := { status : Z; body : json }.

(** [res.status(code).json(payload)]; [res.json(payload)] answers 200. *)
Definition res_status_json (code : Z) (payload : json) : response :=
  {| status := code; body := payload |}.
Definition res_json (payload : json) : response := res_status_json 200 payload.

(** The outcome of the access guard: a response sent by the guard itself, or
    [next()] with [req.userId] bound. *)
Inductive guard : Type :=
| Rejected (r : response)
| Next (userId : json).

Section Server.

Context {mongoose : Mongoose} {bcrypt : Bcrypt} {jsonwebtoken : JsonWebToken}
        {zod : Zod}.

(** The signing secret [./config.js] exports, read once at startup. *)
Variable JWT_PASSWORD : string.

(** The cast of a value to one identifier: the value of an [ObjectId] path
    of a new document, and [req.userId] in a filter.  ([req.userId] is the
    [id] claim of a token signed with the server's secret, and the server
    signs the text of a user's [_id] only.) *)
Definition castQuery (q : qvalue) : result ObjectId :=
  match q with
  | QOid i => Ok i
  | QJson v =>
      match castObjectId v with
      | Some i => Ok i
      | None => Throw CastError
      end
  end.

(** The cast of a filter value that came with the request body: the
    identifiers the filter lets through. *)
Definition castFilter (v : json) : result (ObjectId -> bool) :=
  match castObjectId v with
  | Some i => Ok (fun j => (j =? i)%string)
  | None =>
      match castConditions v with
      | Some meets => Ok meets
      | None => Throw CastError
      end
  end.

(** *** [UserModel] *)

(** [UserModel.findOne({ username })] *)
Definition UserModel_findOne_username (username : string) (db : Store)
  : option User :=
  find (fun u => (u_username u =? username)%string) (users db).

(** [UserModel.findOne({ _id })] *)
Definition UserModel_findOne_id (id : qvalue) (db : Store)
  : result (option User) :=
  let* i := castQuery id in
  Ok (find (fun u => (u_id u =? i)%string) (users db)).

(** [UserSchema]'s validators: both paths [required], [minlength] 3 and 6. *)
Definition UserSchema_validate (doc : User) : result unit :=
  if (js_length (u_username doc) <? 3)%nat then Throw (ValidationError "username")
  else if (js_length (u_password doc) <? 6)%nat then Throw (ValidationError "password")
  else Ok tt.

(** [UserSchema.pre('save', ...)]: hashes the password when it was modified. *)
Definition UserSchema_pre_save (env : Env) (isModified_password : bool)
  (this : User) : User :=
  if negb isModified_password then this
  else
    let salt := genSalt env 10 in
    {| u_id := u_id this; u_username := u_username this;
       u_password := bcrypt_hash (u_password this) salt |}.

(** [UserSchema.methods.comparePassword] *)
Definition comparePassword (this : User) (candidatePassword : string) : bool :=
  bcrypt_compare candidatePassword (u_password this).

(** [UserModel.create({ username, password })]: the schema's [trim] setter,
    validation, the pre-save hook, then the insert under the unique indexes
    on [_id] and [username]. *)
Definition UserModel_create (username password : string) (env : Env)
  (db : Store) : result Store :=
  let doc := {| u_id := newObjectId env; u_username := trim username;
                u_password := password |} in
  let* _ := UserSchema_validate doc in
  let doc := UserSchema_pre_save env true doc in
  if existsb (fun u => (u_id u =? u_id doc)%string) (users db)
  then Throw (DuplicateKey "_id")
  else if existsb (fun u => (u_username u =? u_username doc)%string) (users db)
  then Throw (DuplicateKey "username")
  else Ok (set_users db (users db ++ [doc])).

(** *** [ContentModel] *)

(** [ContentSchema]'s validators: [title] and [link] are [required]. *)
Definition ContentSchema_validate (doc : Content) : result unit :=
  if (c_title doc =? "")%string then Throw (ValidationError "title")
  else if (c_link doc =? "")%string then Throw (ValidationError "link")
  else Ok tt.

(** [ContentModel.create({ title, link, tags, userId })] under the unique
    indexes on [_id] and [title]. *)
Definition ContentModel_create (title link : string) (tagIds : list ObjectId)
  (userId : qvalue) (env : Env) (db : Store) : result (Content * Store) :=
  match castQuery userId with
  | Throw _ => Throw (ValidationError "userId")
  | Ok owner =>
      let doc := {| c_id := newObjectId env; c_title := title; c_link := link;
                    c_tags := tagIds; c_userId := owner |} in
      let* _ := ContentSchema_validate doc in
      if existsb (fun c => (c_id c =? c_id doc)%string) (contents db)
      then Throw (DuplicateKey "_id")
      else if existsb (fun c => (c_title c =? c_title doc)%string) (contents db)
      then Throw (DuplicateKey "title")
      else Ok (doc, set_contents db (contents db ++ [doc]))
  end.

(** [ContentModel.find({ userId })] *)
Definition ContentModel_find (userId : qvalue) (db : Store)
  : result (list Content) :=
  let* owner := castQuery userId in
  Ok (filter (fun c => (c_userId c =? owner)%string) (contents db)).

(** [ContentModel.findOneAndDelete({ _id, userId })], with [_id] out of the
    request body *)
Definition ContentModel_findOneAndDelete (id : json) (userId : qvalue)
  (db : Store) : result (option Content * Store) :=
  let* meets := castFilter id in
  let* owner := castQuery userId in
  let matches c := (meets (c_id c) && (c_userId c =? owner)%string)%bool in
  Ok (find matches (contents db),
      set_contents db (remove_first matches (contents db))).

(** *** [ShareModel] *)

(** [ShareModel.findOne({ userId })] *)
Definition ShareModel_findOne_userId (userId : qvalue) (db : Store)
  : result (option Share) :=
  let* owner := castQuery userId in
  Ok (find (fun s => (s_userId s =? owner)%string) (shares db)).

(** [ShareModel.findOne({ hash })] *)
Definition ShareModel_findOne_hash (hash : string) (db : Store) : option Share :=
  find (fun s => (s_hash s =? hash)%string) (shares db).

(** [ShareModel.create({ userId, hash })]: [hash] is [required], [createdAt]
    defaults to [Date.now]; unique indexes on [_id] and [hash]. *)
Definition ShareModel_create (userId : qvalue) (hash : string) (env : Env)
  (db : Store) : result Store :=
  match castQuery userId with
  | Throw _ => Throw (ValidationError "userId")
  | Ok owner =>
      let doc := {| s_id := newObjectId env; s_hash := hash; s_userId := owner;
                    s_createdAt := now env |} in
      if (s_hash doc =? "")%string then Throw (ValidationError "hash")
      else if existsb (fun s => (s_id s =? s_id doc)%string) (shares db)
      then Throw (DuplicateKey "_id")
      else if existsb (fun s => (s_hash s =? s_hash doc)%string) (shares db)
      then Throw (DuplicateKey "hash")
      else Ok (set_shares db (shares db ++ [doc]))
  end.

(** [ShareModel.deleteOne({ userId })] *)
Definition ShareModel_deleteOne (userId : qvalue) (db : Store) : result Store :=
  let* owner := castQuery userId in
  Ok (set_shares db
        (remove_first (fun s => (s_userId s =? owner)%string) (shares db))).

(** *** Documents as they are sent *)

(** [.populate("tags", "name color")]: the tag documents the references
    resolve to, with the selected fields. *)
Definition populate_tags (db : Store) (ids : list ObjectId) : list json :=
  flat_map
    (fun i =>
       match find (fun t => (t_id t =? i)%string) (tags db) with
       | Some t => [JObj [("_id", JStr (t_id t)); ("name", JStr (t_name t));
                          ("color", JStr (t_color t))]]
       | None => []
       end) ids.

(** [.populate("userId", "username")] *)
Definition populate_userId (db : Store) (owner : ObjectId) : json :=
  match find (fun u => (u_id u =? owner)%string) (users db) with
  | Some u => JObj [("_id", JStr (u_id u)); ("username", JStr (u_username u))]
  | None => JNull
  end.

Definition content_json (c : Content) (tagsField userIdField : json) : json :=
  JObj [("_id", JStr (c_id c)); ("title", JStr (c_title c));
        ("link", JStr (c_link c)); ("tags", tagsField);
        ("userId", userIdField); ("__v", JNum 0)].

(** ** Tokens: jsonwebtoken's [sign] and [verify] over the codec *)

(** [jwt.sign(payload, key, { expiresIn })] at clock [nowMs]: adds [iat] and
    [exp = iat + expiresIn] (seconds). *)
Definition jwt_sign (payload : list (string * json)) (key : string)
  (expiresIn : Z) (nowMs : Z) : string :=
  let iat := nowMs / 1000 in
  jwt_encode key (JObj (payload ++ [("iat", JNum iat); ("exp", JNum (iat + expiresIn))])).

(** [jwt.verify(token, key)] at clock [nowMs]: the signature, then [nbf] and
    [exp] against the clock in seconds. *)
Definition jwt_verify (token key : string) (nowMs : Z) : result json :=
  match jwt_decode key token with
  | None => Throw JsonWebTokenError
  | Some payload =>
      let clockTimestamp := nowMs / 1000 in
      let* _ := match prop "nbf" payload with
                | JUndefined => Ok tt
                | JNum nbf => if clockTimestamp <? nbf
                              then Throw JsonWebTokenError else Ok tt
                | _ => Throw JsonWebTokenError
                end in
      let* _ := match prop "exp" payload with
                | JUndefined => Ok tt
                | JNum exp => if exp <=? clockTimestamp
                              then Throw TokenExpiredError else Ok tt
                | _ => Throw JsonWebTokenError
                end in
      Ok payload
  end.

(** ['24h'] in seconds. *)
Definition expiresIn_24h : Z := 24 * 60 * 60.

(** The token [POST /login] issues for a user:
    [jwt.sign({ id: user._id }, JWT_PASSWORD, { expiresIn: '24h' })]. *)
Definition issue_token (userId : ObjectId) (nowMs : Z) : string :=
  jwt_sign [("id", JStr userId)] JWT_PASSWORD expiresIn_24h nowMs.

(** ** [middleware.ts]: the access guard *)

Definition userMiddleware (authorization : option string) (nowMs : Z) : guard :=
  let token := authorization in
  match token with
  | None => Rejected (res_status_json 401 (JObj [("error", JStr "Invalid Token")]))
  | Some token =>
      if (token =? "")%string
      then Rejected (res_status_json 401 (JObj [("error", JStr "Invalid Token")]))
      else
        try_catch
          (let* decodedData := jwt_verify token JWT_PASSWORD nowMs in
           if negb (truthy (prop "id" decodedData))
           then Ok (Rejected (res_status_json 401
                                (JObj [("error", JStr "Invalid token payload")])))
           else Ok (Next (prop "id" decodedData)))
          (fun _ => Rejected (res_status_json 401
                                (JObj [("error", JStr "Invalid or expired token")])))
  end.

(** ** The application module: the handlers *)

Definition error_body (message : string) : json :=
  JObj [("status", JStr "error"); ("message", JStr message)].

(** [app.post("/signin", ...)] *)
Definition post_signin (reqBody : json) (env : Env) (db : Store)
  : response * Store :=
  try_catch
    (let* validatedData := userSchema_parse reqBody in
     let existingUser :=
       UserModel_findOne_username (in_username validatedData) db in
     match existingUser with
     | Some _ => Ok (res_status_json 409 (error_body "Username already exists"), db)
     | None =>
         let* db' := UserModel_create (in_username validatedData)
                                      (in_password validatedData) env db in
         Ok (res_status_json 201
               (JObj [("status", JStr "success");
                      ("message", JStr "User created successfully")]), db')
     end)
    (fun _ => (res_status_json 500 (error_body "Internal server error"), db)).

(** [app.post("/login", ...)] *)
Definition post_login (reqBody : json) (env : Env) (db : Store)
  : response * Store :=
  try_catch
    (let* validatedData := userSchema_parse reqBody in
     let user := UserModel_findOne_username (in_username validatedData) db in
     match user with
     | None => Ok (res_status_json 401 (error_body "Invalid credentials"), db)
     | Some user =>
         let isValidPassword :=
           comparePassword user (in_password validatedData) in
         if negb isValidPassword
         then Ok (res_status_json 401 (error_body "Invalid credentials"), db)
         else
           let token := issue_token (u_id user) (now env) in
           Ok (res_json (JObj [("status", JStr "success");
                               ("message", JStr "Login successful");
                               ("token", JStr token)]), db)
     end)
    (fun _ => (res_status_json 500 (error_body "Internal server error"), db)).

(** [app.post("/content", userMiddleware, ...)], after the guard *)
Definition post_content (userId : json) (reqBody : json) (env : Env)
  (db : Store) : response * Store :=
  try_catch
    (let* validatedData := contentSchema_parse reqBody in
     let* (content, db') :=
       ContentModel_create (in_title validatedData) (in_link validatedData)
                           [] (QJson userId) env db in
     Ok (res_status_json 201
           (JObj [("status", JStr "success");
                  ("message", JStr "Content added successfully");
                  ("data", content_json content (JArr [])
                                        (JStr (c_userId content)))]), db'))
    (fun error =>
       match error with
       | ZodError issues =>
           (res_status_json 400
              (JObj [("status", JStr "error");
                     ("message", JStr "Validation failed");
                     ("errors", JArr (map issue_json issues))]), db)
       | _ => (res_status_json 500 (error_body "Failed to add content"), db)
       end).

(** The documents [GET /content] sends: the caller's records with [userId]
    and [tags] populated. *)
Definition listed (db : Store) (l : list Content) : list json :=
  map (fun c => content_json c (JArr (populate_tags db (c_tags c)))
                             (populate_userId db (c_userId c))) l.

(** [app.get("/content", userMiddleware, ...)], after the guard *)
Definition get_content (userId : json) (db : Store) : response * Store :=
  try_catch
    (let* contents := ContentModel_find (QJson userId) db in
     Ok (res_json (JObj [("status", JStr "success");
                         ("data", JArr (listed db contents))]), db))
    (fun _ => (res_status_json 500 (error_body "Failed to fetch content"), db)).

(** [app.delete("/content", userMiddleware, ...)], after the guard *)
Definition delete_content (userId : json) (reqBody : json) (db : Store)
  : response * Store :=
  try_catch
    (let* contentId := destructure "contentId" reqBody in
     if negb (truthy contentId)
     then Ok (res_status_json 400 (error_body "Content ID is required"), db)
     else
       let* (deletedContent, db') :=
         ContentModel_findOneAndDelete contentId (QJson userId) db in
       match deletedContent with
       | None =>
           Ok (res_status_json 404
                 (error_body "Content not found or you don't have permission to delete it"),
               db')
       | Some _ =>
           Ok (res_json (JObj [("status", JStr "success");
                               ("message", JStr "Content deleted successfully")]),
               db')
       end)
    (fun _ => (res_status_json 500 (error_body "Failed to delete content"), db)).

(** [app.post("/brain/share", userMiddleware, ...)], after the guard *)
Definition post_brain_share (userId : json) (reqBody : json) (env : Env)
  (db : Store) : response * Store :=
  try_catch
    (let* share := destructure "share" reqBody in
     if truthy share then
       let* existingLink := ShareModel_findOne_userId (QJson userId) db in
       match existingLink with
       | Some existingLink =>
           Ok (res_json (JObj [("status", JStr "success");
                               ("hash", JStr (s_hash existingLink))]), db)
       | None =>
           let hash := random env 10 in
           let* db' := ShareModel_create (QJson userId) hash env db in
           Ok (res_json (JObj [("status", JStr "success");
                               ("hash", JStr hash);
                               ("message", JStr "Share link created")]), db')
       end
     else
       let* db' := ShareModel_deleteOne (QJson userId) db in
       Ok (res_json (JObj [("status", JStr "success");
                           ("message", JStr "Share link removed")]), db'))
    (fun _ => (res_status_json 500
                 (error_body "Failed to process share request"), db)).

(** The documents [GET /brain/:shareLink] sends: the owner's records with
    [tags] populated. *)
Definition shared (db : Store) (l : list Content) : list json :=
  map (fun c => content_json c (JArr (populate_tags db (c_tags c)))
                             (JStr (c_userId c))) l.

(** [app.get("/brain/:shareLink", ...)]: no guard in front of it *)
Definition get_brain (shareLink : string) (db : Store) : response * Store :=
  try_catch
    (let hash := shareLink in
     let link := ShareModel_findOne_hash hash db in
     match link with
     | None => Ok (res_status_json 404 (error_body "Share link not found"), db)
     | Some link =>
         let* content := ContentModel_find (QOid (s_userId link)) db in
         let* user := UserModel_findOne_id (QOid (s_userId link)) db in
         match user with
         | None => Ok (res_status_json 404 (error_body "User not found"), db)
         | Some user =>
             Ok (res_json
                   (JObj [("status", JStr "success");
                          ("data",
                           JObj [("username", JStr (u_username user));
                                 ("content", JArr (shared db content));
                                 ("sharedAt", JNum (s_createdAt link))])]), db)
         end
     end)
    (fun _ => (res_status_json 500
                 (error_body "Failed to fetch shared content"), db)).

(** *** The routes, with the guard where the application installs it *)

Inductive request : Type :=
| PostSignin (reqBody : json)
| PostLogin (reqBody : json)
| PostContent (authorization : option string) (reqBody : json)
| GetContent (authorization : option string)
| DeleteContent (authorization : option string) (reqBody : json)
| PostBrainShare (authorization : option string) (reqBody : json)
| GetBrain (shareLink : string).

Definition guarded (authorization : option string) (env : Env) (db : Store)
  (handler : json -> response * Store) : response * Store :=
  match userMiddleware authorization (now env) with
  | Rejected r => (r, db)
  | Next userId => handler userId
  end.

Definition handle (req : request) (env : Env) (db : Store) : response * Store :=
  match req with
  | PostSignin b => post_signin b env db
  | PostLogin b => post_login b env db
  | PostContent h b => guarded h env db (fun userId => post_content userId b env db)
  | GetContent h => guarded h env db (fun userId => get_content userId db)
  | DeleteContent h b => guarded h env db (fun userId => delete_content userId b db)
  | PostBrainShare h b =>
      guarded h env db (fun userId => post_brain_share userId b env db)
  | GetBrain hash => get_brain hash db
  end.

(** *** The handlers as Node runs them: suspended at each [await]

    Node runs one handler at a time up to its next [await].  At an [await]
    on a store operation the handler is suspended and other handlers may
    run; the store carries the operation out in one piece, and the handler
    goes on from its outcome.  (An [await] on bcrypt suspends the handler
    too, but neither reads nor writes the store.) *)

(** A handler in flight: it has answered, or it waits for a store operation.
    When the operation of [Await k w] is carried out in a store [db], it
    leaves the store [w db] and the handler goes on as [k db]. *)
Inductive prog : Type :=
| Done (r : response)
| Await (k : Store -> prog) (w : Store -> Store).

(** [await op] inside [try { ... } catch (error) { ... }]: the rest of the
    handler from the value of [op], or the catch clause when [op] throws. *)
Definition await {A : Type} (op : Store -> result (A * Store))
  (k : A -> prog) (catch : exn -> prog) : prog :=
  Await (fun db => match op db with
                   | Ok (a, _) => k a
                   | Throw e => catch e
                   end)
        (fun db => match op db with
                   | Ok (_, db') => db'
                   | Throw _ => db
                   end).

Definition reads {A : Type} (q : Store -> result A)
  : Store -> result (A * Store) :=
  fun db => let* a := q db in Ok (a, db).

Definition writes (u : Store -> result Store)
  : Store -> result (unit * Store) :=
  fun db => let* db' := u db in Ok (tt, db').

(** A handler run to its answer with no other handler in between. *)
Fixpoint run_prog (p : prog) (db : Store) : response * Store :=
  match p with
  | Done r => (r, db)
  | Await k w => run_prog (k db) (w db)
  end.

Definition post_signin_prog (reqBody : json) (env : Env) : prog :=
  let catch := fun _ : exn =>
    Done (res_status_json 500 (error_body "Internal server error")) in
  match userSchema_parse reqBody with
  | Throw e => catch e
  | Ok validatedData =>
      await (reads (fun db =>
               Ok (UserModel_findOne_username (in_username validatedData) db)))
        (fun existingUser =>
           match existingUser with
           | Some _ =>
               Done (res_status_json 409 (error_body "Username already exists"))
           | None =>
               await (writes (UserModel_create (in_username validatedData)
                                (in_password validatedData) env))
                 (fun _ =>
                    Done (res_status_json 201
                            (JObj [("status", JStr "success");
                                   ("message", JStr "User created successfully")])))
                 catch
           end)
        catch
  end.

Definition post_login_prog (reqBody : json) (env : Env) : prog :=
  let catch := fun _ : exn =>
    Done (res_status_json 500 (error_body "Internal server error")) in
  match userSchema_parse reqBody with
  | Throw e => catch e
  | Ok validatedData =>
      await (reads (fun db =>
               Ok (UserModel_findOne_username (in_username validatedData) db)))
        (fun user =>
           match user with
           | None => Done (res_status_json 401 (error_body "Invalid credentials"))
           | Some user =>
               if negb (comparePassword user (in_password validatedData))
               then Done (res_status_json 401 (error_body "Invalid credentials"))
               else
                 Done (res_json
                         (JObj [("status", JStr "success");
                                ("message", JStr "Login successful");
                                ("token",
                                 JStr (issue_token (u_id user) (now env)))]))
           end)
        catch
  end.

Definition post_content_prog (userId : json) (reqBody : json) (env : Env)
  : prog :=
  let catch := fun error : exn =>
    match error with
    | ZodError issues =>
        Done (res_status_json 400
                (JObj [("status", JStr "error");
                       ("message", JStr "Validation failed");
                       ("errors", JArr (map issue_json issues))]))
    | _ => Done (res_status_json 500 (error_body "Failed to add content"))
    end in
  match contentSchema_parse reqBody with
  | Throw e => catch e
  | Ok validatedData =>
      await (ContentModel_create (in_title validatedData)
               (in_link validatedData) [] (QJson userId) env)
        (fun content =>
           Done (res_status_json 201
                   (JObj [("status", JStr "success");
                          ("message", JStr "Content added successfully");
                          ("data", content_json content (JArr [])
                                                (JStr (c_userId content)))])))
        catch
  end.

Definition get_content_prog (userId : json) : prog :=
  await (reads (fun db =>
           let* contents := ContentModel_find (QJson userId) db in
           Ok (listed db contents)))
    (fun docs => Done (res_json (JObj [("status", JStr "success");
                                       ("data", JArr docs)])))
    (fun _ => Done (res_status_json 500 (error_body "Failed to fetch content"))).

Definition delete_content_prog (userId : json) (reqBody : json) : prog :=
  let catch := fun _ : exn =>
    Done (res_status_json 500 (error_body "Failed to delete content")) in
  match destructure "contentId" reqBody with
  | Throw e => catch e
  | Ok contentId =>
      if negb (truthy contentId)
      then Done (res_status_json 400 (error_body "Content ID is required"))
      else
        await (ContentModel_findOneAndDelete contentId (QJson userId))
          (fun deletedContent =>
             match deletedContent with
             | None =>
                 Done (res_status_json 404
                         (error_body "Content not found or you don't have permission to delete it"))
             | Some _ =>
                 Done (res_json (JObj [("status", JStr "success");
                                       ("message", JStr "Content deleted successfully")]))
             end)
          catch
  end.

Definition post_brain_share_prog (userId : json) (reqBody : json) (env : Env)
  : prog :=
  let catch := fun _ : exn =>
    Done (res_status_json 500 (error_body "Failed to process share request")) in
  match destructure "share" reqBody with
  | Throw e => catch e
  | Ok share =>
      if truthy share then
        await (reads (ShareModel_findOne_userId (QJson userId)))
          (fun existingLink =>
             match existingLink with
             | Some existingLink =>
                 Done (res_json (JObj [("status", JStr "success");
                                       ("hash", JStr (s_hash existingLink))]))
             | None =>
                 let hash := random env 10 in
                 await (writes (ShareModel_create (QJson userId) hash env))
                   (fun _ =>
                      Done (res_json (JObj [("status", JStr "success");
                                            ("hash", JStr hash);
                                            ("message", JStr "Share link created")])))
                   catch
             end)
          catch
      else
        await (writes (ShareModel_deleteOne (QJson userId)))
          (fun _ => Done (res_json (JObj [("status", JStr "success");
                                          ("message", JStr "Share link removed")])))
          catch
  end.

Definition get_brain_prog (shareLink : string) : prog :=
  let catch := fun _ : exn =>
    Done (res_status_json 500 (error_body "Failed to fetch shared content")) in
  let hash := shareLink in
  await (reads (fun db => Ok (ShareModel_findOne_hash hash db)))
    (fun link =>
       match link with
       | None => Done (res_status_json 404 (error_body "Share link not found"))
       | Some link =>
           await (reads (fun db =>
                    let* content := ContentModel_find (QOid (s_userId link)) db in
                    Ok (shared db content)))
             (fun content =>
                await (reads (UserModel_findOne_id (QOid (s_userId link))))
                  (fun user =>
                     match user with
                     | None =>
                         Done (res_status_json 404 (error_body "User not found"))
                     | Some user =>
                         Done (res_json
                                 (JObj [("status", JStr "success");
                                        ("data",
                                         JObj [("username", JStr (u_username user));
                                               ("content", JArr content);
                                               ("sharedAt",
                                                JNum (s_createdAt link))])]))
                     end)
                  catch)
             catch
       end)
    catch.

(** The guard runs in one piece before the handler starts. *)
Definition guarded_prog (authorization : option string) (env : Env)
  (handler : json -> prog) : prog :=
  match userMiddleware authorization (now env) with
  | Rejected r => Done r
  | Next userId => handler userId
  end.

(** A request as it enters the server. *)
Definition serve (req : request) (env : Env) : prog :=
  match req with
  | PostSignin b => post_signin_prog b env
  | PostLogin b => post_login_prog b env
  | PostContent h b => guarded_prog h env (fun userId => post_content_prog userId b env)
  | GetContent h => guarded_prog h env (fun userId => get_content_prog userId)
  | DeleteContent h b => guarded_prog h env (fun userId => delete_content_prog userId b)
  | PostBrainShare h b =>
      guarded_prog h env (fun userId => post_brain_share_prog userId b env)
  | GetBrain hash => get_brain_prog hash
  end.

(** The server with its handlers in flight.  It starts with no user, content
    or share (the tags are a table seeded beforehand) and no handler; a
    request may arrive at any time; and any suspended handler may be the
    next to have its store operation carried out. *)
Inductive in_flight : Store -> list prog -> Prop :=
| flight_init (seed : list Tag) :
    in_flight {| users := []; contents := []; tags := seed; shares := [] |} []
| flight_arrive (db : Store) (pool : list prog) (req : request) (env : Env) :
    in_flight db pool -> in_flight db (serve req env :: pool)
| flight_resume (db : Store) (pool1 pool2 : list prog)
    (k : Store -> prog) (w : Store -> Store) :
    in_flight db (pool1 ++ Await k w :: pool2) ->
    in_flight (w db) (pool1 ++ k db :: pool2).

(** The stores the server can be in, however its requests interleave. *)
Definition reachable (db : Store) : Prop :=
  exists pool, in_flight db pool.

End Server.

(** ** Reference instances of the library interfaces

    Small executable stand-ins with the shape of the real libraries' data,
    on which the handlers can be run: an [ObjectId] is 24 characters of
    text, a password hash is a string that [bcrypt_compare] recognises, a
    token is the key and the claims joined by dots, an issue is sent as an
    object with its code, its bounds, its path and its message. *)

Definition ref_castId (v : json) : option ObjectId :=
  match v with
  | JStr s => if (String.length s =? 24)%nat then Some s else None
  | _ => None
  end.

Fixpoint ref_castIds (items : list json) : option (list ObjectId) :=
  match items with
  | [] => Some []
  | v :: rest =>
      match ref_castId v, ref_castIds rest with
      | Some i, Some l => Some (i :: l)
      | _, _ => None
      end
  end.

(** The operators the stand-in knows: [$eq], [$ne] and [$in]. *)
Definition ref_condition (op : string) (arg : json) : option (ObjectId -> bool) :=
  if (op =? "$eq")%string then
    option_map (fun i j => (j =? i)%string) (ref_castId arg)
  else if (op =? "$ne")%string then
    match arg with
    | JNull => Some (fun _ => true)
    | _ => option_map (fun i j => negb (j =? i)%string) (ref_castId arg)
    end
  else if (op =? "$in")%string then
    match arg with
    | JArr items =>
        option_map (fun l j => existsb (String.eqb j) l) (ref_castIds items)
    | _ => None
    end
  else None.

Fixpoint ref_conditions (fields : list (string * json))
  : option (ObjectId -> bool) :=
  match fields with
  | [] => Some (fun _ => true)
  | (op, arg) :: rest =>
      match ref_condition op arg, ref_conditions rest with
      | Some p, Some q => Some (fun j => p j && q j)
      | _, _ => None
      end
  end.

Definition ref_mongoose : Mongoose :=
  {| castObjectId := ref_castId;
     castConditions := fun v =>
       match v with
       | JObj (field :: rest) => ref_conditions (field :: rest)
       | _ => None
       end |}.

Definition ref_zod : Zod :=
  {| issue_json := fun i =>
       let message default :=
         ("message", JStr match zi_message i with
                          | Some m => m
                          | None => default
                          end) in
       let path := ("path", JArr (map JStr (zi_path i))) in
       match zi_code i with
       | invalid_type expected received =>
           JObj [("code", JStr "invalid_type"); ("expected", JStr expected);
                 ("received", JStr received); path;
                 message (if (received =? "undefined")%string then "Required"
                          else ("Expected " ++ expected ++ ", received "
                                ++ received)%string)]
       | too_small n =>
           JObj [("code", JStr "too_small"); ("minimum", JNum (Z.of_nat n));
                 ("type", JStr "string"); ("inclusive", JBool true);
                 ("exact", JBool false); message EmptyString; path]
       | too_big n =>
           JObj [("code", JStr "too_big"); ("maximum", JNum (Z.of_nat n));
                 ("type", JStr "string"); ("inclusive", JBool true);
                 ("exact", JBool false); message EmptyString; path]
       end |}.

Definition ref_bcrypt : Bcrypt :=
  {| bcrypt_hash := fun password salt => (password ++ "$" ++ salt)%string;
     bcrypt_compare := fun candidate hash => String.prefix (candidate ++ "$")%string hash |}.

Fixpoint split_on (sep : ascii) (s : string) : list string :=
  match s with
  | EmptyString => [EmptyString]
  | String c rest =>
      match split_on sep rest with
      | [] => [EmptyString]
      | w :: ws => if Ascii.eqb c sep then EmptyString :: w :: ws
                   else String c w :: ws
      end
  end.

Definition decimal (z : Z) : string :=
  DecimalString.NilZero.string_of_int (Z.to_int z).

Definition of_decimal (s : string) : option Z :=
  option_map Z.of_int (DecimalString.NilZero.int_of_string s).

Definition ref_jsonwebtoken : JsonWebToken :=
  {| jwt_encode := fun key claims =>
       match claims with
       | JObj [("id", JStr id); ("iat", JNum iat); ("exp", JNum exp)] =>
           (key ++ "." ++ id ++ "." ++ decimal iat ++ "." ++ decimal exp)%string
       | _ => EmptyString
       end;
     jwt_decode := fun key token =>
       match split_on "." token with
       | [k; id; iat; exp] =>
           if (k =? key)%string then
             match of_decimal iat, of_decimal exp with
             | Some iat, Some exp =>
                 Some (JObj [("id", JStr id); ("iat", JNum iat); ("exp", JNum exp)])
             | _, _ => None
             end
           else None
       | _ => None
       end |}.

Definition ref_env : Env :=
  {| now := 1700000000000; newObjectId := "65a0000000000000000000ff";
     genSalt := fun _ => "saltsaltsaltsaltsaltsa";
     random := fun _ => "a1b2c3d4e5" |}.

Definition alice : ObjectId := "65a000000000000000000001".
Definition bob : ObjectId := "65a000000000000000000002".

(** A store with two users, three bookmarks and one share mapping. *)
Definition ref_store : Store :=
  {| users :=
       [ {| u_id := alice; u_username := "alice";
            u_password := "secret1$saltsaltsaltsaltsaltsa" |};
         {| u_id := bob; u_username := "bob";
            u_password := "hunter22$saltsaltsaltsaltsaltsa" |} ];
     contents :=
       [ {| c_id := "65a000000000000000000011"; c_title := "rocq";
            c_link := "https://rocq-prover.org"; c_tags := ["65a000000000000000000021"];
            c_userId := alice |};
         {| c_id := "65a000000000000000000012"; c_title := "news";
            c_link := "https://example.org/news"; c_tags := [];
            c_userId := bob |};
         {| c_id := "65a000000000000000000013"; c_title := "docs";
            c_link := "https://example.org/docs"; c_tags := [];
            c_userId := alice |} ];
     tags :=
       [ {| t_id := "65a000000000000000000021"; t_name := "proofs";
            t_color := "#007bff" |} ];
     shares :=
       [ {| s_id := "65a000000000000000000031"; s_hash := "h4shh4shh4";
            s_userId := alice; s_createdAt := 1699999999000 |} ] |}.

Definition ref_env2 : Env :=
  {| now := 1700000060000; newObjectId := "65a0000000000000000000fe";
     genSalt := fun _ => "pepperpepperpepperpepp";
     random := fun _ => "z9y8x7w6v5" |}.

(** A signing secret for the worked instances. *)
Definition ref_key : string := "k3y".

(** The store before the first request, with one seeded tag. *)
Definition ref_init : Store :=
  {| users := []; contents := [];
     tags := [ {| t_id := "65a000000000000000000021"; t_name := "proofs";
                  t_color := "#007bff" |} ];
     shares := [] |}.

(** A store that agrees with [ref_store] on what alice owns, on the tags
    and on the users up to their passwords, and on nothing else. *)
Definition ref_store_other : Store :=
  {| users :=
       [ {| u_id := alice; u_username := "alice"; u_password := "x" |};
         {| u_id := bob; u_username := "bob"; u_password := "y" |} ];
     contents :=
       [ {| c_id := "65a000000000000000000011"; c_title := "rocq";
            c_link := "https://rocq-prover.org"; c_tags := ["65a000000000000000000021"];
            c_userId := alice |};
         {| c_id := "65a000000000000000000013"; c_title := "docs";
            c_link := "https://example.org/docs"; c_tags := [];
            c_userId := alice |};
         {| c_id := "65a000000000000000000014"; c_title := "misc";
            c_link := "https://example.org/misc"; c_tags := [];
            c_userId := bob |} ];
     tags :=
       [ {| t_id := "65a000000000000000000021"; t_name := "proofs";
            t_color := "#007bff" |} ];
     shares := [] |}.

Definition alice_body : json :=
  JObj [("username", JStr "alice"); ("password", JStr "secret1")].

Definition alice_user : User :=
  {| u_id := alice; u_username := "alice";
     u_password := "secret1$saltsaltsaltsaltsaltsa" |}.


Definition alice_share : Share :=
  {| s_id := "65a000000000000000000031"; s_hash := "h4shh4shh4";
     s_userId := alice; s_createdAt := 1699999999000 |}.

Definition new_bookmark : json :=
  JObj [("title", JStr " new "); ("link", JStr "https://example.org/new")].

(** U+00A0 (no-break space) and U+00E9 (e with acute accent), two bytes and
    one UTF-16 code unit each. *)
Definition nbsp : string :=
  String (ascii_of_nat 194) (String (ascii_of_nat 160) EmptyString).
Definition e_acute : string :=
  String (ascii_of_nat 195) (String (ascii_of_nat 169) EmptyString).

(** * Vocabulary of the statements

    The predicates and the responses the theorems below speak of. *)

Section Vocabulary.

Context {mongoose : Mongoose} {bcrypt : Bcrypt} {zod : Zod}.

(** A record with identifier [cid] exists and is owned by [B]. *)
Definition owned_by (db : Store) (cid B : ObjectId) : Prop :=
  exists c, In c (contents db) /\ c_id c = cid /\ c_userId c = B.

Definition not_found_or_forbidden : response :=
  res_status_json 404
    (error_body "Content not found or you don't have permission to delete it").

Definition content_deleted : response :=
  res_json (JObj [("status", JStr "success");
                  ("message", JStr "Content deleted successfully")]).

Definition content_id_required : response :=
  res_status_json 400 (error_body "Content ID is required").

Definition failed_to_delete_content : response :=
  res_status_json 500 (error_body "Failed to delete content").

(** The store with every password field blanked. *)
Definition forget_password (u : User) : User :=
  {| u_id := u_id u; u_username := u_username u; u_password := EmptyString |}.
Definition forget_passwords (db : Store) : Store :=
  set_users db (map forget_password (users db)).


(** The tag documents a list of references stands for, in the order of the
    references: a reference to a tag of the store stands for that tag's
    identifier, name and colour, and a reference to no tag for nothing. *)
Inductive tags_attached (db : Store) : list ObjectId -> list json -> Prop :=
| attached_nil : tags_attached db [] []
| attached_tag (i : ObjectId) (ids : list ObjectId) (t : Tag) (docs : list json) :
    In t (tags db) -> t_id t = i ->
    tags_attached db ids docs ->
    tags_attached db (i :: ids)
      (JObj [("_id", JStr i); ("name", JStr (t_name t));
             ("color", JStr (t_color t))] :: docs)
| attached_dangling (i : ObjectId) (ids : list ObjectId) (docs : list json) :
    (forall t, In t (tags db) -> t_id t <> i) ->
    tags_attached db ids docs ->
    tags_attached db (i :: ids) docs.

(** A record as the public lookup sends it: its own fields, the tag
    documents in place of the references, the owner as an identifier. *)
Definition public_record (db : Store) (c : Content) (doc : json) : Prop :=
  exists tagDocs,
    tags_attached db (c_tags c) tagDocs
    /\ doc = JObj [("_id", JStr (c_id c)); ("title", JStr (c_title c));
                   ("link", JStr (c_link c)); ("tags", JArr tagDocs);
                   ("userId", JStr (c_userId c)); ("__v", JNum 0)].

(** The claims [POST /login] signs for user [u] at clock [t0] (ms). *)
Definition login_claims (u : ObjectId) (t0 : Z) : json :=
  JObj [("id", JStr u); ("iat", JNum (t0 / 1000));
        ("exp", JNum (t0 / 1000 + 86400))].

Definition is_401 (g : guard) : Prop :=
  exists r, g = Rejected r /\ status r = 401.

Definition invalid_credentials : response :=
  res_status_json 401 (error_body "Invalid credentials").

Definition share_enabled (hash : string) : json :=
  JObj [("status", JStr "success"); ("hash", JStr hash)].

Definition share_removed : response :=
  res_json (JObj [("status", JStr "success");
                  ("message", JStr "Share link removed")]).

(** A password field that holds an output of [bcrypt.hash]. *)
Definition hashed (u : User) : Prop :=
  exists password salt, u_password u = bcrypt_hash password salt.

(** A title as [contentSchema] and [ContentSchema] let it in. *)
Definition title_ok (c : Content) : Prop :=
  trim (c_title c) = c_title c /\ c_title c <> EmptyString
  /\ (js_length (c_title c) <= 200)%nat.

(** Every store operation leaves the store as it was, appends one document
    that the unique indexes admit, or removes one document. *)
Inductive store_step (db : Store) : Store -> Prop :=
| step_stay : store_step db db
| step_insert_user (u : User) :
    ~ In (u_id u) (map u_id (users db)) ->
    ~ In (u_username u) (map u_username (users db)) ->
    hashed u ->
    store_step db (set_users db (users db ++ [u]))
| step_insert_content (c : Content) :
    ~ In (c_id c) (map c_id (contents db)) ->
    ~ In (c_title c) (map c_title (contents db)) ->
    title_ok c ->
    store_step db (set_contents db (contents db ++ [c]))
| step_delete_content (p : Content -> bool) :
    store_step db (set_contents db (remove_first p (contents db)))
| step_insert_share (s : Share) :
    ~ In (s_hash s) (map s_hash (shares db)) ->
    store_step db (set_shares db (shares db ++ [s]))
| step_delete_share (p : Share -> bool) :
    store_step db (set_shares db (remove_first p (shares db))).

Record store_inv (db : Store) : Prop :=
  { inv_user_ids : NoDup (map u_id (users db));
    inv_usernames : NoDup (map u_username (users db));
    inv_hashed : Forall hashed (users db);
    inv_content_ids : NoDup (map c_id (contents db));
    inv_titles : NoDup (map c_title (contents db));
    inv_title_ok : Forall title_ok (contents db);
    inv_share_hashes : NoDup (map s_hash (shares db)) }.

(** The store operations the handlers issue, with the arguments the
    handlers give them: a read, or one of the five writes. *)
Inductive store_op (db : Store) : Store -> Prop :=
| op_read : store_op db db
| op_create_user (reqBody : json) (v : UserInput) (env : Env) (db' : Store) :
    userSchema_parse reqBody = Ok v ->
    UserModel_create (in_username v) (in_password v) env db = Ok db' ->
    store_op db db'
| op_create_content (reqBody : json) (v : ContentInput) (userId : json)
    (env : Env) (c : Content) (db' : Store) :
    contentSchema_parse reqBody = Ok v ->
    ContentModel_create (in_title v) (in_link v) [] (QJson userId) env db
    = Ok (c, db') ->
    store_op db db'
| op_delete_content (contentId userId : json) (deleted : option Content)
    (db' : Store) :
    ContentModel_findOneAndDelete contentId (QJson userId) db
    = Ok (deleted, db') ->
    store_op db db'
| op_create_share (userId : json) (env : Env) (db' : Store) :
    ShareModel_create (QJson userId) (random env 10) env db = Ok db' ->
    store_op db db'
| op_delete_share (userId : json) (db' : Store) :
    ShareModel_deleteOne (QJson userId) db = Ok db' ->
    store_op db db'.

(** Every store operation a handler in flight may still carry out moves the
    store by [R]. *)
Inductive safe (R : Store -> Store -> Prop) : prog -> Prop :=
| safe_done (r : response) : safe R (Done r)
| safe_await (k : Store -> prog) (w : Store -> Store) :
    (forall db, R db (w db)) -> (forall db, safe R (k db)) ->
    safe R (Await k w).

(** The document a successful signup appends. *)
Definition registered (v : UserInput) (env : Env) : User :=
  {| u_id := newObjectId env; u_username := in_username v;
     u_password := bcrypt_hash (in_password v) (genSalt env 10) |}.

Definition login_ok (token : string) : response :=
  res_json (JObj [("status", JStr "success");
                  ("message", JStr "Login successful");
                  ("token", JStr token)]).

Definition internal_server_error : response :=
  res_status_json 500 (error_body "Internal server error").

(** A body whose username is too short for [userSchema]. *)
Definition short_username_body : json :=
  JObj [("username", JStr "ab"); ("password", JStr "secret1")].

Definition failed_to_add_content : response :=
  res_status_json 500 (error_body "Failed to add content").

End Vocabulary.

(** * Vocabulary of the further properties *)

Section Runs.

Context {mongoose : Mongoose} {bcrypt : Bcrypt} {jsonwebtoken : JsonWebToken}
        {zod : Zod}.
Variable JWT_PASSWORD : string.

(** The store after a sequence of requests handled one after the other,
    each with what it draws from its surroundings. *)
Fixpoint run (reqs : list (request * Env)) (db : Store) : Store :=
  match reqs with
  | [] => db
  | (req, env) :: rest => run rest (snd (handle JWT_PASSWORD req env db))
  end.

End Runs.

(** The one request that registers a user. *)
Definition is_signin (req : request) : bool :=
  match req with
  | PostSignin _ => true
  | _ => false
  end.

(** The requests that write contents, and the one that writes mappings. *)
Definition is_content_write (req : request) : bool :=
  match req with
  | PostContent _ _ | DeleteContent _ _ => true
  | _ => false
  end.

Definition is_share_write (req : request) : bool :=
  match req with
  | PostBrainShare _ _ => true
  | _ => false
  end.

Definition user_created : response :=
  res_status_json 201
    (JObj [("status", JStr "success");
           ("message", JStr "User created successfully")]).

Definition username_exists : response :=
  res_status_json 409 (error_body "Username already exists").

Definition content_added (c : Content) : response :=
  res_status_json 201
    (JObj [("status", JStr "success");
           ("message", JStr "Content added successfully");
           ("data", content_json c (JArr []) (JStr (c_userId c)))]).

Definition validation_failed {zod : Zod} (issues : list zod_issue) : response :=
  res_status_json 400
    (JObj [("status", JStr "error"); ("message", JStr "Validation failed");
           ("errors", JArr (map issue_json issues))]).

Definition content_list (docs : list json) : response :=
  res_json (JObj [("status", JStr "success"); ("data", JArr docs)]).

Definition share_created (hash : string) : response :=
  res_json (JObj [("status", JStr "success"); ("hash", JStr hash);
                  ("message", JStr "Share link created")]).

Definition share_failed : response :=
  res_status_json 500 (error_body "Failed to process share request").

Definition share_link_not_found : response :=
  res_status_json 404 (error_body "Share link not found").

(** The record [POST /content] stores for a caller [owner]. *)
Definition new_content (v : ContentInput) (owner : ObjectId) (env : Env)
  : Content :=
  {| c_id := newObjectId env; c_title := in_title v; c_link := in_link v;
     c_tags := []; c_userId := owner |}.

(** The mapping [POST /brain/share] stores for a caller [owner]. *)
Definition new_share (owner : ObjectId) (env : Env) : Share :=
  {| s_id := newObjectId env; s_hash := random env 10; s_userId := owner;
     s_createdAt := now env |}.

(** The shape of the documents as the routes write them. *)
Definition username_ok (u : User) : Prop :=
  trim (u_username u) = u_username u
  /\ (3 <= js_length (u_username u) <= 50)%nat.

Record well_shaped (db : Store) : Prop :=
  { shape_usernames : Forall username_ok (users db);
    shape_no_tags : Forall (fun c => c_tags c = []) (contents db);
    shape_links : Forall (fun c => c_link c <> EmptyString
                            /\ (js_length (c_link c) <= 2000)%nat)
                         (contents db);
    shape_hashes : Forall (fun s => s_hash s <> EmptyString) (shares db) }.

(** Every document of [db'] is a document of [db] or one in the shape the
    routes write. *)
Definition shape_step (db db' : Store) : Prop :=
  (forall u, In u (users db') -> In u (users db) \/ username_ok u)
  /\ (forall c, In c (contents db') ->
       In c (contents db)
       \/ (c_tags c = [] /\ c_link c <> EmptyString
           /\ (js_length (c_link c) <= 2000)%nat))
  /\ (forall s, In s (shares db') -> In s (shares db) \/ s_hash s <> EmptyString).

(** * Properties *)

(** ** Lists: the first match and its removal *)

Lemma remove_first_none {A : Type} (p : A -> bool) (l : list A) :
  find p l = None -> remove_first p l = l.
Proof.
  induction l as [|x l IH]; simpl; [reflexivity|].
  destruct (p x); [discriminate|].
  intros Hnone. now rewrite IH.
Qed.

Lemma remove_first_split {A : Type} (p : A -> bool) (l : list A) (x : A) :
  find p l = Some x ->
  exists l1 l2, l = l1 ++ x :: l2 /\ remove_first p l = l1 ++ l2 /\ p x = true.
Proof.
  induction l as [|y l IH]; simpl; [discriminate|].
  destruct (p y) eqn:Hy.
  - intros [= ->]. now exists [], l.
  - intros Hfind. destruct (IH Hfind) as (l1 & l2 & -> & Hrm & Hx).
    exists (y :: l1), l2. simpl. now rewrite Hrm.
Qed.

Lemma find_none_iff {A : Type} (p : A -> bool) (l : list A) :
  find p l = None <-> forall x, In x l -> p x = false.
Proof.
  split; [apply find_none|].
  induction l as [|y l IH]; simpl; [reflexivity|].
  intros Hall. rewrite (Hall y (or_introl eq_refl)).
  apply IH. intros x Hx. apply Hall. now right.
Qed.

Lemma existsb_false_iff {A : Type} (p : A -> bool) (l : list A) :
  existsb p l = false <-> forall x, In x l -> p x = false.
Proof.
  split.
  - intros Hex x Hx. destruct (p x) eqn:Hp; [|reflexivity].
    rewrite <- Hex. symmetry. apply existsb_exists. now exists x.
  - intros Hall. destruct (existsb p l) eqn:Hex; [|reflexivity].
    apply existsb_exists in Hex as (x & Hx & Hp).
    now rewrite (Hall x Hx) in Hp.
Qed.

(** ** Strings: facts about [trim] and [length] *)

Lemma drop_prefix_app (w l r : list ascii) :
  drop_prefix w l = Some r -> l = w ++ r.
Proof.
  revert l. induction w as [|a w IH]; intros l; simpl.
  - now intros [= ->].
  - destruct l as [|b l]; [discriminate|].
    destruct (Ascii.eqb_spec a b) as [->|]; [|discriminate].
    intros H. now rewrite (IH l H).
Qed.

Lemma drop_prefix_self (w r : list ascii) : drop_prefix w (w ++ r) = Some r.
Proof.
  induction w as [|a w IH]; simpl; [reflexivity|]. now rewrite Ascii.eqb_refl.
Qed.

Lemma strip_one_app (pats : list (list ascii)) (l r : list ascii) :
  strip_one pats l = Some r -> exists w, In w pats /\ l = w ++ r.
Proof.
  induction pats as [|w pats IH]; simpl; [discriminate|].
  destruct (drop_prefix w l) as [r'|] eqn:Hd.
  - intros [= <-]. exists w. split; [now left|]. now apply drop_prefix_app.
  - intros H. destruct (IH H) as (w' & Hin & ->). exists w'. split; [now right|reflexivity].
Qed.

Lemma strip_one_extend (pats : list (list ascii)) (b q : list ascii) :
  strip_one pats (b ++ q) = None -> strip_one pats b = None.
Proof.
  induction pats as [|w pats IH]; simpl; [reflexivity|].
  destruct (drop_prefix w (b ++ q)) eqn:Hd; [discriminate|].
  intros H. destruct (drop_prefix w b) as [r|] eqn:Hb.
  - apply drop_prefix_app in Hb. subst b. rewrite <- app_assoc, drop_prefix_self in Hd.
    discriminate.
  - now apply IH.
Qed.

Lemma strip_all_suffix (pats : list (list ascii)) (n : nat) (l : list ascii) :
  exists p, l = p ++ strip_all pats n l.
Proof.
  revert l. induction n as [|n IH]; intros l; simpl; [now exists []|].
  destruct (strip_one pats l) as [r|] eqn:Hs; [|now exists []].
  destruct (strip_one_app _ _ _ Hs) as (w & _ & ->).
  destruct (IH r) as (p & Hp). exists (w ++ p). now rewrite <- app_assoc, <- Hp.
Qed.

Lemma strip_all_fixed (pats : list (list ascii)) (n : nat) (l : list ascii) :
  strip_one pats l = None -> strip_all pats n l = l.
Proof. intros H. destruct n; simpl; [reflexivity|]. now rewrite H. Qed.

Lemma strip_all_done (pats : list (list ascii)) (n : nat) (l : list ascii) :
  Forall (fun w => w <> []) pats -> (List.length l <= n)%nat ->
  strip_one pats (strip_all pats n l) = None.
Proof.
  intros Hne. revert l. induction n as [|n IH]; intros l Hlen; simpl.
  - destruct l; [|simpl in Hlen; lia].
    destruct (strip_one pats []) as [r|] eqn:Hs; [|reflexivity].
    destruct (strip_one_app _ _ _ Hs) as (w & Hin & Heq).
    rewrite Forall_forall in Hne. specialize (Hne w Hin).
    destruct w; [contradiction|discriminate].
  - destruct (strip_one pats l) as [r|] eqn:Hs; [|assumption].
    apply IH. destruct (strip_one_app _ _ _ Hs) as (w & Hin & ->).
    rewrite Forall_forall in Hne. specialize (Hne w Hin).
    rewrite length_app in Hlen. destruct w; [contradiction|simpl in Hlen; lia].
Qed.

Lemma whitespace_nonempty : Forall (fun w : list ascii => w <> []) whitespace.
Proof. repeat constructor; discriminate. Qed.

Lemma whitespace_rev_nonempty :
  Forall (fun w : list ascii => w <> []) (map (@rev ascii) whitespace).
Proof. repeat constructor; discriminate. Qed.

Lemma trimStart_bytes_done (l : list ascii) :
  strip_one whitespace (trimStart_bytes l) = None.
Proof. apply strip_all_done; [apply whitespace_nonempty|lia]. Qed.

Lemma trimEnd_bytes_prefix (l : list ascii) : exists q, l = trimEnd_bytes l ++ q.
Proof.
  unfold trimEnd_bytes.
  destruct (strip_all_suffix (map (@rev ascii) whitespace) (List.length l) (rev l))
    as (p & Hp).
  exists (rev p). rewrite <- rev_app_distr, <- Hp. now rewrite rev_involutive.
Qed.

Lemma trimEnd_bytes_idempotent (l : list ascii) :
  trimEnd_bytes (trimEnd_bytes l) = trimEnd_bytes l.
Proof.
  unfold trimEnd_bytes at 1. rewrite strip_all_fixed.
  - apply rev_involutive.
  - unfold trimEnd_bytes. rewrite rev_involutive.
    apply strip_all_done; [apply whitespace_rev_nonempty|]. rewrite length_rev. lia.
Qed.

Lemma trim_bytes_idempotent (l : list ascii) :
  trimEnd_bytes (trimStart_bytes (trimEnd_bytes (trimStart_bytes l)))
  = trimEnd_bytes (trimStart_bytes l).
Proof.
  set (a := trimStart_bytes l).
  assert (Hb : trimStart_bytes (trimEnd_bytes a) = trimEnd_bytes a).
  { unfold trimStart_bytes at 1. apply strip_all_fixed.
    destruct (trimEnd_bytes_prefix a) as (q & Hq).
    apply (strip_one_extend _ _ q). rewrite <- Hq. apply trimStart_bytes_done. }
  rewrite Hb. apply trimEnd_bytes_idempotent.
Qed.

Lemma trim_idempotent (s : string) : trim (trim s) = trim s.
Proof.
  unfold trim. rewrite list_ascii_of_string_of_list_ascii.
  now rewrite trim_bytes_idempotent.
Qed.

Lemma utf16_units_app_le (l q : list ascii) (p : nat) (a : bool) :
  (utf16_units p a l <= utf16_units p a (l ++ q))%nat.
Proof.
  revert p a. induction l as [|c l IH]; intros p a; simpl; [lia|].
  destruct (is_continuation c).
  - destruct p; [specialize (IH 0%nat false); lia|].
    apply Nat.add_le_mono_l, IH.
  - apply le_n_S, IH.
Qed.

Lemma utf16_units_whitespace :
  Forall (fun w => forall p a r, utf16_units p a (w ++ r) = S (utf16_units 0 false r))
         whitespace.
Proof. repeat constructor. Qed.

Lemma utf16_units_strip_all (pats : list (list ascii)) (n : nat) (l : list ascii) :
  Forall (fun w => forall p a r,
            utf16_units p a (w ++ r) = S (utf16_units 0 false r)) pats ->
  (utf16_units 0 false (strip_all pats n l) <= utf16_units 0 false l)%nat.
Proof.
  intros Hw. rewrite Forall_forall in Hw.
  revert l. induction n as [|n IH]; intros l; cbn [strip_all]; [lia|].
  destruct (strip_one pats l) as [r|] eqn:Hs; [|lia].
  destruct (strip_one_app _ _ _ Hs) as (w & Hin & ->).
  rewrite (Hw w Hin). specialize (IH r). lia.
Qed.

Lemma js_length_trim (s : string) : (js_length (trim s) <= js_length s)%nat.
Proof.
  unfold js_length, trim. rewrite list_ascii_of_string_of_list_ascii.
  set (l := list_ascii_of_string s).
  destruct (trimEnd_bytes_prefix (trimStart_bytes l)) as (q & Hq).
  pose proof (utf16_units_app_le (trimEnd_bytes (trimStart_bytes l)) q 0 false) as H1.
  rewrite <- Hq in H1.
  pose proof (utf16_units_strip_all whitespace (List.length l) l
                utf16_units_whitespace) as H2.
  unfold trimStart_bytes in *. lia.
Qed.

Lemma utf16_units_le (l : list ascii) (p : nat) (a : bool) :
  (utf16_units p a l <= List.length l)%nat.
Proof.
  revert p a. induction l as [|c l IH]; intros p a; simpl; [lia|].
  destruct (is_continuation c).
  - destruct p; [specialize (IH 0%nat false); lia|].
    specialize (IH p a). destruct ((p =? 0)%nat && a); lia.
  - apply le_n_S, IH.
Qed.

Lemma list_ascii_length (s : string) :
  List.length (list_ascii_of_string s) = String.length s.
Proof. induction s; simpl; congruence. Qed.

Lemma js_length_le (s : string) : (js_length s <= String.length s)%nat.
Proof.
  unfold js_length. rewrite <- list_ascii_length. apply utf16_units_le.
Qed.

Lemma js_length_pos (s : string) : s <> EmptyString -> (1 <= js_length s)%nat.
Proof.
  destruct s as [|c s]; [contradiction|]. intros _. unfold js_length. simpl.
  destruct (is_continuation c); lia.
Qed.

(** ** Reading the body *)

Lemma destructure_ok (k : string) (v : json) :
  nullish v = false -> destructure k v = Ok (prop k v).
Proof. now destruct v. Qed.

Lemma destructure_nullish (k : string) (v : json) :
  nullish v = true -> destructure k v = Throw TypeError.
Proof. now destruct v. Qed.

Lemma destructure_truthy (k : string) (v : json) :
  truthy (prop k v) = true -> destructure k v = Ok (prop k v).
Proof. now destruct v. Qed.

Section Properties.

Context {mongoose : Mongoose} {bcrypt : Bcrypt} {jsonwebtoken : JsonWebToken}
        {zod : Zod}.
Variable JWT_PASSWORD : string.

(** ** Content: delete by owner *)

Lemma find_owned (db : Store) (cid B : ObjectId) :
  let matches c := ((c_id c =? cid)%string && (c_userId c =? B)%string)%bool in
  (owned_by db cid B <-> exists c, find matches (contents db) = Some c).
Proof.
  intros matches. split.
  - intros (c & Hin & Hid & Hown).
    destruct (find matches (contents db)) as [c'|] eqn:Hfind; [now exists c'|].
    pose proof (find_none _ _ Hfind c Hin) as Hc. unfold matches in Hc.
    subst. now rewrite !String.eqb_refl in Hc.
  - intros (c & Hfind). apply find_some in Hfind as (Hin & Hm).
    unfold matches in Hm. apply andb_true_iff in Hm as (Hid & Hown).
    apply String.eqb_eq in Hid, Hown. now exists c.
Qed.

Lemma castFilter_id (v : json) (i : ObjectId) :
  castObjectId v = Some i -> castFilter v = Ok (fun j => (j =? i)%string).
Proof. intros Hcast. unfold castFilter. now rewrite Hcast. Qed.

(** What a delete does to the store, whatever the body. *)
Lemma delete_content_contents (userId reqBody : json) (db : Store) :
  snd (delete_content userId reqBody db) = db
  \/ exists meets owner,
       castObjectId userId = Some owner
       /\ snd (delete_content userId reqBody db)
          = set_contents db
              (remove_first
                 (fun c => (meets (c_id c) && (c_userId c =? owner)%string)%bool)
                 (contents db)).
Proof.
  unfold delete_content, ContentModel_findOneAndDelete.
  destruct (destructure "contentId" reqBody) as [contentId|e]; [|now left].
  cbn [bind].
  destruct (truthy contentId); [|now left]. cbn [negb castQuery].
  destruct (castFilter contentId) as [meets|e]; [|now left].
  destruct (castObjectId userId) as [owner|]; [|now left].
  right. exists meets, owner. split; [reflexivity|]. cbn [bind try_catch].
  now destruct (find _ (contents db)).
Qed.

Lemma In_remove_first {A : Type} (p : A -> bool) (l : list A) (x : A) :
  In x (remove_first p l) -> In x l.
Proof.
  induction l as [|y l IH]; simpl; [tauto|].
  destruct (p y); simpl; tauto.
Qed.

Lemma In_remove_first_keep {A : Type} (p : A -> bool) (l : list A) (x : A) :
  In x l -> p x = false -> In x (remove_first p l).
Proof.
  induction l as [|y l IH]; simpl; [tauto|].
  intros [->|Hin] Hp.
  - rewrite Hp. now left.
  - destruct (p y); [assumption|]. right. now apply IH.
Qed.

(** [C1] For a caller whose identity is [B].  When the body carries a
    [contentId] that is truthy and that the store reads as the identifier
    [cid]: if a record with that identifier exists and is owned by [B], the
    delete answers 200 and removes exactly that record, and the caller's
    next list holds the caller's other records and not the deleted one; in
    every other case (no such record, or a record of another user) the
    answer is the one 404 response and the store is unchanged.  A body whose
    [contentId] is missing or falsy is answered 400, and a body that cannot
    be read, or whose [contentId] the store cannot read, is answered 500; in
    both cases nothing is deleted.  Whatever the body, no record of another
    owner is removed and no record is added. *)
Theorem delete_content_owner_only (userId reqBody : json) (db : Store)
  (B : ObjectId) :
  castObjectId userId = Some B ->
  let out := delete_content userId reqBody db in
  (forall cid,
     truthy (prop "contentId" reqBody) = true ->
     castObjectId (prop "contentId" reqBody) = Some cid ->
     (owned_by db cid B ->
        fst out = content_deleted
        /\ exists l1 c l2,
             contents db = l1 ++ c :: l2 /\ c_id c = cid /\ c_userId c = B
             /\ snd out = set_contents db (l1 ++ l2)
             /\ contents (snd out) = l1 ++ l2
             /\ (NoDup (map c_id (contents db)) ->
                 exists l docs,
                   fst (get_content userId (snd out))
                   = res_json (JObj [("status", JStr "success");
                                     ("data", JArr docs)])
                   /\ map (prop "_id") docs = map (fun x => JStr (c_id x)) l
                   /\ forall x, In x l <->
                        (In x (contents db) /\ c_userId x = B /\ c_id x <> cid)))
     /\ (~ owned_by db cid B -> out = (not_found_or_forbidden, db)))
  /\ (nullish reqBody = false -> truthy (prop "contentId" reqBody) = false ->
      out = (content_id_required, db))
  /\ (nullish reqBody = true -> out = (failed_to_delete_content, db))
  /\ (truthy (prop "contentId" reqBody) = true ->
      castObjectId (prop "contentId" reqBody) = None ->
      castConditions (prop "contentId" reqBody) = None ->
      out = (failed_to_delete_content, db))
  /\ (forall c, In c (contents db) -> c_userId c <> B ->
        In c (contents (snd out)))
  /\ (forall c, In c (contents (snd out)) -> In c (contents db)).
Proof.
  intros HB out. subst out.
  split; [|split; [|split; [|split; [|split]]]].
  - intros cid Htruthy Hcid.
    unfold delete_content, ContentModel_findOneAndDelete.
    rewrite (destructure_truthy _ _ Htruthy). cbn [bind]. rewrite Htruthy.
    cbn [negb castQuery]. rewrite (castFilter_id _ _ Hcid), HB.
    cbn [bind try_catch].
    set (matches := fun c => ((c_id c =? cid)%string && (c_userId c =? B)%string)%bool).
    split.
    + intros Hown. apply find_owned in Hown as (c & Hfind).
      fold matches in Hfind. rewrite Hfind. cbn [bind try_catch fst snd].
      split; [reflexivity|].
      destruct (remove_first_split _ _ _ Hfind) as (l1 & l2 & Hl & Hrm & Hm).
      unfold matches in Hm. apply andb_true_iff in Hm as (Hid & Hown).
      apply String.eqb_eq in Hid, Hown.
      exists l1, c, l2. rewrite Hrm.
      split; [assumption|]. split; [assumption|]. split; [assumption|].
      split; [reflexivity|]. split; [reflexivity|].
      intros Hnodup.
      unfold get_content, ContentModel_find. cbn [castQuery]. rewrite HB.
      cbn [bind try_catch fst contents set_contents].
      eexists. eexists. split; [reflexivity|].
      split; [unfold listed; rewrite map_map; now apply map_ext|].
      intros x. rewrite filter_In, String.eqb_eq, Hl, !in_app_iff. cbn [In].
      rewrite Hl, map_app in Hnodup. cbn [map] in Hnodup.
      apply NoDup_remove_2 in Hnodup. rewrite <- map_app in Hnodup.
      split.
      * intros (Hin & Hx). split; [tauto|]. split; [assumption|].
        intros Heq. apply Hnodup. rewrite Hid, <- Heq.
        apply in_map, in_app_iff, Hin.
      * intros (Hin & Hx & Hne). split; [|assumption].
        destruct Hin as [Hin|[Heq|Hin]]; [now left| |now right].
        subst x. contradiction.
    + intros Hnot.
      destruct (find matches (contents db)) as [c|] eqn:Hfind.
      * exfalso. apply Hnot, find_owned. now exists c.
      * rewrite (remove_first_none _ _ Hfind). now destruct db.
  - intros Hbody Hfalsy. unfold delete_content.
    rewrite (destructure_ok _ _ Hbody). cbn [bind]. now rewrite Hfalsy.
  - intros Hbody. unfold delete_content.
    now rewrite (destructure_nullish _ _ Hbody).
  - intros Htruthy Hcid Hcond.
    unfold delete_content, ContentModel_findOneAndDelete, castFilter.
    rewrite (destructure_truthy _ _ Htruthy). cbn [bind].
    now rewrite Htruthy, Hcid, Hcond.
  - intros c Hin Hother.
    destruct (delete_content_contents userId reqBody db)
      as [->|(meets & owner & Hcast & ->)]; [assumption|].
    cbn [contents set_contents]. apply In_remove_first_keep; [assumption|].
    apply andb_false_iff. right. apply String.eqb_neq. congruence.
  - intros c.
    destruct (delete_content_contents userId reqBody db)
      as [->|(meets & owner & Hcast & ->)]; [trivial|].
    cbn [contents set_contents]. apply In_remove_first.
Qed.

(** ** Sharing: the public lookup *)

Lemma find_unique {A : Type} (key : A -> string) (k : string) (l : list A) (x : A) :
  NoDup (map key l) -> In x l -> key x = k ->
  find (fun y => (key y =? k)%string) l = Some x.
Proof.
  induction l as [|y l IH]; simpl; [contradiction|].
  intros Hnodup Hin Hkey. inversion Hnodup as [|? ? Hnotin Hnodup']; subst.
  destruct Hin as [->|Hin].
  - now rewrite String.eqb_refl.
  - destruct (String.eqb_spec (key y) (key x)) as [Heq|Hne].
    + exfalso. apply Hnotin. rewrite Heq. now apply in_map.
    + now apply IH.
Qed.

Lemma find_forget_password (i : ObjectId) (l : list User) :
  find (fun u => (u_id u =? i)%string) (map forget_password l)
  = option_map forget_password (find (fun u => (u_id u =? i)%string) l).
Proof.
  induction l as [|u l IH]; simpl; [reflexivity|].
  now destruct (u_id u =? i)%string.
Qed.

(** [C2] The public lookup takes the hash alone (no header, no guard).  It
    answers 404 when no mapping has the hash and when the mapped owner has
    no user record; when both exist it answers 200 with the owner's username,
    the mapping's creation time and, in the order of the store, one document
    for each record the mapped user owns and for no other record: the
    record's own fields with its tag documents attached.  The store is never
    changed, and the answer is the same whatever the password fields hold. *)
Theorem get_brain_public (hash : string) (db : Store) :
  (forall env, handle JWT_PASSWORD (GetBrain hash) env db = get_brain hash db)
  /\ ((forall s, In s (shares db) -> s_hash s <> hash) ->
      get_brain hash db
      = (res_status_json 404 (error_body "Share link not found"), db))
  /\ (forall link,
        NoDup (map s_hash (shares db)) ->
        In link (shares db) -> s_hash link = hash ->
        (forall u, In u (users db) -> u_id u <> s_userId link) ->
        get_brain hash db = (res_status_json 404 (error_body "User not found"), db))
  /\ (forall link owner,
        NoDup (map s_hash (shares db)) ->
        In link (shares db) -> s_hash link = hash ->
        NoDup (map u_id (users db)) ->
        In owner (users db) -> u_id owner = s_userId link ->
        exists docs,
          get_brain hash db
          = (res_json
               (JObj [("status", JStr "success");
                      ("data",
                       JObj [("username", JStr (u_username owner));
                             ("content", JArr docs);
                             ("sharedAt", JNum (s_createdAt link))])]), db)
          /\ Forall2 (public_record db)
               (filter (fun c => (c_userId c =? s_userId link)%string)
                       (contents db))
               docs)
  /\ fst (get_brain hash (forget_passwords db)) = fst (get_brain hash db).
Proof.
  assert (Htags : forall ids, tags_attached db ids (populate_tags db ids)).
  { unfold populate_tags.
    induction ids as [|i ids IH]; cbn [flat_map]; [constructor|].
    destruct (find (fun t => (t_id t =? i)%string) (tags db)) as [t|] eqn:Hfind.
    - apply find_some in Hfind as (Hin & Hid). apply String.eqb_eq in Hid.
      subst i. cbn [app]. now apply attached_tag.
    - apply attached_dangling; [|exact IH].
      intros t Hin. apply String.eqb_neq. exact (find_none _ _ Hfind t Hin). }
  assert (Hrecords : forall l, Forall2 (public_record db) l (shared db l)).
  { induction l as [|c l IH]; cbn [shared map]; constructor; [|exact IH].
    exists (populate_tags db (c_tags c)). split; [apply Htags|reflexivity]. }
  split; [reflexivity|].
  unfold get_brain, ShareModel_findOne_hash, ContentModel_find,
    UserModel_findOne_id.
  cbn [castQuery bind].
  split; [|split; [|split]].
  - intros Hnone.
    assert (find (fun s => (s_hash s =? hash)%string) (shares db) = None) as ->.
    { apply find_none_iff. intros s Hs. apply String.eqb_neq. now apply Hnone. }
    reflexivity.
  - intros link Hnodup Hin Hhash Hnouser.
    rewrite (find_unique s_hash hash _ link Hnodup Hin Hhash).
    assert (find (fun u => (u_id u =? s_userId link)%string) (users db) = None) as ->.
    { apply find_none_iff. intros u Hu. apply String.eqb_neq. now apply Hnouser. }
    reflexivity.
  - intros link owner Hnodup Hin Hhash Hnodup' Hin' Hid.
    rewrite (find_unique s_hash hash _ link Hnodup Hin Hhash).
    rewrite (find_unique u_id _ _ owner Hnodup' Hin' Hid).
    eexists. split; [reflexivity|]. apply Hrecords.
  - cbn [shares forget_passwords set_users contents users].
    destruct (find (fun s => (s_hash s =? hash)%string) (shares db)) as [link|];
      [|reflexivity].
    rewrite find_forget_password.
    now destruct (find (fun u => (u_id u =? s_userId link)%string) (users db)).
Qed.

(** ** Tokens *)

Lemma issue_token_claims (u : ObjectId) (t0 : Z) :
  issue_token JWT_PASSWORD u t0 = jwt_encode JWT_PASSWORD (login_claims u t0).
Proof. reflexivity. Qed.

Lemma jwt_verify_login_claims (u : ObjectId) (t0 t : Z) (token : string) :
  jwt_decode JWT_PASSWORD token = Some (login_claims u t0) ->
  jwt_verify token JWT_PASSWORD t
  = if t0 / 1000 + 86400 <=? t / 1000
    then Throw TokenExpiredError else Ok (login_claims u t0).
Proof.
  intros Hdec. unfold jwt_verify. rewrite Hdec. cbn.
  now destruct (t0 / 1000 + 86400 <=? t / 1000).
Qed.

(** [C3] The token issued for [u] at [t0] carries the claims [id = u] and
    [exp = iat + 86400] seconds (24 hours after issuance).  Given that the
    codec reads back what it signed with the same secret: before the expiry
    instant verification returns those claims, and the guard binds exactly
    [u]; from the expiry instant on verification throws and the guard answers
    401; and at no time does the guard bind any identity other than [u]. *)
Theorem token_issue_verify (u : ObjectId) (t0 t : Z) :
  let token := issue_token JWT_PASSWORD u t0 in
  jwt_decode JWT_PASSWORD token = Some (login_claims u t0) ->
  token <> EmptyString ->
  u <> EmptyString ->
  token = jwt_encode JWT_PASSWORD (login_claims u t0)
  /\ prop "id" (login_claims u t0) = JStr u
  /\ prop "exp" (login_claims u t0) = JNum (t0 / 1000 + 24 * 60 * 60)
  /\ (t / 1000 < t0 / 1000 + 86400 ->
      jwt_verify token JWT_PASSWORD t = Ok (login_claims u t0)
      /\ userMiddleware JWT_PASSWORD (Some token) t = Next (JStr u))
  /\ (t0 / 1000 + 86400 <= t / 1000 ->
      jwt_verify token JWT_PASSWORD t = Throw TokenExpiredError
      /\ is_401 (userMiddleware JWT_PASSWORD (Some token) t))
  /\ (forall B, userMiddleware JWT_PASSWORD (Some token) t = Next B -> B = JStr u).
Proof.
  intros token Hdec Hne Hu.
  pose proof (jwt_verify_login_claims u t0 t token Hdec) as Hverify.
  assert (Htok : (token =? "")%string = false) by now apply String.eqb_neq.
  assert (Hid : truthy (JStr u) = true).
  { cbn. apply negb_true_iff. now apply String.eqb_neq. }
  assert (Hguard : userMiddleware JWT_PASSWORD (Some token) t
                   = if t0 / 1000 + 86400 <=? t / 1000
                     then Rejected (res_status_json 401
                            (JObj [("error", JStr "Invalid or expired token")]))
                     else Next (JStr u)).
  { unfold userMiddleware. rewrite Htok, Hverify.
    destruct (t0 / 1000 + 86400 <=? t / 1000); [reflexivity|].
    cbn [bind try_catch]. change (prop "id" (login_claims u t0)) with (JStr u).
    now rewrite Hid. }
  split; [reflexivity|]. split; [reflexivity|]. split; [reflexivity|].
  rewrite Hverify, Hguard.
  destruct (Z.leb_spec (t0 / 1000 + 86400) (t / 1000)) as [Hexp|Hlive].
  - split; [lia|]. split.
    + intros _. split; [reflexivity|]. eexists. split; reflexivity.
    + discriminate.
  - split.
    + intros _. split; reflexivity.
    + split; [lia|]. now intros B [= <-].
Qed.

(** ** The access guard *)

Lemma guarded_rejected (h : option string) (env : Env) (db : Store)
  (handler : json -> response * Store) :
  is_401 (userMiddleware JWT_PASSWORD h (now env)) ->
  status (fst (guarded JWT_PASSWORD h env db handler)) = 401
  /\ snd (guarded JWT_PASSWORD h env db handler) = db.
Proof.
  intros (r & Hr & H401). unfold guarded. rewrite Hr. now split.
Qed.

(** [C4] The guard answers 401 when the header is absent (or empty), when
    verification of the header value throws, whatever the cause, and when the
    verified payload has no usable [id]; otherwise it calls [next()] with that
    [id] bound to the request.  It hands the header value to [jwt.verify] as
    it is: a value ["Bearer " ++ tok] is verified with its prefix, so it is
    turned away whenever the codec does not read the prefixed text.  On the
    four owner-scoped routes a 401 of the guard is the answer and the store
    is untouched, and otherwise the handler runs with the bound identity. *)
Theorem userMiddleware_guard (t : Z) :
  is_401 (userMiddleware JWT_PASSWORD None t)
  /\ is_401 (userMiddleware JWT_PASSWORD (Some EmptyString) t)
  /\ (forall h e, jwt_verify h JWT_PASSWORD t = Throw e ->
       is_401 (userMiddleware JWT_PASSWORD (Some h) t))
  /\ (forall h payload, jwt_verify h JWT_PASSWORD t = Ok payload ->
       truthy (prop "id" payload) = false ->
       is_401 (userMiddleware JWT_PASSWORD (Some h) t))
  /\ (forall h payload, h <> EmptyString ->
       jwt_verify h JWT_PASSWORD t = Ok payload ->
       truthy (prop "id" payload) = true ->
       userMiddleware JWT_PASSWORD (Some h) t = Next (prop "id" payload))
  /\ (forall tok, jwt_decode JWT_PASSWORD ("Bearer " ++ tok)%string = None ->
       is_401 (userMiddleware JWT_PASSWORD (Some ("Bearer " ++ tok)%string) t))
  /\ (forall h reqBody env db,
       now env = t ->
       is_401 (userMiddleware JWT_PASSWORD h t) ->
       Forall (fun out => status (fst out) = 401 /\ snd out = db)
         [ handle JWT_PASSWORD (PostContent h reqBody) env db;
           handle JWT_PASSWORD (GetContent h) env db;
           handle JWT_PASSWORD (DeleteContent h reqBody) env db;
           handle JWT_PASSWORD (PostBrainShare h reqBody) env db ])
  /\ (forall h reqBody env db userId,
       now env = t ->
       userMiddleware JWT_PASSWORD h t = Next userId ->
       handle JWT_PASSWORD (PostContent h reqBody) env db
       = post_content userId reqBody env db
       /\ handle JWT_PASSWORD (GetContent h) env db = get_content userId db
       /\ handle JWT_PASSWORD (DeleteContent h reqBody) env db
          = delete_content userId reqBody db
       /\ handle JWT_PASSWORD (PostBrainShare h reqBody) env db
          = post_brain_share userId reqBody env db).
Proof.
  assert (Hthrow : forall h e, jwt_verify h JWT_PASSWORD t = Throw e ->
                     is_401 (userMiddleware JWT_PASSWORD (Some h) t)).
  { intros h e Hv. unfold userMiddleware. rewrite Hv.
    destruct (h =? "")%string; eexists; split; reflexivity. }
  split; [eexists; split; reflexivity|].
  split; [eexists; split; reflexivity|].
  split; [exact Hthrow|].
  split.
  { intros h payload Hv Hid. unfold userMiddleware. rewrite Hv.
    cbn [bind try_catch]. rewrite Hid.
    destruct (h =? "")%string; eexists; split; reflexivity. }
  split.
  { intros h payload Hne Hv Hid. unfold userMiddleware. rewrite Hv.
    apply String.eqb_neq in Hne. rewrite Hne.
    cbn [bind try_catch]. now rewrite Hid. }
  split.
  { intros tok Hdec. apply (Hthrow _ JsonWebTokenError).
    unfold jwt_verify. now rewrite Hdec. }
  split.
  - intros h reqBody env db <- H401. cbn [handle].
    repeat constructor; now apply guarded_rejected.
  - intros h reqBody env db userId <- Hnext. cbn [handle].
    unfold guarded. rewrite Hnext. repeat split.
Qed.

(** ** Login *)


(** ** Sharing: enable and disable *)

Lemma find_snoc {A : Type} (p : A -> bool) (l : list A) (x : A) :
  find p l = None -> p x = true -> find p (l ++ [x]) = Some x.
Proof.
  induction l as [|y l IH]; simpl.
  - now intros _ ->.
  - destruct (p y); [discriminate|]. exact IH.
Qed.

(** What the enable path answers and does to the store. *)
Lemma post_brain_share_enable (userId reqBody : json) (env : Env) (db : Store)
  (owner : ObjectId) :
  castObjectId userId = Some owner ->
  truthy (prop "share" reqBody) = true ->
  let out := post_brain_share userId reqBody env db in
  match find (fun s => (s_userId s =? owner)%string) (shares db) with
  | Some existingLink => out = (res_json (share_enabled (s_hash existingLink)), db)
  | None =>
      (status (fst out) = 500 /\ snd out = db)
      \/ (exists doc,
            s_userId doc = owner /\ s_hash doc = random env 10
            /\ snd out = set_shares db (shares db ++ [doc])
            /\ fst out = res_json (JObj [("status", JStr "success");
                                         ("hash", JStr (random env 10));
                                         ("message", JStr "Share link created")]))
  end.
Proof.
  intros Hcast Htruthy out. subst out.
  unfold post_brain_share, ShareModel_findOne_userId, ShareModel_create.
  rewrite (destructure_truthy _ _ Htruthy). cbn [bind].
  rewrite Htruthy. cbn [castQuery]. rewrite Hcast. cbn [bind].
  destruct (find _ (shares db)) as [existingLink|]; [reflexivity|].
  cbn [s_hash s_id].
  destruct (random env 10 =? "")%string; [now left|].
  destruct (existsb _ (shares db)); [now left|].
  destruct (existsb _ (shares db)); [now left|].
  right. eexists. cbn [bind try_catch fst snd].
  repeat split; reflexivity.
Qed.

(** [C6] With sharing requested by a caller whose identity is [owner]: when a
    mapping for [owner] exists, the answer carries an existing mapping's hash
    and the store is unchanged; and whenever an enable answers with a hash
    [h], the next enable by the same caller answers with the same [h] and
    creates nothing, whatever it would have drawn. *)
Theorem enable_sharing_idempotent (userId body1 body2 : json) (env1 env2 : Env)
  (db : Store) (owner : ObjectId) :
  castObjectId userId = Some owner ->
  truthy (prop "share" body1) = true ->
  truthy (prop "share" body2) = true ->
  ((exists link, In link (shares db) /\ s_userId link = owner) ->
   exists link, In link (shares db) /\ s_userId link = owner
     /\ post_brain_share userId body1 env1 db
        = (res_json (share_enabled (s_hash link)), db))
  /\ (forall h,
        prop "hash" (body (fst (post_brain_share userId body1 env1 db))) = JStr h ->
        let db1 := snd (post_brain_share userId body1 env1 db) in
        post_brain_share userId body2 env2 db1
        = (res_json (share_enabled h), db1)).
Proof.
  intros Hcast Ht1 Ht2.
  pose proof (post_brain_share_enable userId body1 env1 db owner Hcast Ht1) as H1.
  cbv zeta in H1.
  split.
  - intros (link & Hin & Hown).
    destruct (find _ (shares db)) as [existingLink|] eqn:Hfind.
    + apply find_some in Hfind as (Hin' & Hown'). apply String.eqb_eq in Hown'.
      now exists existingLink.
    + pose proof (find_none _ _ Hfind link Hin) as Hno. cbv beta in Hno.
      rewrite Hown, String.eqb_refl in Hno. discriminate.
  - intros h Hh db1.
    pose proof (post_brain_share_enable userId body2 env2 db1 owner Hcast Ht2) as H2.
    cbv zeta in H2. subst db1.
    destruct (find _ (shares db)) as [existingLink|] eqn:Hfind.
    + rewrite H1 in *. cbn [fst snd body res_json res_status_json] in *.
      rewrite Hfind in H2. cbn in Hh. injection Hh as <-. exact H2.
    + destruct H1 as [(H500 & Hdb)|(doc & Hown & Hhash & Hdb & Hresp)].
      * exfalso. revert Hh H500.
        unfold post_brain_share, ShareModel_findOne_userId, ShareModel_create.
        rewrite (destructure_truthy _ _ Ht1). cbn [bind].
        rewrite Ht1. cbn [castQuery]. rewrite Hcast. cbn [bind]. rewrite Hfind.
        cbn [s_hash s_id].
        destruct (random env1 10 =? "")%string; [discriminate|].
        destruct (existsb _ (shares db)); [discriminate|].
        destruct (existsb _ (shares db)); discriminate.
      * rewrite Hresp in Hh. cbn in Hh. injection Hh as <-.
        rewrite Hdb in *. cbn [shares set_shares] in H2.
        rewrite (find_snoc _ _ doc Hfind) in H2
          by (rewrite Hown; apply String.eqb_refl).
        now rewrite Hhash in H2.
Qed.

(** What the disable path answers and does to the store. *)
Lemma post_brain_share_disable (userId reqBody : json) (env : Env) (db : Store)
  (owner : ObjectId) :
  castObjectId userId = Some owner ->
  nullish reqBody = false ->
  truthy (prop "share" reqBody) = false ->
  post_brain_share userId reqBody env db
  = (share_removed,
     set_shares db
       (remove_first (fun s => (s_userId s =? owner)%string) (shares db))).
Proof.
  intros Hcast Hbody Hfalsy. unfold post_brain_share, ShareModel_deleteOne.
  rewrite (destructure_ok _ _ Hbody). cbn [bind].
  rewrite Hfalsy. cbn [castQuery]. now rewrite Hcast.
Qed.

(** [C10] For a caller whose identity is [owner] and a request that came
    with a body: when [share] is absent or falsy the request takes the
    disable path, which answers 200 and leaves as mappings the earlier ones
    less the caller's first (all of them when the caller had none, and none
    of the caller's when the caller had one), changing nothing else; when
    [share] is truthy it takes the enable path, which removes no mapping.  A
    request that came with no body at all is answered 500 and changes
    nothing. *)
Theorem share_falsy_disables (userId reqBody : json) (env : Env) (db : Store)
  (owner : ObjectId) :
  castObjectId userId = Some owner ->
  let out := post_brain_share userId reqBody env db in
  (nullish reqBody = false -> truthy (prop "share" reqBody) = false ->
     fst out = share_removed
     /\ shares (snd out)
        = remove_first (fun s => (s_userId s =? owner)%string) (shares db)
     /\ users (snd out) = users db /\ contents (snd out) = contents db
     /\ tags (snd out) = tags db
     /\ ((forall s, In s (shares db) -> s_userId s <> owner) -> snd out = db)
     /\ (forall link,
           NoDup (map s_userId (shares db)) ->
           In link (shares db) -> s_userId link = owner ->
           exists l1 l2,
             shares db = l1 ++ link :: l2
             /\ shares (snd out) = l1 ++ l2
             /\ forall s, In s (shares (snd out)) -> s_userId s <> owner))
  /\ (truthy (prop "share" reqBody) = true ->
      fst out <> share_removed
      /\ forall s, In s (shares db) -> In s (shares (snd out)))
  /\ (nullish reqBody = true -> out = (share_failed, db)).
Proof.
  intros Hcast out. split; [|split].
  - intros Hbody Hfalsy. subst out.
    rewrite (post_brain_share_disable _ _ _ _ _ Hcast Hbody Hfalsy).
    cbn [fst snd shares users contents tags set_shares].
    split; [reflexivity|]. split; [reflexivity|]. split; [reflexivity|].
    split; [reflexivity|]. split; [reflexivity|]. split.
    + intros Hnone. rewrite remove_first_none; [now destruct db|].
      apply find_none_iff. intros s Hs. apply String.eqb_neq. now apply Hnone.
    + intros link Hnodup Hin Hown.
      pose proof (find_unique s_userId owner _ link Hnodup Hin Hown) as Hfind.
      destruct (remove_first_split _ _ _ Hfind) as (l1 & l2 & Hl & Hrm & _).
      exists l1, l2. rewrite Hrm. split; [assumption|]. split; [reflexivity|].
      intros s Hs Heq.
      rewrite Hl, map_app in Hnodup. cbn [map] in Hnodup.
      apply NoDup_remove_2 in Hnodup. apply Hnodup.
      rewrite <- map_app, Hown, <- Heq. now apply in_map.
  - intros Htruthy.
    pose proof (post_brain_share_enable userId reqBody env db owner Hcast Htruthy)
      as Hen.
    cbv zeta in Hen. fold out in Hen.
    destruct (find _ (shares db)) as [existingLink|].
    + rewrite Hen. cbn [fst snd]. split; [discriminate|auto].
    + destruct Hen as [(H500 & ->)|(doc & _ & _ & -> & ->)].
      * split; [|auto]. intros Heq. rewrite Heq in H500. discriminate.
      * split; [discriminate|]. intros s Hs. cbn [shares set_shares].
        apply in_app_iff. now left.
  - intros Hbody. subst out. unfold post_brain_share.
    now rewrite (destructure_nullish _ _ Hbody).
Qed.

(** ** What the schemas let through *)

Lemma z_string_issues_min_max (path : list string) (lo hi : nat)
  (loMsg hiMsg : string) (v : json) :
  z_string_issues path [z_min lo loMsg; z_max hi hiMsg] v = [] <->
  exists s, v = JStr s /\ (lo <= js_length s <= hi)%nat.
Proof.
  unfold z_string_issues. split.
  - destruct v as [| | | |s| |]; try discriminate.
    cbn [flat_map z_check_issues].
    destruct (Nat.ltb_spec (js_length s) lo);
      destruct (Nat.ltb_spec hi (js_length s)); try discriminate.
    intros _. exists s. split; [reflexivity|lia].
  - intros (s & -> & Hlen). cbn [flat_map z_check_issues].
    destruct (Nat.ltb_spec (js_length s) lo);
      destruct (Nat.ltb_spec hi (js_length s)); try lia. reflexivity.
Qed.

Lemma z_string_issues_max (path : list string) (hi : nat) (hiMsg : string)
  (v : json) :
  z_string_issues path [z_max hi hiMsg] v = [] <->
  exists s, v = JStr s /\ (js_length s <= hi)%nat.
Proof.
  unfold z_string_issues. split.
  - destruct v as [| | | |s| |]; try discriminate.
    cbn [flat_map z_check_issues].
    destruct (Nat.ltb_spec hi (js_length s)); try discriminate.
    intros _. exists s. split; [reflexivity|lia].
  - intros (s & -> & Hlen). cbn [flat_map z_check_issues].
    destruct (Nat.ltb_spec hi (js_length s)); try lia. reflexivity.
Qed.

Lemma contentSchema_parse_ok (reqBody : json) (v : ContentInput) :
  contentSchema_parse reqBody = Ok v <->
  exists fields title link,
    reqBody = JObj fields
    /\ prop "title" reqBody = JStr title
    /\ (1 <= js_length title <= 200)%nat
    /\ prop "link" reqBody = JStr link
    /\ (js_length link <= 2000)%nat
    /\ v = {| in_title := trim title; in_link := link |}.
Proof.
  unfold contentSchema_parse. split.
  - destruct reqBody as [| | | | | |fields]; try discriminate.
    destruct (contentSchema_issues (JObj fields)) eqn:Hissues; [|discriminate].
    unfold contentSchema_issues in Hissues.
    apply app_eq_nil in Hissues as (Ht & Hl).
    apply z_string_issues_min_max in Ht as (title & Ht & Hlt).
    apply z_string_issues_max in Hl as (link & Hl & Hll).
    intros [= <-]. exists fields, title, link. cbn [prop] in *. rewrite Ht, Hl.
    repeat split; try reflexivity; lia.
  - intros (fields & title & link & -> & Ht & Hlt & Hl & Hll & ->).
    assert (contentSchema_issues (JObj fields) = []) as ->.
    { unfold contentSchema_issues.
      rewrite (proj2 (z_string_issues_min_max _ _ _ _ _ _))
        by now exists title.
      apply z_string_issues_max. now exists link. }
    now rewrite Ht, Hl.
Qed.

Lemma userSchema_parse_ok (reqBody : json) (v : UserInput) :
  userSchema_parse reqBody = Ok v <->
  exists fields username password,
    reqBody = JObj fields
    /\ prop "username" reqBody = JStr username
    /\ (3 <= js_length username <= 50)%nat
    /\ prop "password" reqBody = JStr password
    /\ (6 <= js_length password <= 100)%nat
    /\ v = {| in_username := trim username; in_password := password |}.
Proof.
  unfold userSchema_parse. split.
  - destruct reqBody as [| | | | | |fields]; try discriminate.
    destruct (userSchema_issues (JObj fields)) eqn:Hissues; [|discriminate].
    unfold userSchema_issues in Hissues.
    apply app_eq_nil in Hissues as (Hu & Hp).
    apply z_string_issues_min_max in Hu as (username & Hu & Hlu).
    apply z_string_issues_min_max in Hp as (password & Hp & Hlp).
    intros [= <-]. exists fields, username, password. cbn [prop] in *.
    rewrite Hu, Hp. repeat split; try reflexivity; lia.
  - intros (fields & username & password & -> & Hu & Hlu & Hp & Hlp & ->).
    assert (userSchema_issues (JObj fields) = []) as ->.
    { unfold userSchema_issues.
      rewrite (proj2 (z_string_issues_min_max _ _ _ _ _ _))
        by now exists username.
      apply z_string_issues_min_max. now exists password. }
    now rewrite Hu, Hp.
Qed.

Lemma userSchema_parse_trimmed (reqBody : json) (v : UserInput) :
  userSchema_parse reqBody = Ok v ->
  trim (in_username v) = in_username v
  /\ (js_length (in_username v) <= 50)%nat
  /\ (6 <= js_length (in_password v) <= 100)%nat.
Proof.
  intros Hparse. apply userSchema_parse_ok in Hparse
    as (fields & username & password & _ & _ & Hlen & _ & Hpw & ->).
  cbn [in_username in_password]. split; [apply trim_idempotent|].
  pose proof (js_length_trim username). lia.
Qed.

Lemma contentSchema_parse_trimmed (reqBody : json) (v : ContentInput) :
  contentSchema_parse reqBody = Ok v ->
  trim (in_title v) = in_title v
  /\ (js_length (in_title v) <= 200)%nat
  /\ (js_length (in_link v) <= 2000)%nat.
Proof.
  intros Hparse. apply contentSchema_parse_ok in Hparse
    as (fields & title & link & _ & _ & Hlen & _ & Hll & ->).
  cbn [in_title in_link]. split; [apply trim_idempotent|].
  pose proof (js_length_trim title). lia.
Qed.

(** ** The moves of the store and what they preserve *)

Lemma existsb_key_false {A : Type} (key : A -> string) (k : string) (l : list A) :
  existsb (fun y => (key y =? k)%string) l = false -> ~ In k (map key l).
Proof.
  intros Hex Hin. apply in_map_iff in Hin as (y & Hy & Hin).
  pose proof (proj1 (existsb_false_iff _ l) Hex y Hin) as Hno. cbv beta in Hno.
  rewrite Hy, String.eqb_refl in Hno. discriminate.
Qed.


Lemma NoDup_map_snoc {A B : Type} (key : A -> B) (l : list A) (x : A) :
  NoDup (map key l) -> ~ In (key x) (map key l) -> NoDup (map key (l ++ [x])).
Proof.
  induction l as [|y l IH]; simpl; intros Hnodup Hnotin.
  - constructor; [tauto|constructor].
  - inversion Hnodup as [|? ? Hy Hl]; subst. constructor.
    + rewrite map_app, in_app_iff. simpl. intuition congruence.
    + apply IH; tauto.
Qed.

Lemma NoDup_map_remove_first {A B : Type} (key : A -> B) (p : A -> bool)
  (l : list A) :
  NoDup (map key l) -> NoDup (map key (remove_first p l)).
Proof.
  induction l as [|y l IH]; simpl; [trivial|].
  intros Hnodup. inversion Hnodup as [|? ? Hy Hl]; subst.
  destruct (p y); [assumption|]. simpl. constructor; [|now apply IH].
  intros Hin. apply Hy. apply in_map_iff in Hin as (z & Hz & Hin).
  apply in_map_iff. exists z. split; [assumption|].
  now apply In_remove_first in Hin.
Qed.

Lemma Forall_remove_first {A : Type} (P : A -> Prop) (p : A -> bool)
  (l : list A) :
  Forall P l -> Forall P (remove_first p l).
Proof.
  intros Hall. apply Forall_forall. intros x Hx.
  apply In_remove_first in Hx. revert x Hx. now apply Forall_forall.
Qed.

Lemma Forall_snoc {A : Type} (P : A -> Prop) (l : list A) (x : A) :
  Forall P l -> P x -> Forall P (l ++ [x]).
Proof.
  intros Hall Hx. apply Forall_app. split; [assumption|]. now constructor.
Qed.

Lemma store_step_inv (db db' : Store) :
  store_inv db -> store_step db db' -> store_inv db'.
Proof.
  intros [Huid Huname Hhashed Hcid Htitle Htok Hhash] Hstep.
  destruct Hstep; constructor; cbn [users contents shares set_users
    set_contents set_shares]; trivial;
    solve [ now apply NoDup_map_snoc
          | now apply Forall_snoc
          | now apply NoDup_map_remove_first
          | now apply Forall_remove_first ].
Qed.

(** *** The store operations one by one *)

Lemma UserModel_create_ok (username password : string) (env : Env)
  (db db' : Store) :
  UserModel_create username password env db = Ok db' ->
  let doc := {| u_id := newObjectId env; u_username := trim username;
                u_password := bcrypt_hash password (genSalt env 10) |} in
  db' = set_users db (users db ++ [doc])
  /\ (3 <= js_length (trim username))%nat /\ (6 <= js_length password)%nat
  /\ ~ In (u_id doc) (map u_id (users db))
  /\ ~ In (u_username doc) (map u_username (users db)).
Proof.
  unfold UserModel_create, UserSchema_validate. cbn [u_username u_password].
  destruct (Nat.ltb_spec (js_length (trim username)) 3); [discriminate|].
  destruct (Nat.ltb_spec (js_length password) 6); [discriminate|].
  cbn [bind UserSchema_pre_save negb u_id u_username u_password].
  destruct (existsb (fun u => (u_id u =? _)%string) (users db)) eqn:Hid;
    [discriminate|].
  destruct (existsb (fun u => (u_username u =? _)%string) (users db)) eqn:Hname;
    [discriminate|].
  intros [= <-]. cbv zeta. cbn [u_id u_username].
  apply existsb_key_false in Hid, Hname. now repeat split.
Qed.

Lemma ContentModel_create_ok (title link : string) (tagIds : list ObjectId)
  (userId : json) (env : Env) (db : Store) (c : Content) (db' : Store) :
  ContentModel_create title link tagIds (QJson userId) env db = Ok (c, db') ->
  exists owner,
    castObjectId userId = Some owner
    /\ c = {| c_id := newObjectId env; c_title := title; c_link := link;
              c_tags := tagIds; c_userId := owner |}
    /\ db' = set_contents db (contents db ++ [c])
    /\ title <> EmptyString /\ link <> EmptyString
    /\ ~ In (newObjectId env) (map c_id (contents db))
    /\ ~ In title (map c_title (contents db)).
Proof.
  unfold ContentModel_create. cbn [castQuery].
  destruct (castObjectId userId) as [owner|]; [|discriminate].
  unfold ContentSchema_validate. cbn [c_title c_link c_id].
  destruct (String.eqb_spec title "") as [|Ht]; [discriminate|].
  destruct (String.eqb_spec link "") as [|Hl]; [discriminate|].
  cbn [bind].
  destruct (existsb (fun x => (c_id x =? _)%string) (contents db)) eqn:Hid;
    [discriminate|].
  destruct (existsb (fun x => (c_title x =? _)%string) (contents db)) eqn:Htitle;
    [discriminate|].
  intros [= <- <-]. exists owner.
  apply existsb_key_false in Hid, Htitle. now repeat split.
Qed.

Lemma ShareModel_create_ok (userId : json) (hash : string) (env : Env)
  (db db' : Store) :
  ShareModel_create (QJson userId) hash env db = Ok db' ->
  exists owner,
    castObjectId userId = Some owner
    /\ db' = set_shares db
               (shares db ++ [{| s_id := newObjectId env; s_hash := hash;
                                 s_userId := owner; s_createdAt := now env |}])
    /\ hash <> EmptyString
    /\ ~ In (newObjectId env) (map s_id (shares db))
    /\ ~ In hash (map s_hash (shares db)).
Proof.
  unfold ShareModel_create. cbn [castQuery].
  destruct (castObjectId userId) as [owner|]; [|discriminate].
  cbn [s_hash s_id].
  destruct (String.eqb_spec hash "") as [|Hne]; [discriminate|].
  destruct (existsb (fun x => (s_id x =? _)%string) (shares db)) eqn:Hid;
    [discriminate|].
  destruct (existsb (fun x => (s_hash x =? _)%string) (shares db)) eqn:Hhash;
    [discriminate|].
  intros [= <-]. exists owner.
  apply existsb_key_false in Hid, Hhash. now repeat split.
Qed.

Lemma ContentModel_findOneAndDelete_ok (contentId userId : json) (db : Store)
  (deleted : option Content) (db' : Store) :
  ContentModel_findOneAndDelete contentId (QJson userId) db = Ok (deleted, db') ->
  exists p, db' = set_contents db (remove_first p (contents db)).
Proof.
  unfold ContentModel_findOneAndDelete. cbn [castQuery].
  destruct (castFilter contentId) as [meets|]; [|discriminate].
  destruct (castObjectId userId) as [owner|]; [|discriminate].
  cbn [bind]. intros [= _ <-]. eexists. reflexivity.
Qed.

Lemma ShareModel_deleteOne_ok (userId : json) (db db' : Store) :
  ShareModel_deleteOne (QJson userId) db = Ok db' ->
  exists p, db' = set_shares db (remove_first p (shares db)).
Proof.
  unfold ShareModel_deleteOne. cbn [castQuery].
  destruct (castObjectId userId) as [owner|]; [|discriminate].
  cbn [bind]. intros [= <-]. eexists. reflexivity.
Qed.

Lemma store_op_step (db db' : Store) : store_op db db' -> store_step db db'.
Proof.
  intros [|reqBody v env db1 Hparse Hop|reqBody v userId env c db1 Hparse Hop
          |contentId userId deleted db1 Hop|userId env db1 Hop|userId db1 Hop].
  - apply step_stay.
  - apply UserModel_create_ok in Hop as (-> & _ & _ & Hid & Hname).
    apply step_insert_user; try assumption. eexists _, _. reflexivity.
  - apply ContentModel_create_ok in Hop
      as (owner & _ & -> & -> & Ht & _ & Hid & Htitle).
    destruct (contentSchema_parse_trimmed _ _ Hparse) as (Htrim & Hmax & _).
    apply step_insert_content; try assumption. now repeat split.
  - apply ContentModel_findOneAndDelete_ok in Hop as (p & ->).
    apply step_delete_content.
  - apply ShareModel_create_ok in Hop as (owner & _ & -> & _ & _ & Hhash).
    now apply step_insert_share.
  - apply ShareModel_deleteOne_ok in Hop as (p & ->).
    apply step_delete_share.
Qed.

(** *** The handlers in flight issue these operations only *)

Lemma safe_await_op (A : Type) (R : Store -> Store -> Prop)
  (op : Store -> result (A * Store)) (k : A -> prog) (catch : exn -> prog) :
  (forall db, R db db) ->
  (forall db a db', op db = Ok (a, db') -> R db db') ->
  (forall a, safe R (k a)) -> (forall e, safe R (catch e)) ->
  safe R (await op k catch).
Proof.
  intros Hrefl Hop Hk Hcatch. unfold await. constructor; intros db.
  - destruct (op db) as [[a db']|e] eqn:H; [now apply (Hop db a)|apply Hrefl].
  - destruct (op db) as [[a db']|e]; [apply Hk|apply Hcatch].
Qed.

Lemma safe_await_reads (A : Type) (R : Store -> Store -> Prop)
  (q : Store -> result A) (k : A -> prog) (catch : exn -> prog) :
  (forall db, R db db) ->
  (forall a, safe R (k a)) -> (forall e, safe R (catch e)) ->
  safe R (await (reads q) k catch).
Proof.
  intros Hrefl Hk Hcatch. apply safe_await_op; try assumption.
  intros db a db'. unfold reads. destruct (q db); cbn [bind]; [|discriminate].
  intros [= _ <-]. apply Hrefl.
Qed.

Lemma safe_await_writes (R : Store -> Store -> Prop)
  (u : Store -> result Store) (k : unit -> prog) (catch : exn -> prog) :
  (forall db, R db db) ->
  (forall db db', u db = Ok db' -> R db db') ->
  (forall a, safe R (k a)) -> (forall e, safe R (catch e)) ->
  safe R (await (writes u) k catch).
Proof.
  intros Hrefl Hu Hk Hcatch. apply safe_await_op; try assumption.
  intros db a db'. unfold writes. destruct (u db) as [db1|] eqn:H; cbn [bind];
    [|discriminate].
  intros [= _ <-]. now apply Hu.
Qed.

Ltac safe_leaf := intros; try match goal with
                               | |- safe _ (match ?x with _ => _ end) => destruct x
                               end; constructor.

Lemma serve_safe (req : request) (env : Env) :
  safe store_op (serve JWT_PASSWORD req env).
Proof.
  pose proof op_read as Hrefl.
  destruct req as [b|b|h b|h|h b|h b|hash]; cbn [serve]; unfold guarded_prog;
    try (destruct (userMiddleware JWT_PASSWORD h (now env)) as [r|userId];
         [constructor|]).
  - unfold post_signin_prog.
    destruct (userSchema_parse b) as [v|e] eqn:Hparse; [|constructor].
    apply safe_await_reads; [assumption| |safe_leaf].
    intros [u|]; [constructor|].
    apply safe_await_writes; [assumption| |safe_leaf|safe_leaf].
    intros db db' Hop. exact (op_create_user db b v env db' Hparse Hop).
  - unfold post_login_prog.
    destruct (userSchema_parse b) as [v|e]; [|constructor].
    apply safe_await_reads; [assumption| |safe_leaf].
    intros [u|]; [|constructor].
    destruct (negb _); constructor.
  - unfold post_content_prog.
    destruct (contentSchema_parse b) as [v|e] eqn:Hparse; [|safe_leaf].
    apply safe_await_op; [assumption| |safe_leaf|safe_leaf].
    intros db c db' Hop. exact (op_create_content db b v userId env c db' Hparse Hop).
  - unfold get_content_prog. apply safe_await_reads; [assumption|safe_leaf|safe_leaf].
  - unfold delete_content_prog.
    destruct (destructure "contentId" b) as [contentId|e]; [|constructor].
    destruct (negb (truthy contentId)); [constructor|].
    apply safe_await_op; [assumption| |safe_leaf|safe_leaf].
    intros db d db' Hop. exact (op_delete_content db contentId userId d db' Hop).
  - unfold post_brain_share_prog.
    destruct (destructure "share" b) as [share|e]; [|constructor].
    destruct (truthy share).
    + apply safe_await_reads; [assumption| |safe_leaf].
      intros [existing|]; [constructor|]. cbv zeta.
      apply safe_await_writes; [assumption| |safe_leaf|safe_leaf].
      intros db db' Hop. exact (op_create_share db userId env db' Hop).
    + apply safe_await_writes; [assumption| |safe_leaf|safe_leaf].
      intros db db' Hop. exact (op_delete_share db userId db' Hop).
  - unfold get_brain_prog. cbv zeta.
    apply safe_await_reads; [assumption| |safe_leaf].
    intros [link|]; [|constructor].
    apply safe_await_reads; [assumption| |safe_leaf].
    intros content. apply safe_await_reads; [assumption|safe_leaf|safe_leaf].
Qed.

Lemma in_flight_safe (db : Store) (pool : list prog) :
  in_flight JWT_PASSWORD db pool -> Forall (safe store_op) pool.
Proof.
  induction 1 as [seed|db pool req env Hfl IH|db pool1 pool2 k w Hfl IH].
  - constructor.
  - constructor; [apply serve_safe|exact IH].
  - apply Forall_app in IH as (H1 & H2).
    inversion H2 as [|? ? Hp H2']; subst.
    inversion Hp as [|? ? Hw Hk]; subst.
    apply Forall_app. split; [assumption|]. constructor; [apply Hk|assumption].
Qed.

(** Induction over the stores the server can be in: a property of the first
    store that every store operation of a handler preserves holds of all. *)
Lemma reachable_invariant (I : Store -> Prop) :
  (forall seed, I {| users := []; contents := []; tags := seed; shares := [] |}) ->
  (forall db db', I db -> store_op db db' -> I db') ->
  forall db, reachable JWT_PASSWORD db -> I db.
Proof.
  intros Hinit Hstep db (pool & Hfl).
  induction Hfl as [seed|db pool req env Hfl IH|db pool1 pool2 k w Hfl IH].
  - apply Hinit.
  - exact IH.
  - apply (Hstep db); [exact IH|].
    apply in_flight_safe, Forall_app in Hfl as (_ & H2).
    inversion H2 as [|? ? Hp _]; subst.
    inversion Hp as [|? ? Hw _]; subst. apply Hw.
Qed.

Lemma reachable_inv (db : Store) : reachable JWT_PASSWORD db -> store_inv db.
Proof.
  apply reachable_invariant.
  - intros seed. constructor; cbn; constructor.
  - intros db0 db' Hinv Hop. exact (store_step_inv _ _ Hinv (store_op_step _ _ Hop)).
Qed.

(** *** Requests handled one after the other *)

Lemma run_prog_await (A : Type) (op : Store -> result (A * Store))
  (k : A -> prog) (catch : exn -> prog) (db : Store) :
  run_prog (await op k catch) db
  = match op db with
    | Ok (a, db') => run_prog (k a) db'
    | Throw e => run_prog (catch e) db
    end.
Proof.
  unfold await. cbn [run_prog]. now destruct (op db) as [[a db']|e].
Qed.

Lemma handle_run_prog (req : request) (env : Env) (db : Store) :
  run_prog (serve JWT_PASSWORD req env) db = handle JWT_PASSWORD req env db.
Proof.
  destruct req as [b|b|h b|h|h b|h b|hash]; cbn [serve handle];
    unfold guarded_prog, guarded;
    try (destruct (userMiddleware JWT_PASSWORD h (now env)) as [r|userId];
         [reflexivity|]).
  - unfold post_signin_prog, post_signin.
    destruct (userSchema_parse b) as [v|e]; [|reflexivity].
    rewrite run_prog_await. unfold reads. cbn [bind try_catch].
    destruct (UserModel_findOne_username (in_username v) db); [reflexivity|].
    rewrite run_prog_await. unfold writes.
    now destruct (UserModel_create _ _ env db).
  - unfold post_login_prog, post_login.
    destruct (userSchema_parse b) as [v|e]; [|reflexivity].
    rewrite run_prog_await. unfold reads. cbn [bind try_catch].
    destruct (UserModel_findOne_username (in_username v) db) as [u|];
      [|reflexivity].
    now destruct (negb (comparePassword u (in_password v))).
  - unfold post_content_prog, post_content.
    destruct (contentSchema_parse b) as [v|e]; [|now destruct e].
    rewrite run_prog_await. cbn [bind].
    now destruct (ContentModel_create _ _ _ _ env db) as [[c db']|[]].
  - unfold get_content_prog, get_content.
    rewrite run_prog_await. unfold reads.
    now destruct (ContentModel_find (QJson userId) db).
  - unfold delete_content_prog, delete_content.
    destruct (destructure "contentId" b) as [contentId|e]; [|reflexivity].
    cbn [bind]. destruct (negb (truthy contentId)); [reflexivity|].
    rewrite run_prog_await.
    now destruct (ContentModel_findOneAndDelete contentId (QJson userId) db)
      as [[[c|] db']|].
  - unfold post_brain_share_prog, post_brain_share.
    destruct (destructure "share" b) as [share|e]; [|reflexivity].
    cbn [bind]. destruct (truthy share).
    + rewrite run_prog_await. unfold reads.
      destruct (ShareModel_findOne_userId (QJson userId) db) as [[existing|]|];
        cbn [bind try_catch]; try reflexivity.
      rewrite run_prog_await. unfold writes.
      now destruct (ShareModel_create _ _ env db).
    + rewrite run_prog_await. unfold writes.
      now destruct (ShareModel_deleteOne (QJson userId) db).
  - unfold get_brain_prog, get_brain. cbv zeta.
    rewrite run_prog_await. unfold reads. cbn [bind try_catch].
    destruct (ShareModel_findOne_hash hash db) as [link|]; [|reflexivity].
    rewrite run_prog_await.
    destruct (ContentModel_find (QOid (s_userId link)) db) as [content|];
      cbn [bind try_catch]; [|reflexivity].
    rewrite run_prog_await.
    now destruct (UserModel_findOne_id (QOid (s_userId link)) db) as [[user|]|].
Qed.

Lemma in_flight_run (p : prog) (db : Store) (pool : list prog) :
  in_flight JWT_PASSWORD db (p :: pool) ->
  exists p', in_flight JWT_PASSWORD (snd (run_prog p db)) (p' :: pool).
Proof.
  revert db. induction p as [r|k IH w]; intros db Hfl; cbn [run_prog].
  - now exists (Done r).
  - apply (IH db (w db)). exact (flight_resume JWT_PASSWORD db [] pool k w Hfl).
Qed.

Lemma reachable_init (seed : list Tag) :
  reachable JWT_PASSWORD
    {| users := []; contents := []; tags := seed; shares := [] |}.
Proof. exists []. constructor. Qed.

(** A request handled with no other in between is one way to go on. *)
Lemma reachable_step (db : Store) (req : request) (env : Env) :
  reachable JWT_PASSWORD db ->
  reachable JWT_PASSWORD (snd (handle JWT_PASSWORD req env db)).
Proof.
  intros (pool & Hfl). rewrite <- handle_run_prog.
  destruct (in_flight_run (serve JWT_PASSWORD req env) db pool) as (p' & Hfl').
  - now constructor.
  - now exists (p' :: pool).
Qed.

Lemma post_login_store (reqBody : json) (env : Env) (db : Store) :
  snd (post_login JWT_PASSWORD reqBody env db) = db.
Proof.
  unfold post_login.
  destruct (userSchema_parse reqBody) as [v|e]; [|reflexivity]. cbn [bind].
  destruct (UserModel_findOne_username (in_username v) db) as [u|]; [|reflexivity].
  now destruct (comparePassword u (in_password v)).
Qed.

Lemma get_content_store (userId : json) (db : Store) :
  snd (get_content userId db) = db.
Proof.
  unfold get_content, ContentModel_find.
  now destruct (castQuery (QJson userId)).
Qed.

Lemma get_brain_store (shareLink : string) (db : Store) :
  snd (get_brain shareLink db) = db.
Proof.
  unfold get_brain, ContentModel_find, UserModel_findOne_id. cbn [castQuery bind].
  destruct (ShareModel_findOne_hash shareLink db) as [link|]; [|reflexivity].
  now destruct (find _ (users db)).
Qed.

(** ** Credentials *)

Lemma post_signin_created (reqBody : json) (env : Env) (db : Store)
  (v : UserInput) :
  userSchema_parse reqBody = Ok v ->
  status (fst (post_signin reqBody env db)) = 201 ->
  snd (post_signin reqBody env db) = set_users db (users db ++ [registered v env]).
Proof.
  intros Hparse. unfold post_signin. rewrite Hparse. cbn [bind].
  apply userSchema_parse_ok in Hparse
    as (fields & username & password & _ & _ & _ & _ & _ & ->).
  cbn [in_username in_password].
  destruct (UserModel_findOne_username (trim username) db); [discriminate|].
  unfold UserModel_create, UserSchema_validate. cbn [u_username u_password].
  destruct (_ <? 3)%nat; [discriminate|].
  destruct (_ <? 6)%nat; [discriminate|].
  cbn [bind UserSchema_pre_save negb u_id u_username u_password].
  destruct (existsb (fun u => (u_id u =? _)%string) (users db)); [discriminate|].
  destruct (existsb (fun u => (u_username u =? _)%string) (users db));
    [discriminate|].
  intros _. cbn [bind try_catch snd]. unfold registered. cbn [in_username in_password].
  now rewrite trim_idempotent.
Qed.

(** [C7] Granted that [bcrypt.hash] never returns the password it was given:
    in every store the server can be in, each password field is an output of
    [bcrypt.hash] and differs from the password that was hashed; a successful
    signup appends a user whose password field is the hash of the submitted
    password under a fresh salt, not the submitted password; and login
    decides by [bcrypt.compare] of the candidate against the stored field. *)
Theorem passwords_stored_hashed (db : Store) :
  (forall password salt, bcrypt_hash password salt <> password) ->
  reachable JWT_PASSWORD db ->
  Forall (fun u => exists password salt,
                     u_password u = bcrypt_hash password salt
                     /\ u_password u <> password) (users db)
  /\ (forall reqBody env v,
        userSchema_parse reqBody = Ok v ->
        status (fst (post_signin reqBody env db)) = 201 ->
        users (snd (post_signin reqBody env db)) = users db ++ [registered v env]
        /\ u_password (registered v env)
           = bcrypt_hash (in_password v) (genSalt env 10)
        /\ u_password (registered v env) <> in_password v)
  /\ (forall reqBody env v user,
        userSchema_parse reqBody = Ok v ->
        UserModel_findOne_username (in_username v) db = Some user ->
        post_login JWT_PASSWORD reqBody env db
        = if bcrypt_compare (in_password v) (u_password user)
          then (login_ok (issue_token JWT_PASSWORD (u_id user) (now env)), db)
          else (invalid_credentials, db)).
Proof.
  intros Honeway Hreach. split; [|split].
  - apply reachable_inv in Hreach. destruct Hreach as [_ _ Hhashed _ _ _ _].
    eapply Forall_impl; [|exact Hhashed].
    intros u (password & salt & Hu). exists password, salt.
    split; [assumption|]. rewrite Hu. apply Honeway.
  - intros reqBody env v Hparse H201.
    rewrite (post_signin_created reqBody env db v Hparse H201).
    split; [reflexivity|]. split; [reflexivity|]. apply Honeway.
  - intros reqBody env v user Hparse Hfind.
    unfold post_login. rewrite Hparse. cbn [bind]. rewrite Hfind.
    unfold comparePassword.
    now destruct (bcrypt_compare (in_password v) (u_password user)).
Qed.

(** ** Signup *)

Lemma post_signin_throw (reqBody : json) (env : Env) (db : Store) (e : exn) :
  userSchema_parse reqBody = Throw e ->
  post_signin reqBody env db = (internal_server_error, db).
Proof.
  intros Hparse. unfold post_signin. now rewrite Hparse.
Qed.

Lemma post_signin_conflict (reqBody : json) (env : Env) (db : Store)
  (v : UserInput) :
  userSchema_parse reqBody = Ok v ->
  (exists u, In u (users db) /\ u_username u = in_username v) ->
  post_signin reqBody env db
  = (res_status_json 409 (error_body "Username already exists"), db).
Proof.
  intros Hparse (u & Hin & Hname). unfold post_signin. rewrite Hparse. cbn [bind].
  unfold UserModel_findOne_username.
  destruct (find _ (users db)) eqn:Hfind; [reflexivity|].
  pose proof (find_none _ _ Hfind u Hin) as Hno. cbv beta in Hno.
  rewrite Hname, String.eqb_refl in Hno. discriminate.
Qed.

Lemma post_signin_fresh (reqBody : json) (env : Env) (db : Store)
  (v : UserInput) :
  userSchema_parse reqBody = Ok v ->
  (3 <= js_length (in_username v))%nat ->
  ~ In (in_username v) (map u_username (users db)) ->
  ~ In (newObjectId env) (map u_id (users db)) ->
  post_signin reqBody env db
  = (res_status_json 201
       (JObj [("status", JStr "success");
              ("message", JStr "User created successfully")]),
     set_users db (users db ++ [registered v env])).
Proof.
  intros Hparse Hlen Hname Hid. unfold post_signin. rewrite Hparse. cbn [bind].
  apply userSchema_parse_ok in Hparse
    as (fields & username & password & _ & _ & _ & _ & Hpw & ->).
  cbn [in_username in_password] in *.
  unfold UserModel_findOne_username.
  destruct (find _ (users db)) as [u|] eqn:Hfind.
  { exfalso. apply find_some in Hfind as (Hin & Heq). apply String.eqb_eq in Heq.
    apply Hname. rewrite <- Heq. now apply in_map. }
  unfold UserModel_create, UserSchema_validate. cbn [u_username u_password].
  rewrite trim_idempotent.
  destruct (Nat.ltb_spec (js_length (trim username)) 3); [lia|].
  destruct (Nat.ltb_spec (js_length password) 6); [lia|].
  cbn [bind UserSchema_pre_save negb u_id u_username u_password].
  destruct (existsb (fun u => (u_id u =? _)%string) (users db)) eqn:Hex.
  { exfalso. apply existsb_exists in Hex as (u & Hin & Heq).
    apply String.eqb_eq in Heq. apply Hid. rewrite <- Heq. now apply in_map. }
  destruct (existsb (fun u => (u_username u =? _)%string) (users db)) eqn:Hex'.
  { exfalso. apply existsb_exists in Hex' as (u & Hin & Heq).
    apply String.eqb_eq in Heq. apply Hname. rewrite <- Heq. now apply in_map. }
  reflexivity.
Qed.

(** [C8] On a body that fails the shape check, [POST /signin] answers 500
    with the internal-error body, where [POST /content] answers 400 on a
    failed shape check. *)
Theorem signin_shape_failure_is_500 (env : Env) (db : Store) :
  userSchema_parse short_username_body
  = Throw (ZodError
             [{| zi_code := too_small 3; zi_path := ["username"];
                 zi_message := Some "Username must be at least 3 characters" |}])
  /\ post_signin short_username_body env db = (internal_server_error, db)
  /\ status (fst (post_signin short_username_body env db)) = 500
  /\ forall userId, status (fst (post_content userId (JObj []) env db)) = 400.
Proof.
  repeat split.
Qed.

(** ** Content: the unique index on [title] *)

Lemma post_content_duplicate_title (userId reqBody : json) (env : Env)
  (db : Store) (v : ContentInput) :
  contentSchema_parse reqBody = Ok v ->
  In (in_title v) (map c_title (contents db)) ->
  post_content userId reqBody env db = (failed_to_add_content, db).
Proof.
  intros Hparse Hdup. unfold post_content. rewrite Hparse. cbn [bind].
  unfold ContentModel_create.
  destruct (castQuery (QJson userId)) as [owner|e]; [|reflexivity].
  unfold ContentSchema_validate. cbn [c_title c_link c_id].
  destruct (in_title v =? "")%string; [reflexivity|].
  destruct (in_link v =? "")%string; [reflexivity|].
  cbn [bind].
  destruct (existsb (fun c => (c_id c =? _)%string) (contents db)); [reflexivity|].
  destruct (existsb (fun c => (c_title c =? _)%string) (contents db)) eqn:Hex;
    [reflexivity|].
  exfalso. now apply existsb_key_false in Hex.
Qed.

(** [C9] In every store the server can be in, the content titles are
    pairwise distinct, over all owners; and a create whose body passes the
    shape check and carries the title of an existing record is answered 500
    and stores nothing, whoever the caller is. *)
Theorem content_titles_unique (db : Store) :
  reachable JWT_PASSWORD db ->
  NoDup (map c_title (contents db))
  /\ (forall c userId reqBody env v,
        In c (contents db) ->
        prop "title" reqBody = JStr (c_title c) ->
        contentSchema_parse reqBody = Ok v ->
        post_content userId reqBody env db = (failed_to_add_content, db)
        /\ status (fst (post_content userId reqBody env db)) = 500).
Proof.
  intros Hreach. apply reachable_inv in Hreach.
  destruct Hreach as [_ _ _ _ Htitles Htok _].
  split; [assumption|].
  intros c userId reqBody env v Hin Htitle Hparse.
  assert (Hpost : post_content userId reqBody env db = (failed_to_add_content, db)).
  { apply (post_content_duplicate_title _ _ _ _ v Hparse).
    apply contentSchema_parse_ok in Hparse
      as (fields & title & link & _ & Htitle' & _ & _ & _ & ->).
    rewrite Htitle in Htitle'. injection Htitle' as <-. cbn [in_title].
    rewrite Forall_forall in Htok. destruct (Htok c Hin) as (-> & _).
    now apply in_map. }
  now rewrite Hpost.
Qed.

End Properties.

(** * Worked instances

    The theorems applied to requests on the reference instances. *)

Lemma append_length (a b : string) :
  String.length (a ++ b) = (String.length a + String.length b)%nat.
Proof.
  induction a as [|c a IH]; simpl; [reflexivity|]. now rewrite IH.
Defined.

Lemma ref_bcrypt_not_identity (password salt : string) :
  bcrypt_hash (Bcrypt := ref_bcrypt) password salt <> password.
Proof.
  cbn. intros Heq. apply (f_equal String.length) in Heq.
  rewrite append_length in Heq. cbn in Heq. lia.
Defined.

Lemma delete_content_owner_only_witness :
  let reqBody := JObj [("contentId", JStr "65a000000000000000000011")] in
  owned_by ref_store "65a000000000000000000011" alice
  /\ fst (delete_content (mongoose := ref_mongoose) (JStr alice) reqBody ref_store)
     = content_deleted
  /\ map c_title
       (contents (snd (delete_content (mongoose := ref_mongoose) (JStr alice)
                         reqBody ref_store)))
     = ["news"; "docs"]
  /\ delete_content (mongoose := ref_mongoose) (JStr bob) reqBody ref_store
     = (not_found_or_forbidden, ref_store)
  /\ delete_content (mongoose := ref_mongoose) (JStr bob) (JObj []) ref_store
     = (content_id_required, ref_store).
Proof.
  intros reqBody.
  assert (Hown : owned_by ref_store "65a000000000000000000011" alice).
  { eexists. split; [left; reflexivity|]. split; reflexivity. }
  split; [exact Hown|]. split; [|split; [reflexivity|split]].
  - pose proof (delete_content_owner_only (mongoose := ref_mongoose)
                  (JStr alice) reqBody ref_store alice eq_refl) as H.
    cbv zeta in H.
    exact (proj1 (proj1 (proj1 H "65a000000000000000000011" eq_refl eq_refl)
                    Hown)).
  - pose proof (delete_content_owner_only (mongoose := ref_mongoose)
                  (JStr bob) reqBody ref_store bob eq_refl) as H.
    cbv zeta in H.
    apply (proj2 (proj1 H "65a000000000000000000011" eq_refl eq_refl)).
    intros (c & Hin & Hid & Hc). cbn in Hin.
    destruct Hin as [<-|[<-|[<-|[]]]]; cbn in Hid, Hc; discriminate.
  - pose proof (delete_content_owner_only (mongoose := ref_mongoose)
                  (JStr bob) (JObj []) ref_store bob eq_refl) as H.
    cbv zeta in H. exact (proj1 (proj2 H) eq_refl eq_refl).
Defined.

(** The 404 response is not the answer to every delete that names no
    record of the caller: no record of the reference store has the
    identifier [""] or ["xyz"], yet a delete of the first is answered 400
    and a delete of the second 500. *)
Lemma delete_content_absent_not_404 :
  map c_id (contents ref_store)
  = ["65a000000000000000000011"; "65a000000000000000000012";
     "65a000000000000000000013"]
  /\ delete_content (mongoose := ref_mongoose) (JStr bob)
       (JObj [("contentId", JStr "")]) ref_store
     = (res_status_json 400 (error_body "Content ID is required"), ref_store)
  /\ fst (delete_content (mongoose := ref_mongoose) (JStr bob)
            (JObj [("contentId", JStr "")]) ref_store)
     <> not_found_or_forbidden
  /\ delete_content (mongoose := ref_mongoose) (JStr bob)
       (JObj [("contentId", JStr "xyz")]) ref_store
     = (res_status_json 500 (error_body "Failed to delete content"), ref_store)
  /\ fst (delete_content (mongoose := ref_mongoose) (JStr bob)
            (JObj [("contentId", JStr "xyz")]) ref_store)
     <> not_found_or_forbidden.
Proof. repeat split; discriminate. Qed.

Lemma get_brain_public_witness :
  (exists docs,
     get_brain (mongoose := ref_mongoose) "h4shh4shh4" ref_store
     = (res_json
          (JObj [("status", JStr "success");
                 ("data",
                  JObj [("username", JStr "alice"); ("content", JArr docs);
                        ("sharedAt", JNum 1699999999000)])]), ref_store)
     /\ Forall2 (public_record ref_store)
          (filter (fun c => (c_userId c =? alice)%string) (contents ref_store))
          docs)
  /\ fst (get_brain (mongoose := ref_mongoose) "h4shh4shh4" ref_store)
     = res_json
         (JObj [("status", JStr "success");
                ("data",
                 JObj [("username", JStr "alice");
                       ("content",
                        JArr [JObj [("_id", JStr "65a000000000000000000011");
                                    ("title", JStr "rocq");
                                    ("link", JStr "https://rocq-prover.org");
                                    ("tags",
                                     JArr [JObj [("_id", JStr "65a000000000000000000021");
                                                 ("name", JStr "proofs");
                                                 ("color", JStr "#007bff")]]);
                                    ("userId", JStr alice); ("__v", JNum 0)];
                              JObj [("_id", JStr "65a000000000000000000013");
                                    ("title", JStr "docs");
                                    ("link", JStr "https://example.org/docs");
                                    ("tags", JArr []);
                                    ("userId", JStr alice); ("__v", JNum 0)]]);
                       ("sharedAt", JNum 1699999999000)])])
  /\ get_brain (mongoose := ref_mongoose) "n0suchhash" ref_store
     = (res_status_json 404 (error_body "Share link not found"), ref_store).
Proof.
  pose proof (get_brain_public (mongoose := ref_mongoose) (bcrypt := ref_bcrypt)
                (jsonwebtoken := ref_jsonwebtoken) (zod := ref_zod) ref_key
                "h4shh4shh4" ref_store)
    as (_ & _ & _ & Hfound & _).
  pose proof (get_brain_public (mongoose := ref_mongoose) (bcrypt := ref_bcrypt)
                (jsonwebtoken := ref_jsonwebtoken) (zod := ref_zod) ref_key
                "n0suchhash" ref_store)
    as (_ & Hnone & _).
  split; [|split; [reflexivity|]].
  - apply (Hfound alice_share alice_user); cbn.
    + constructor; [intros []|constructor].
    + now left.
    + reflexivity.
    + constructor; [intros [Heq|[]]; discriminate|].
      constructor; [intros []|constructor].
    + now left.
    + reflexivity.
  - apply Hnone. cbn. intros s [<-|[]]. discriminate.
Defined.

Lemma token_issue_verify_witness :
  let token := issue_token (jsonwebtoken := ref_jsonwebtoken) ref_key alice
                 1700000000000 in
  token = "k3y.65a000000000000000000001.1700000000.1700086400"
  /\ userMiddleware (jsonwebtoken := ref_jsonwebtoken) ref_key (Some token)
       1700086399999 = Next (JStr alice)
  /\ is_401 (userMiddleware (jsonwebtoken := ref_jsonwebtoken) ref_key
               (Some token) 1700086400000).
Proof.
  intros token. split; [reflexivity|].
  assert (Hdec : jwt_decode (JsonWebToken := ref_jsonwebtoken) ref_key token
                 = Some (login_claims alice 1700000000000)) by reflexivity.
  assert (Hne : token <> EmptyString) by discriminate.
  assert (Hu : alice <> EmptyString) by discriminate.
  split.
  - pose proof (token_issue_verify (jsonwebtoken := ref_jsonwebtoken) ref_key
                  alice 1700000000000 1700086399999 Hdec Hne Hu)
      as (_ & _ & _ & Hlive & _ & _).
    apply Hlive. reflexivity.
  - pose proof (token_issue_verify (jsonwebtoken := ref_jsonwebtoken) ref_key
                  alice 1700000000000 1700086400000 Hdec Hne Hu)
      as (_ & _ & _ & _ & Hexp & _).
    apply Hexp. discriminate.
Defined.

Lemma userMiddleware_guard_witness :
  let token := issue_token (jsonwebtoken := ref_jsonwebtoken) ref_key alice
                 1700000000000 in
  userMiddleware (jsonwebtoken := ref_jsonwebtoken) ref_key (Some token)
    1700000001000 = Next (JStr alice)
  /\ is_401 (userMiddleware (jsonwebtoken := ref_jsonwebtoken) ref_key
               (Some ("Bearer " ++ token)%string) 1700000001000)
  /\ is_401 (userMiddleware (jsonwebtoken := ref_jsonwebtoken) ref_key None
               1700000001000).
Proof.
  intros token.
  pose proof (userMiddleware_guard (mongoose := ref_mongoose)
                (bcrypt := ref_bcrypt) (jsonwebtoken := ref_jsonwebtoken)
                (zod := ref_zod) ref_key 1700000001000) as (Habsent & _ & _ & _ & Hbind & Hbearer & _).
  split; [|split].
  - apply (Hbind token (login_claims alice 1700000000000));
      [discriminate|reflexivity|reflexivity].
  - apply Hbearer. reflexivity.
  - exact Habsent.
Defined.


Lemma enable_sharing_idempotent_witness :
  let enable := JObj [("share", JBool true)] in
  let db1 := snd (post_brain_share (mongoose := ref_mongoose) (JStr bob) enable
                    ref_env ref_store) in
  fst (post_brain_share (mongoose := ref_mongoose) (JStr bob) enable ref_env
         ref_store)
  = res_json (JObj [("status", JStr "success"); ("hash", JStr "a1b2c3d4e5");
                    ("message", JStr "Share link created")])
  /\ post_brain_share (mongoose := ref_mongoose) (JStr bob) enable ref_env2 db1
     = (res_json (share_enabled "a1b2c3d4e5"), db1).
Proof.
  intros enable db1. split; [reflexivity|].
  pose proof (enable_sharing_idempotent (mongoose := ref_mongoose) (JStr bob)
                enable enable ref_env ref_env2 ref_store bob
                eq_refl eq_refl eq_refl) as (_ & Htwice).
  exact (Htwice "a1b2c3d4e5" eq_refl).
Defined.

Lemma share_falsy_disables_witness :
  shares ref_store = [alice_share]
  /\ fst (post_brain_share (mongoose := ref_mongoose) (JStr alice) (JObj [])
            ref_env ref_store) = share_removed
  /\ shares (snd (post_brain_share (mongoose := ref_mongoose) (JStr alice)
                    (JObj []) ref_env ref_store)) = []
  /\ shares (snd (post_brain_share (mongoose := ref_mongoose) (JStr alice)
                    (JObj [("share", JNum 0)]) ref_env ref_store)) = []
  /\ post_brain_share (mongoose := ref_mongoose) (JStr alice) JUndefined
       ref_env ref_store = (share_failed, ref_store).
Proof.
  pose proof (share_falsy_disables (mongoose := ref_mongoose) (JStr alice)
                (JObj []) ref_env ref_store alice eq_refl) as H1.
  pose proof (share_falsy_disables (mongoose := ref_mongoose) (JStr alice)
                (JObj [("share", JNum 0)]) ref_env ref_store alice eq_refl) as H2.
  pose proof (share_falsy_disables (mongoose := ref_mongoose) (JStr alice)
                JUndefined ref_env ref_store alice eq_refl) as H3.
  cbv zeta in H1, H2, H3.
  destruct (proj1 H1 eq_refl eq_refl) as (Hr1 & Hs1 & _).
  destruct (proj1 H2 eq_refl eq_refl) as (Hr2 & Hs2 & _).
  split; [reflexivity|]. split; [exact Hr1|]. split; [exact Hs1|].
  split; [exact Hs2|]. exact (proj2 (proj2 H3) eq_refl).
Defined.

Lemma passwords_stored_hashed_witness :
  let db := snd (handle (mongoose := ref_mongoose) (bcrypt := ref_bcrypt)
                   (jsonwebtoken := ref_jsonwebtoken) (zod := ref_zod) ref_key
                   (PostSignin (JObj [("username", JStr "alice");
                                      ("password", JStr "secret1")]))
                   ref_env ref_init) in
  users db = [ {| u_id := "65a0000000000000000000ff"; u_username := "alice";
                  u_password := "secret1$saltsaltsaltsaltsaltsa" |} ]
  /\ Forall (fun u => exists password salt,
                u_password u = bcrypt_hash (Bcrypt := ref_bcrypt) password salt
                /\ u_password u <> password) (users db).
Proof.
  intros db. split; [reflexivity|].
  apply (passwords_stored_hashed (mongoose := ref_mongoose) (bcrypt := ref_bcrypt)
           (jsonwebtoken := ref_jsonwebtoken) (zod := ref_zod) ref_key db
           ref_bcrypt_not_identity).
  apply reachable_step, reachable_init.
Defined.

Lemma content_titles_unique_witness :
  let token := issue_token (jsonwebtoken := ref_jsonwebtoken) ref_key alice
                 1700000000000 in
  let reqBody := JObj [("title", JStr "rocq");
                       ("link", JStr "https://rocq-prover.org")] in
  let db := snd (handle (mongoose := ref_mongoose) (bcrypt := ref_bcrypt)
                   (jsonwebtoken := ref_jsonwebtoken) (zod := ref_zod) ref_key
                   (PostContent (Some token) reqBody) ref_env ref_init) in
  map c_title (contents db) = ["rocq"]
  /\ post_content (mongoose := ref_mongoose) (zod := ref_zod) (JStr bob) reqBody
       ref_env2 db
     = (failed_to_add_content, db).
Proof.
  intros token reqBody db. split; [reflexivity|].
  assert (Hreach : reachable (mongoose := ref_mongoose) (bcrypt := ref_bcrypt)
                     (jsonwebtoken := ref_jsonwebtoken) (zod := ref_zod)
                     ref_key db)
    by apply reachable_step, reachable_init.
  pose proof (content_titles_unique (mongoose := ref_mongoose)
                (bcrypt := ref_bcrypt) (jsonwebtoken := ref_jsonwebtoken)
                (zod := ref_zod) ref_key db Hreach) as (_ & Hdup).
  refine (proj1 (Hdup {| c_id := "65a0000000000000000000ff"; c_title := "rocq";
                          c_link := "https://rocq-prover.org"; c_tags := [];
                          c_userId := alice |}
                   (JStr bob) reqBody ref_env2
                   {| in_title := "rocq"; in_link := "https://rocq-prover.org" |}
                   _ eq_refl eq_refl)).
  left. reflexivity.
Defined.

(** * Further properties *)

Section Signup.

Context {mongoose : Mongoose} {bcrypt : Bcrypt} {jsonwebtoken : JsonWebToken}
        {zod : Zod}.
Variable JWT_PASSWORD : string.

Lemma find_app_some {A : Type} (p : A -> bool) (l l' : list A) (x : A) :
  find p l = Some x -> find p (l ++ l') = Some x.
Proof.
  induction l as [|y l IH]; simpl; [discriminate|].
  destruct (p y); [trivial|exact IH].
Qed.

(** The four ways [POST /signin] can go. *)
Lemma post_signin_cases (reqBody : json) (env : Env) (db : Store) :
  let out := post_signin reqBody env db in
  (exists e, userSchema_parse reqBody = Throw e
             /\ out = (internal_server_error, db))
  \/ (exists v, userSchema_parse reqBody = Ok v
                /\ In (in_username v) (map u_username (users db))
                /\ out = (username_exists, db))
  \/ (exists v, userSchema_parse reqBody = Ok v
                /\ ~ In (in_username v) (map u_username (users db))
                /\ ((js_length (in_username v) < 3)%nat
                    \/ In (newObjectId env) (map u_id (users db)))
                /\ out = (internal_server_error, db))
  \/ (exists v, userSchema_parse reqBody = Ok v
                /\ ~ In (in_username v) (map u_username (users db))
                /\ (3 <= js_length (in_username v))%nat
                /\ ~ In (newObjectId env) (map u_id (users db))
                /\ out = (user_created,
                          set_users db (users db ++ [registered v env]))).
Proof.
  intros out. subst out.
  destruct (userSchema_parse reqBody) as [v|e] eqn:Hparse.
  2:{ left. exists e. split; [reflexivity|]. now apply (post_signin_throw _ _ _ e). }
  right.
  destruct (in_dec string_dec (in_username v) (map u_username (users db)))
    as [Hin|Hnotin].
  { left. exists v. repeat split; try assumption.
    apply in_map_iff in Hin as (u & Hu & Hin).
    apply (post_signin_conflict _ _ _ v Hparse). now exists u. }
  right.
  destruct (Nat.ltb_spec (js_length (in_username v)) 3) as [Hshort|Hlong];
    [|destruct (in_dec string_dec (newObjectId env) (map u_id (users db)))
        as [Hid|Hid]].
  - left. exists v. repeat split; try assumption; [now left|].
    destruct (userSchema_parse_trimmed _ _ Hparse) as (Htrim & _).
    unfold post_signin. rewrite Hparse. cbn [bind].
    unfold UserModel_findOne_username.
    destruct (find _ (users db)) as [u|] eqn:Hfind.
    { exfalso. apply find_some in Hfind as (Hu & Heq). apply String.eqb_eq in Heq.
      apply Hnotin. rewrite <- Heq. now apply in_map. }
    unfold UserModel_create, UserSchema_validate. cbn [u_username].
    rewrite Htrim. apply Nat.ltb_lt in Hshort. now rewrite Hshort.
  - left. exists v. repeat split; try assumption; [now right|].
    destruct (userSchema_parse_trimmed _ _ Hparse) as (Htrim & _ & Hpw).
    unfold post_signin. rewrite Hparse. cbn [bind].
    unfold UserModel_findOne_username.
    destruct (find _ (users db)) as [u|] eqn:Hfind.
    { exfalso. apply find_some in Hfind as (Hu & Heq). apply String.eqb_eq in Heq.
      apply Hnotin. rewrite <- Heq. now apply in_map. }
    unfold UserModel_create, UserSchema_validate. cbn [u_username u_password].
    rewrite Htrim.
    destruct (Nat.ltb_spec (js_length (in_username v)) 3); [lia|].
    destruct (Nat.ltb_spec (js_length (in_password v)) 6); [lia|].
    cbn [bind UserSchema_pre_save negb u_id].
    destruct (existsb (fun u => (u_id u =? _)%string) (users db)) eqn:Hex;
      [reflexivity|].
    exfalso. now apply existsb_key_false in Hex.
  - right. exists v. repeat split; try assumption.
    now apply post_signin_fresh.
Qed.

Lemma post_signin_201 (reqBody : json) (env : Env) (db : Store) :
  status (fst (post_signin reqBody env db)) = 201 ->
  exists v, userSchema_parse reqBody = Ok v
            /\ ~ In (in_username v) (map u_username (users db))
            /\ (3 <= js_length (in_username v))%nat
            /\ ~ In (newObjectId env) (map u_id (users db))
            /\ post_signin reqBody env db
               = (user_created, set_users db (users db ++ [registered v env])).
Proof.
  intros H201.
  destruct (post_signin_cases reqBody env db)
    as [(e & _ & Hout)|[(v & _ & _ & Hout)|[(v & _ & _ & _ & Hout)|(v & H)]]];
    try (rewrite Hout in H201; discriminate).
  now exists v.
Qed.

(** [X4] The outcomes of [POST /signin], handled with no other request in
    between: 409 exactly when the body passes the shape check and the
    trimmed username is taken; 201 exactly when it passes, the trimmed
    username is free and has at least 3 UTF-16 code units, and the new
    identifier is free; in every other case the 500 response.  The store
    changes on 201 only, by the one appended user.  The shape check passes
    exactly on an object whose [username] is a string of 3 to 50 code units
    and whose [password] is a string of 6 to 100, and the username it hands
    on is the trimmed one. *)
Theorem signin_outcomes (reqBody : json) (env : Env) (db : Store) :
  let out := post_signin reqBody env db in
  (status (fst out) = 409 <->
     exists v, userSchema_parse reqBody = Ok v
               /\ In (in_username v) (map u_username (users db)))
  /\ (status (fst out) = 201 <->
        exists v, userSchema_parse reqBody = Ok v
                  /\ ~ In (in_username v) (map u_username (users db))
                  /\ (3 <= js_length (in_username v))%nat
                  /\ ~ In (newObjectId env) (map u_id (users db)))
  /\ (status (fst out) = 409 \/ status (fst out) = 201
      \/ out = (internal_server_error, db))
  /\ (status (fst out) <> 201 -> snd out = db)
  /\ (forall v, userSchema_parse reqBody = Ok v -> status (fst out) = 201 ->
       out = (user_created, set_users db (users db ++ [registered v env])))
  /\ (forall v,
       userSchema_parse reqBody = Ok v <->
       exists fields username password,
         reqBody = JObj fields
         /\ prop "username" reqBody = JStr username
         /\ (3 <= js_length username <= 50)%nat
         /\ prop "password" reqBody = JStr password
         /\ (6 <= js_length password <= 100)%nat
         /\ v = {| in_username := trim username; in_password := password |}).
Proof.
  intros out. subst out.
  assert (Hmain :
    (status (fst (post_signin reqBody env db)) = 409 <->
       exists v, userSchema_parse reqBody = Ok v
                 /\ In (in_username v) (map u_username (users db)))
    /\ (status (fst (post_signin reqBody env db)) = 201 <->
          exists v, userSchema_parse reqBody = Ok v
                    /\ ~ In (in_username v) (map u_username (users db))
                    /\ (3 <= js_length (in_username v))%nat
                    /\ ~ In (newObjectId env) (map u_id (users db)))
    /\ (status (fst (post_signin reqBody env db)) = 409
        \/ status (fst (post_signin reqBody env db)) = 201
        \/ post_signin reqBody env db = (internal_server_error, db))
    /\ (status (fst (post_signin reqBody env db)) <> 201 ->
        snd (post_signin reqBody env db) = db)
    /\ (forall v, userSchema_parse reqBody = Ok v ->
         status (fst (post_signin reqBody env db)) = 201 ->
         post_signin reqBody env db
         = (user_created, set_users db (users db ++ [registered v env])))).
  {
    destruct (post_signin_cases reqBody env db)
      as [(e & Hp & Hout)|[(v & Hp & Hin & Hout)|[(v & Hp & Hfree & Hbad & Hout)
         |(v & Hp & Hfree & Hlen & Hid & Hout)]]];
      rewrite Hout; cbn [fst snd status res_status_json internal_server_error
                         username_exists user_created].
    - split; [|split; [|split; [|split]]].
      + split; [discriminate|]. intros (v & Hv & _). congruence.
      + split; [discriminate|]. intros (v & Hv & _). congruence.
      + now right; right.
      + reflexivity.
      + discriminate.
    - split; [|split; [|split; [|split]]].
      + split; [|reflexivity]. intros _. now exists v.
      + split; [discriminate|]. intros (v' & Hv' & Hfree & _). congruence.
      + now left.
      + reflexivity.
      + discriminate.
    - split; [|split; [|split; [|split]]].
      + split; [discriminate|]. intros (v' & Hv' & Hin). congruence.
      + split; [discriminate|]. intros (v' & Hv' & _ & Hlen & Hid).
        assert (v' = v) by congruence. subst v'. destruct Hbad; [lia|contradiction].
      + now right; right.
      + reflexivity.
      + discriminate.
    - split; [|split; [|split; [|split]]].
      + split; [discriminate|]. intros (v' & Hv' & Hin). congruence.
      + split; [|reflexivity]. intros _. now exists v.
      + now right; left.
      + intros Hne. exfalso. now apply Hne.
      + intros v' Hv' _. congruence. }
  destruct Hmain as (H409 & H201 & Hall & Hstore & Hcreated).
  repeat (split; [assumption|]). intros v. apply userSchema_parse_ok.
Qed.

(** *** What each route leaves alone *)

Ltac frame_cases :=
  repeat match goal with
         | |- context [match ?x with _ => _ end] =>
             lazymatch x with
             | context [match _ with _ => _ end] => fail
             | _ => destruct x
             end
         end;
  reflexivity.

Lemma post_signin_frame (reqBody : json) (env : Env) (db : Store) :
  let db' := snd (post_signin reqBody env db) in
  contents db' = contents db /\ tags db' = tags db /\ shares db' = shares db.
Proof.
  cbv zeta.
  destruct (post_signin_cases reqBody env db)
    as [(e & _ & ->)|[(v & _ & _ & ->)|[(v & _ & _ & _ & ->)
       |(v & _ & _ & _ & _ & ->)]]]; now repeat split.
Qed.

Lemma post_content_frame (userId reqBody : json) (env : Env) (db : Store) :
  let db' := snd (post_content userId reqBody env db) in
  users db' = users db /\ tags db' = tags db /\ shares db' = shares db.
Proof.
  cbv zeta.
  unfold post_content, ContentModel_create, ContentSchema_validate, bind, try_catch.
  repeat split; frame_cases.
Qed.

Lemma delete_content_frame (userId reqBody : json) (db : Store) :
  let db' := snd (delete_content userId reqBody db) in
  users db' = users db /\ tags db' = tags db /\ shares db' = shares db.
Proof.
  cbv zeta.
  unfold delete_content, ContentModel_findOneAndDelete, bind, try_catch.
  repeat split; frame_cases.
Qed.

Lemma post_brain_share_frame (userId reqBody : json) (env : Env) (db : Store) :
  let db' := snd (post_brain_share userId reqBody env db) in
  users db' = users db /\ tags db' = tags db /\ contents db' = contents db.
Proof.
  cbv zeta.
  unfold post_brain_share, ShareModel_findOne_userId, ShareModel_create,
    ShareModel_deleteOne, bind, try_catch.
  repeat split; frame_cases.
Qed.

Lemma guarded_frame (h : option string) (env : Env) (db : Store)
  (handler : json -> response * Store) (P : Store -> Prop) :
  P db -> (forall userId, P (snd (handler userId))) ->
  P (snd (guarded JWT_PASSWORD h env db handler)).
Proof.
  intros Hdb Hhandler. unfold guarded.
  destruct (userMiddleware JWT_PASSWORD h (now env)); [exact Hdb|apply Hhandler].
Qed.

(** What one request leaves alone. *)
Lemma handle_frame (req : request) (env : Env) (db : Store) :
  let db' := snd (handle JWT_PASSWORD req env db) in
  tags db' = tags db
  /\ (exists added, users db' = users db ++ added /\ (List.length added <= 1)%nat)
  /\ (is_signin req = false -> users db' = users db)
  /\ match req with
     | PostLogin _ | GetContent _ | GetBrain _ => db' = db
     | PostSignin _ => contents db' = contents db /\ shares db' = shares db
     | PostContent _ _ | DeleteContent _ _ => shares db' = shares db
     | PostBrainShare _ _ => contents db' = contents db
     end.
Proof.
  cbv zeta.
  assert (Hsame : forall db' : Store, users db' = users db ->
            exists added, users db' = users db ++ added /\ (List.length added <= 1)%nat).
  { intros db' ->. exists []. rewrite app_nil_r. split; [reflexivity|simpl; lia]. }
  assert (Hpack : forall (db' : Store) (Q : Prop),
            tags db' = tags db -> users db' = users db -> Q ->
            tags db' = tags db
            /\ (exists added, users db' = users db ++ added
                              /\ (List.length added <= 1)%nat)
            /\ (false = false -> users db' = users db) /\ Q).
  { intros db' Q Ht Hu HQ. split; [assumption|]. split; [now apply Hsame|].
    split; [trivial|assumption]. }
  destruct req as [b|b|h b|h|h b|h b|hash]; cbn [handle is_signin].
  - destruct (post_signin_frame b env db) as (Hc & Ht & Hs).
    split; [assumption|]. split; [|split; [discriminate|now split]].
    destruct (post_signin_cases b env db)
      as [(e & _ & ->)|[(v & _ & _ & ->)|[(v & _ & _ & _ & ->)
         |(v & _ & _ & _ & _ & ->)]]]; cbn [snd]; try (now apply Hsame).
    exists [registered v env]. split; [reflexivity|simpl; lia].
  - rewrite post_login_store. now apply Hpack.
  - apply (guarded_frame h env db _
             (fun db' => tags db' = tags db
                /\ (exists added, users db' = users db ++ added
                                  /\ (List.length added <= 1)%nat)
                /\ (false = false -> users db' = users db)
                /\ shares db' = shares db)).
    + now apply Hpack.
    + intros userId. destruct (post_content_frame userId b env db) as (Hu & Ht & Hs).
      now apply Hpack.
  - apply (guarded_frame h env db _
             (fun db' => tags db' = tags db
                /\ (exists added, users db' = users db ++ added
                                  /\ (List.length added <= 1)%nat)
                /\ (false = false -> users db' = users db)
                /\ db' = db)).
    + now apply Hpack.
    + intros userId. rewrite get_content_store. now apply Hpack.
  - apply (guarded_frame h env db _
             (fun db' => tags db' = tags db
                /\ (exists added, users db' = users db ++ added
                                  /\ (List.length added <= 1)%nat)
                /\ (false = false -> users db' = users db)
                /\ shares db' = shares db)).
    + now apply Hpack.
    + intros userId. destruct (delete_content_frame userId b db) as (Hu & Ht & Hs).
      now apply Hpack.
  - apply (guarded_frame h env db _
             (fun db' => tags db' = tags db
                /\ (exists added, users db' = users db ++ added
                                  /\ (List.length added <= 1)%nat)
                /\ (false = false -> users db' = users db)
                /\ contents db' = contents db)).
    + now apply Hpack.
    + intros userId.
      destruct (post_brain_share_frame userId b env db) as (Hu & Ht & Hc).
      now apply Hpack.
  - rewrite get_brain_store. now apply Hpack.
Qed.

Lemma run_users (reqs : list (request * Env)) (db : Store) :
  exists added, users (run JWT_PASSWORD reqs db) = users db ++ added.
Proof.
  revert db. induction reqs as [|[req env] reqs IH]; intros db; cbn [run].
  - exists []. now rewrite app_nil_r.
  - destruct (IH (snd (handle JWT_PASSWORD req env db))) as (added' & ->).
    destruct (handle_frame req env db) as (_ & (added & -> & _) & _).
    exists (added ++ added'). now rewrite app_assoc.
Qed.

(** [X13] What no sequence of requests does.  The tags stay as they were.
    The users that were there stay, in place and unchanged, and at most one
    user is appended per signup in the sequence.  Without a content write
    (create, delete) the contents stay as they were, and without a share
    request the mappings stay as they were. *)
Theorem run_frame (reqs : list (request * Env)) (db : Store) :
  let db' := run JWT_PASSWORD reqs db in
  tags db' = tags db
  /\ (exists added,
        users db' = users db ++ added
        /\ (List.length added
            <= List.length (filter (fun r => is_signin (fst r)) reqs))%nat)
  /\ (forallb (fun r => negb (is_content_write (fst r))) reqs = true ->
      contents db' = contents db)
  /\ (forallb (fun r => negb (is_share_write (fst r))) reqs = true ->
      shares db' = shares db).
Proof.
  cbv zeta. revert db.
  induction reqs as [|[req env] reqs IH]; intros db; cbn [run].
  - split; [reflexivity|]. split; [|now split].
    exists []. rewrite app_nil_r. split; [reflexivity|simpl; lia].
  - destruct (IH (snd (handle JWT_PASSWORD req env db)))
      as (Ht & (added' & Hu & Hlen) & Hc & Hs).
    destruct (handle_frame req env db) as (Ht0 & (added & Hu0 & Hlen0) & Hns & Hreq).
    split; [congruence|]. split; [|split].
    + exists (added ++ added'). rewrite Hu, Hu0, app_assoc.
      split; [reflexivity|]. rewrite length_app. cbn [filter fst].
      destruct (is_signin req) eqn:Hsig.
      * cbn [List.length]. lia.
      * rewrite (Hns eq_refl) in Hu0.
        apply (f_equal (@List.length User)) in Hu0.
        rewrite length_app in Hu0. lia.
    + cbn [forallb fst]. intros Hall. apply andb_true_iff in Hall as (Hreq' & Hall).
      rewrite (Hc Hall).
      destruct req; cbn in Hreq'; try discriminate; cbv beta iota in Hreq;
        solve [now rewrite Hreq | apply Hreq].
    + cbn [forallb fst]. intros Hall. apply andb_true_iff in Hall as (Hreq' & Hall).
      rewrite (Hs Hall).
      destruct req; cbn in Hreq'; try discriminate; cbv beta iota in Hreq;
        solve [now rewrite Hreq | apply Hreq].
Qed.

Lemma signup_lookup (reqBody : json) (env : Env) (db : Store)
  (reqs : list (request * Env)) :
  status (fst (post_signin reqBody env db)) = 201 ->
  exists v,
    userSchema_parse reqBody = Ok v
    /\ UserModel_findOne_username (in_username v)
         (run JWT_PASSWORD reqs (snd (post_signin reqBody env db)))
       = Some (registered v env).
Proof.
  intros H201.
  destruct (post_signin_201 reqBody env db H201)
    as (v & Hparse & Hfree & _ & _ & Hout).
  exists v. split; [assumption|]. rewrite Hout. cbn [snd].
  destruct (run_users reqs (set_users db (users db ++ [registered v env])))
    as (added & Hadded).
  unfold UserModel_findOne_username. rewrite Hadded. cbn [users set_users].
  apply find_app_some, find_snoc.
  - apply find_none_iff. intros u Hu. apply String.eqb_neq. intros Heq.
    apply Hfree. rewrite <- Heq. now apply in_map.
  - apply String.eqb_refl.
Qed.

(** [X1] A username registers once.  After a signup answered 201, and
    whatever requests follow it, a signup with the same body is answered 409
    and changes nothing. *)
Theorem signup_once (reqBody : json) (env env' : Env) (db : Store)
  (reqs : list (request * Env)) :
  status (fst (post_signin reqBody env db)) = 201 ->
  let db' := run JWT_PASSWORD reqs (snd (post_signin reqBody env db)) in
  post_signin reqBody env' db' = (username_exists, db').
Proof.
  intros H201 db'.
  destruct (signup_lookup reqBody env db reqs H201) as (v & Hparse & Hfind).
  fold db' in Hfind.
  apply (post_signin_conflict _ _ _ v Hparse).
  apply find_some in Hfind as (Hin & _). now exists (registered v env).
Qed.

(** [X2] Signup, then login.  After a signup answered 201, and whatever
    requests follow it, a login with the same body is decided by
    [bcrypt.compare] of the password against the hash signup made of it: on
    [true] it answers 200 with a token issued for the identifier signup gave
    the user, on [false] the 401 response; the store stays as it is. *)
Theorem signup_then_login (reqBody : json) (env env' : Env) (db : Store)
  (reqs : list (request * Env)) (v : UserInput) :
  userSchema_parse reqBody = Ok v ->
  status (fst (post_signin reqBody env db)) = 201 ->
  let db' := run JWT_PASSWORD reqs (snd (post_signin reqBody env db)) in
  post_login JWT_PASSWORD reqBody env' db'
  = if bcrypt_compare (in_password v)
         (bcrypt_hash (in_password v) (genSalt env 10))
    then (login_ok (issue_token JWT_PASSWORD (newObjectId env) (now env')), db')
    else (invalid_credentials, db').
Proof.
  intros Hparse H201 db'.
  destruct (signup_lookup reqBody env db reqs H201) as (v' & Hparse' & Hfind).
  assert (v' = v) by congruence. subst v'. fold db' in Hfind.
  unfold post_login. rewrite Hparse. cbn [bind]. rewrite Hfind.
  unfold comparePassword. cbn [registered u_password u_id].
  now destruct (bcrypt_compare _ _).
Qed.

(** [X3] Login, then the guard.  When login finds the user and
    [bcrypt.compare] accepts the password, the answer carries the token
    issued for that user; given that the codec reads this token back, the
    guard binds the user's identifier to any request that presents it before
    the expiry instant, and the four guarded routes run as that user. *)
Theorem login_token_authenticates (reqBody : json) (env : Env) (db : Store)
  (v : UserInput) (user : User) (t : Z) :
  userSchema_parse reqBody = Ok v ->
  UserModel_findOne_username (in_username v) db = Some user ->
  bcrypt_compare (in_password v) (u_password user) = true ->
  let token := issue_token JWT_PASSWORD (u_id user) (now env) in
  jwt_decode JWT_PASSWORD token = Some (login_claims (u_id user) (now env)) ->
  token <> EmptyString ->
  u_id user <> EmptyString ->
  t / 1000 < now env / 1000 + 86400 ->
  post_login JWT_PASSWORD reqBody env db = (login_ok token, db)
  /\ userMiddleware JWT_PASSWORD (Some token) t = Next (JStr (u_id user))
  /\ (forall env2 db2 b,
        now env2 = t ->
        handle JWT_PASSWORD (PostContent (Some token) b) env2 db2
        = post_content (JStr (u_id user)) b env2 db2
        /\ handle JWT_PASSWORD (GetContent (Some token)) env2 db2
           = get_content (JStr (u_id user)) db2
        /\ handle JWT_PASSWORD (DeleteContent (Some token) b) env2 db2
           = delete_content (JStr (u_id user)) b db2
        /\ handle JWT_PASSWORD (PostBrainShare (Some token) b) env2 db2
           = post_brain_share (JStr (u_id user)) b env2 db2).
Proof.
  intros Hparse Hfind Hcmp token Hdec Hne Hid Hlive.
  assert (Hguard : userMiddleware JWT_PASSWORD (Some token) t
                   = Next (JStr (u_id user))).
  { unfold userMiddleware.
    apply String.eqb_neq in Hne. rewrite Hne.
    rewrite (jwt_verify_login_claims JWT_PASSWORD (u_id user) (now env) t token Hdec).
    destruct (Z.leb_spec (now env / 1000 + 86400) (t / 1000)); [lia|].
    cbn [bind try_catch].
    change (prop "id" (login_claims (u_id user) (now env))) with (JStr (u_id user)).
    cbn [truthy]. apply String.eqb_neq in Hid. now rewrite Hid. }
  split; [|split; [assumption|]].
  - unfold post_login. rewrite Hparse. cbn [bind]. rewrite Hfind.
    unfold comparePassword. now rewrite Hcmp.
  - intros env2 db2 b <-. cbn [handle]. unfold guarded. rewrite Hguard.
    repeat split.
Qed.

(** [X15] Usernames count up to surrounding white space.  Two bodies with
    the same password whose usernames both have 3 to 50 UTF-16 code units as
    sent and are equal once trimmed (of the white space and line terminators
    of ECMAScript) get the same answer, and leave the same store, from
    signup and from login. *)
Theorem username_surrounding_whitespace (fields1 fields2 : list (string * json))
  (u1 u2 pw : string) (env : Env) (db : Store) :
  prop "username" (JObj fields1) = JStr u1 ->
  prop "username" (JObj fields2) = JStr u2 ->
  prop "password" (JObj fields1) = JStr pw ->
  prop "password" (JObj fields2) = JStr pw ->
  (3 <= js_length u1 <= 50)%nat ->
  (3 <= js_length u2 <= 50)%nat ->
  (6 <= js_length pw <= 100)%nat ->
  trim u1 = trim u2 ->
  post_signin (JObj fields1) env db = post_signin (JObj fields2) env db
  /\ post_login JWT_PASSWORD (JObj fields1) env db
     = post_login JWT_PASSWORD (JObj fields2) env db.
Proof.
  intros Hu1 Hu2 Hp1 Hp2 Hl1 Hl2 Hlp Htrim.
  assert (H1 : userSchema_parse (JObj fields1)
               = Ok {| in_username := trim u1; in_password := pw |}).
  { apply userSchema_parse_ok. now exists fields1, u1, pw. }
  assert (H2 : userSchema_parse (JObj fields2)
               = Ok {| in_username := trim u1; in_password := pw |}).
  { apply userSchema_parse_ok. exists fields2, u2, pw. now rewrite Htrim. }
  unfold post_signin, post_login. now rewrite H1, H2.
Qed.

End Signup.

Section ContentRoutes.

Context {mongoose : Mongoose} {zod : Zod}.

Lemma contentSchema_parse_throw (reqBody : json) (e : exn) :
  contentSchema_parse reqBody = Throw e -> exists issues, e = ZodError issues.
Proof.
  unfold contentSchema_parse.
  destruct reqBody; try (intros [= <-]; eexists; reflexivity).
  destruct (contentSchema_issues _); [discriminate|].
  intros [= <-]. eexists. reflexivity.
Qed.

(** The ways [POST /content] can go. *)
Lemma post_content_cases (userId reqBody : json) (env : Env) (db : Store) :
  let out := post_content userId reqBody env db in
  (exists issues, contentSchema_parse reqBody = Throw (ZodError issues)
                  /\ out = (validation_failed issues, db))
  \/ (exists v, contentSchema_parse reqBody = Ok v
                /\ (castObjectId userId = None
                    \/ in_title v = EmptyString \/ in_link v = EmptyString
                    \/ In (newObjectId env) (map c_id (contents db))
                    \/ In (in_title v) (map c_title (contents db)))
                /\ out = (failed_to_add_content, db))
  \/ (exists v owner,
        contentSchema_parse reqBody = Ok v
        /\ castObjectId userId = Some owner
        /\ in_title v <> EmptyString /\ in_link v <> EmptyString
        /\ ~ In (newObjectId env) (map c_id (contents db))
        /\ ~ In (in_title v) (map c_title (contents db))
        /\ out = (content_added (new_content v owner env),
                  set_contents db (contents db ++ [new_content v owner env]))).
Proof.
  intros out. subst out. unfold post_content.
  destruct (contentSchema_parse reqBody) as [v|e] eqn:Hparse.
  2:{ left. destruct (contentSchema_parse_throw _ _ Hparse) as (issues & ->).
      now exists issues. }
  right. cbn [bind]. unfold ContentModel_create. cbn [castQuery].
  destruct (castObjectId userId) as [owner|] eqn:Hcast;
    [|left; exists v; repeat split; tauto].
  unfold ContentSchema_validate. cbn [c_title c_link c_id].
  destruct (String.eqb_spec (in_title v) "") as [Ht|Ht];
    [left; exists v; repeat split; tauto|].
  destruct (String.eqb_spec (in_link v) "") as [Hl|Hl];
    [left; exists v; repeat split; tauto|].
  cbn [bind].
  destruct (existsb (fun c => (c_id c =? _)%string) (contents db)) eqn:Hid.
  { left. exists v. split; [reflexivity|]. split; [|reflexivity].
    right; right; right; left.
    apply existsb_exists in Hid as (c & Hc & Heq). apply String.eqb_eq in Heq.
    rewrite <- Heq. now apply in_map. }
  destruct (existsb (fun c => (c_title c =? _)%string) (contents db)) eqn:Htitle.
  { left. exists v. split; [reflexivity|]. split; [|reflexivity].
    right; right; right; right.
    apply existsb_exists in Htitle as (c & Hc & Heq). apply String.eqb_eq in Heq.
    rewrite <- Heq. now apply in_map. }
  right. exists v, owner.
  apply existsb_key_false in Hid, Htitle. now repeat split.
Qed.

(** [X5] The outcomes of [POST /content]: 400 exactly when the body fails
    the shape check, with [errors] listing the schema's issues, each laid
    out as Zod lays an issue out; 201 exactly when it passes, the caller's
    identity casts, the trimmed title and the link are not empty, and the
    new identifier and the title are free; in every other case the 500
    response.  The store changes on 201 only.  The shape check passes
    exactly on an object whose [title] is a string of 1 to 200 UTF-16 code
    units and whose [link] is a string of at most 2000, and the title it
    hands on is the trimmed one. *)
Theorem content_create_outcomes (userId reqBody : json) (env : Env) (db : Store) :
  let out := post_content userId reqBody env db in
  (status (fst out) = 400 <->
     exists issues, contentSchema_parse reqBody = Throw (ZodError issues))
  /\ (forall issues, contentSchema_parse reqBody = Throw (ZodError issues) ->
       out = (validation_failed issues, db)
       /\ prop "errors" (body (fst out)) = JArr (map issue_json issues))
  /\ (status (fst out) = 201 <->
        exists v owner,
          contentSchema_parse reqBody = Ok v
          /\ castObjectId userId = Some owner
          /\ in_title v <> EmptyString /\ in_link v <> EmptyString
          /\ ~ In (newObjectId env) (map c_id (contents db))
          /\ ~ In (in_title v) (map c_title (contents db)))
  /\ (status (fst out) = 400 \/ status (fst out) = 201
      \/ out = (failed_to_add_content, db))
  /\ (status (fst out) <> 201 -> snd out = db)
  /\ (forall v,
       contentSchema_parse reqBody = Ok v <->
       exists fields title link,
         reqBody = JObj fields
         /\ prop "title" reqBody = JStr title
         /\ (1 <= js_length title <= 200)%nat
         /\ prop "link" reqBody = JStr link
         /\ (js_length link <= 2000)%nat
         /\ v = {| in_title := trim title; in_link := link |})
  /\ (forall fields,
       reqBody = JObj fields -> contentSchema_issues reqBody <> [] ->
       out = (validation_failed (contentSchema_issues reqBody), db)).
Proof.
  intros out. subst out.
  assert (Hmain :
    (status (fst (post_content userId reqBody env db)) = 400 <->
       exists issues, contentSchema_parse reqBody = Throw (ZodError issues))
    /\ (forall issues, contentSchema_parse reqBody = Throw (ZodError issues) ->
         post_content userId reqBody env db = (validation_failed issues, db))
    /\ (status (fst (post_content userId reqBody env db)) = 201 <->
          exists v owner,
            contentSchema_parse reqBody = Ok v
            /\ castObjectId userId = Some owner
            /\ in_title v <> EmptyString /\ in_link v <> EmptyString
            /\ ~ In (newObjectId env) (map c_id (contents db))
            /\ ~ In (in_title v) (map c_title (contents db)))
    /\ (status (fst (post_content userId reqBody env db)) = 400
        \/ status (fst (post_content userId reqBody env db)) = 201
        \/ post_content userId reqBody env db = (failed_to_add_content, db))
    /\ (status (fst (post_content userId reqBody env db)) <> 201 ->
        snd (post_content userId reqBody env db) = db)).
  {
    destruct (post_content_cases userId reqBody env db)
      as [(issues & Hp & Hout)|[(v & Hp & Hbad & Hout)
         |(v & owner & Hp & Hcast & Ht & Hl & Hid & Htitle & Hout)]];
      rewrite Hout; cbn [fst snd status res_status_json validation_failed
                         failed_to_add_content content_added].
    - split; [|split; [|split; [|split]]].
      + split; [|reflexivity]. intros _. now exists issues.
      + intros issues' Hp'. congruence.
      + split; [discriminate|]. intros (v & owner & Hv & _). congruence.
      + now left.
      + reflexivity.
    - split; [|split; [|split; [|split]]].
      + split; [discriminate|]. intros (issues & Hi). congruence.
      + intros issues Hi. congruence.
      + split; [discriminate|].
        intros (v' & owner & Hv' & Hcast & Ht & Hl & Hid & Htitle).
        assert (v' = v) by congruence. subst v'.
        destruct Hbad as [Hb|[Hb|[Hb|[Hb|Hb]]]]; congruence || contradiction.
      + now right; right.
      + reflexivity.
    - split; [|split; [|split; [|split]]].
      + split; [discriminate|]. intros (issues & Hi). congruence.
      + intros issues Hi. congruence.
      + split; [|reflexivity]. intros _. now exists v, owner.
      + now right; left.
      + intros Hne. exfalso. now apply Hne. }
  destruct Hmain as (H400 & Hissues & H201 & Hall & Hstore).
  split; [assumption|]. split.
  { intros issues Hp. rewrite (Hissues issues Hp). now split. }
  split; [assumption|]. split; [assumption|]. split; [assumption|]. split.
  { intros v. apply contentSchema_parse_ok. }
  intros fields -> Hne. apply Hissues. unfold contentSchema_parse.
  now destruct (contentSchema_issues (JObj fields)).
Qed.



Lemma get_content_ok (userId : json) (db : Store) (A : ObjectId) :
  castObjectId userId = Some A ->
  get_content userId db
  = (content_list
       (listed db (filter (fun c => (c_userId c =? A)%string) (contents db))), db).
Proof.
  intros Hcast. unfold get_content, ContentModel_find. cbn [castQuery].
  now rewrite Hcast.
Qed.

Lemma populate_userId_forget (db : Store) (owner : ObjectId) :
  populate_userId db owner
  = match find (fun u => (u_id u =? owner)%string)
               (map forget_password (users db)) with
    | Some u => JObj [("_id", JStr (u_id u)); ("username", JStr (u_username u))]
    | None => JNull
    end.
Proof.
  unfold populate_userId. rewrite find_forget_password.
  now destruct (find _ (users db)).
Qed.

(** [X7] What a list depends on.  The answer of [GET /content] to a caller
    whose identity is [A] is the same in any two stores that agree on the
    records [A] owns, on the tags, and on the users up to their password
    fields: it does not depend on other owners' records, on the share
    mappings or on any password.  The list never changes the store. *)
Theorem list_depends_on_own_records (userId : json) (db1 db2 : Store)
  (A : ObjectId) :
  castObjectId userId = Some A ->
  filter (fun c => (c_userId c =? A)%string) (contents db1)
  = filter (fun c => (c_userId c =? A)%string) (contents db2) ->
  tags db1 = tags db2 ->
  map forget_password (users db1) = map forget_password (users db2) ->
  fst (get_content userId db1) = fst (get_content userId db2)
  /\ snd (get_content userId db1) = db1.
Proof.
  intros Hcast Hown Htags Husers.
  rewrite !(get_content_ok userId _ A Hcast). cbn [fst snd].
  split; [|reflexivity]. rewrite Hown. f_equal.
  unfold listed. apply map_ext. intros c.
  rewrite !populate_userId_forget, Husers.
  unfold populate_tags. now rewrite Htags.
Qed.

Lemma remove_first_length {A : Type} (p : A -> bool) (l : list A) :
  (List.length l <= S (List.length (remove_first p l)))%nat.
Proof.
  induction l as [|y l IH]; simpl; [lia|].
  destruct (p y); simpl; lia.
Qed.

(** [X8] What a delete never does.  Whatever the body and whoever the
    caller, [DELETE /content] keeps every record whose owner is not the
    caller's identity, removes at most one record, and leaves every remaining
    record as it was. *)
Theorem delete_spares_other_owners (userId reqBody : json) (db : Store) :
  let db' := snd (delete_content userId reqBody db) in
  (forall c, In c (contents db) ->
             castObjectId userId <> Some (c_userId c) ->
             In c (contents db'))
  /\ (forall c, In c (contents db') -> In c (contents db))
  /\ (List.length (contents db) <= S (List.length (contents db')))%nat.
Proof.
  cbv zeta.
  destruct (delete_content_contents userId reqBody db)
    as [->|(i & owner & Hcast & ->)].
  - repeat split; trivial. lia.
  - cbn [contents set_contents]. split; [|split].
    + intros c Hin Hother. apply In_remove_first_keep; [assumption|].
      apply andb_false_iff. right. apply String.eqb_neq.
      intros Heq. apply Hother. now rewrite Hcast, Heq.
    + intros c. apply In_remove_first.
    + apply remove_first_length.
Qed.

(** [X21] An object of operators as [contentId].  When the store reads the
    [contentId] of the body not as an identifier but as conditions on the
    identifier (an object such as [{ "$ne": null }]), the delete is a query:
    it answers 200 and removes the first record that is the caller's and
    whose identifier meets the conditions, whether or not any record has the
    value sent for its identifier; it answers 404 when the caller owns no
    such record.  The record removed is the caller's own. *)
Theorem delete_content_conditions (userId reqBody : json) (db : Store)
  (B : ObjectId) (meets : ObjectId -> bool) :
  castObjectId userId = Some B ->
  truthy (prop "contentId" reqBody) = true ->
  castObjectId (prop "contentId" reqBody) = None ->
  castConditions (prop "contentId" reqBody) = Some meets ->
  let matches c := (meets (c_id c) && (c_userId c =? B)%string)%bool in
  let out := delete_content userId reqBody db in
  fst out = match find matches (contents db) with
            | Some _ => content_deleted
            | None => not_found_or_forbidden
            end
  /\ contents (snd out) = remove_first matches (contents db)
  /\ users (snd out) = users db /\ shares (snd out) = shares db
  /\ (forall c, find matches (contents db) = Some c ->
        c_userId c = B /\ meets (c_id c) = true
        /\ exists l1 l2,
             contents db = l1 ++ c :: l2 /\ contents (snd out) = l1 ++ l2).
Proof.
  intros HB Htruthy Hcid Hcond matches out. subst out.
  unfold delete_content, ContentModel_findOneAndDelete, castFilter.
  rewrite (destructure_truthy _ _ Htruthy). cbn [bind].
  rewrite Htruthy, Hcid, Hcond. cbn [negb castQuery]. rewrite HB.
  cbn [bind try_catch]. fold matches.
  assert (Hshape : forall r1 r2 : response,
            (let (deleted, db') :=
               (find matches (contents db),
                set_contents db (remove_first matches (contents db))) in
             match deleted with
             | Some _ => Ok (r1, db')
             | None => Ok (r2, db')
             end)
            = Ok (match find matches (contents db) with
                  | Some _ => r1
                  | None => r2
                  end, set_contents db (remove_first matches (contents db)))).
  { intros r1 r2. now destruct (find matches (contents db)). }
  cbv beta iota in Hshape. rewrite Hshape. cbn [fst snd contents users shares
                                                 set_contents].
  split; [now destruct (find matches (contents db))|].
  split; [reflexivity|]. split; [reflexivity|]. split; [reflexivity|].
  intros c Hfind.
  destruct (remove_first_split _ _ _ Hfind) as (l1 & l2 & Hl & Hrm & Hm).
  unfold matches in Hm. apply andb_true_iff in Hm as (Hmeets & Hown).
  apply String.eqb_eq in Hown.
  split; [assumption|]. split; [assumption|]. now exists l1, l2.
Qed.

End ContentRoutes.

Section ShareRoutes.

Context {mongoose : Mongoose}.

(** The enable path when the caller has no mapping. *)
Lemma post_brain_share_create (userId reqBody : json) (env : Env) (db : Store)
  (owner : ObjectId) :
  castObjectId userId = Some owner ->
  truthy (prop "share" reqBody) = true ->
  find (fun s => (s_userId s =? owner)%string) (shares db) = None ->
  (post_brain_share userId reqBody env db = (share_failed, db)
   /\ (random env 10 = EmptyString
       \/ In (newObjectId env) (map s_id (shares db))
       \/ In (random env 10) (map s_hash (shares db))))
  \/ (post_brain_share userId reqBody env db
      = (share_created (random env 10),
         set_shares db (shares db ++ [new_share owner env]))
      /\ random env 10 <> EmptyString
      /\ ~ In (random env 10) (map s_hash (shares db))).
Proof.
  intros Hcast Htruthy Hfind.
  unfold post_brain_share, ShareModel_findOne_userId, ShareModel_create.
  rewrite (destructure_truthy _ _ Htruthy). cbn [bind].
  rewrite Htruthy. cbn [castQuery]. rewrite Hcast. cbn [bind]. rewrite Hfind.
  cbn [s_hash s_id].
  destruct (String.eqb_spec (random env 10) "") as [Hempty|Hempty];
    [left; split; [reflexivity|now left]|].
  destruct (existsb (fun s => (s_id s =? _)%string) (shares db)) eqn:Hid.
  { left. split; [reflexivity|]. right; left.
    apply existsb_exists in Hid as (x & Hx & Heq). apply String.eqb_eq in Heq.
    rewrite <- Heq. now apply in_map. }
  destruct (existsb (fun s => (s_hash s =? _)%string) (shares db)) eqn:Hhash.
  { left. split; [reflexivity|]. right; right.
    apply existsb_exists in Hhash as (x & Hx & Heq). apply String.eqb_eq in Heq.
    rewrite <- Heq. now apply in_map. }
  right. apply existsb_key_false in Hhash. now repeat split.
Qed.



Lemma find_after_remove_first {A : Type} (key : A -> string) (k : string)
  (l : list A) :
  NoDup (map key l) ->
  find (fun y => (key y =? k)%string)
       (remove_first (fun y => (key y =? k)%string) l) = None.
Proof.
  induction l as [|y l IH]; simpl; [reflexivity|].
  intros Hnodup. inversion Hnodup as [|? ? Hy Hl]; subst.
  destruct (String.eqb_spec (key y) k) as [Heq|Hne].
  - apply find_none_iff. intros x Hx. apply String.eqb_neq. intros Hk.
    apply Hy. rewrite Heq, <- Hk. now apply in_map.
  - simpl. apply String.eqb_neq in Hne. rewrite Hne. now apply IH.
Qed.

(** [X10] Disable revokes.  In a store with unique share hashes and at most
    one mapping per owner, after a disable by the owner of a mapping (a
    request whose body has an absent or falsy [share]) the public lookup of
    that mapping's hash answers 404, and the lookup of any other owner's
    hash answers what it answered before.  A request that came with no body
    at all is not a disable: it leaves the store, and so every lookup, as it
    was. *)
Theorem disable_revokes (userId reqBody : json) (env : Env) (db : Store)
  (owner : ObjectId) (link : Share) :
  castObjectId userId = Some owner ->
  truthy (prop "share" reqBody) = false ->
  NoDup (map s_hash (shares db)) ->
  NoDup (map s_userId (shares db)) ->
  In link (shares db) -> s_userId link = owner ->
  let db' := snd (post_brain_share userId reqBody env db) in
  (nullish reqBody = false ->
   get_brain (s_hash link) db' = (share_link_not_found, db'))
  /\ (forall other, In other (shares db) -> s_userId other <> owner ->
       fst (get_brain (s_hash other) db') = fst (get_brain (s_hash other) db))
  /\ (nullish reqBody = true -> db' = db).
Proof.
  intros Hcast Hfalsy Hhashes Howners Hin Hown db'. subst db'.
  destruct (nullish reqBody) eqn:Hbody.
  { unfold post_brain_share. rewrite (destructure_nullish _ _ Hbody).
    cbn [bind try_catch snd]. split; [discriminate|]. now split. }
  rewrite (post_brain_share_disable userId reqBody env db owner Hcast Hbody
             Hfalsy).
  cbn [snd].
  set (p := fun s => (s_userId s =? owner)%string).
  pose proof (find_unique s_userId owner _ link Howners Hin Hown) as Hfind.
  fold p in Hfind.
  destruct (remove_first_split _ _ _ Hfind) as (l1 & l2 & Hl & Hrm & _).
  assert (Hrest : NoDup (map s_hash (remove_first p (shares db))))
    by now apply NoDup_map_remove_first.
  split; [|split; [|discriminate]].
  - intros _. unfold get_brain, ShareModel_findOne_hash. cbn [shares set_shares].
    assert (find (fun s => (s_hash s =? s_hash link)%string)
                 (remove_first p (shares db)) = None) as ->; [|reflexivity].
    apply find_none_iff. intros x Hx. apply String.eqb_neq. intros Heq.
    rewrite Hrm in Hx. rewrite Hl, map_app in Hhashes. cbn [map] in Hhashes.
    apply NoDup_remove_2 in Hhashes. apply Hhashes.
    rewrite <- map_app, <- Heq. now apply in_map.
  - intros other Hother Hne.
    assert (Hkeep : In other (remove_first p (shares db))).
    { apply In_remove_first_keep; [assumption|]. now apply String.eqb_neq. }
    unfold get_brain, ShareModel_findOne_hash. cbn [shares set_shares].
    rewrite (find_unique s_hash (s_hash other) _ other Hrest Hkeep eq_refl).
    rewrite (find_unique s_hash (s_hash other) _ other Hhashes Hother eq_refl).
    unfold ContentModel_find, UserModel_findOne_id. cbn [castQuery bind].
    cbn [users contents set_shares].
    now destruct (find _ (users db)).
Qed.

(** [X11] Disable, then enable.  In a store with at most one mapping per
    owner, after a caller's disable no mapping is the caller's, so the
    caller's next enable does not look up a hash: it answers 200 with the
    string [random(10)] draws for it, storing a new mapping under that
    string, or the 500 response when the string is empty or taken or the new
    identifier is taken.  Nothing keeps the draw away from the hash the
    disable removed: when the draw is that hash (and the rest is free) the
    enable answers with the earlier hash again. *)
Theorem reenable_draws_anew (userId body1 body2 : json) (env1 env2 : Env)
  (db : Store) (owner : ObjectId) :
  castObjectId userId = Some owner ->
  nullish body1 = false ->
  truthy (prop "share" body1) = false ->
  truthy (prop "share" body2) = true ->
  NoDup (map s_userId (shares db)) ->
  let db1 := snd (post_brain_share userId body1 env1 db) in
  let out := post_brain_share userId body2 env2 db1 in
  (forall s, In s (shares db1) -> s_userId s <> owner)
  /\ (out = (share_created (random env2 10),
             set_shares db1 (shares db1 ++ [new_share owner env2]))
      \/ out = (share_failed, db1)
         /\ (random env2 10 = EmptyString
             \/ In (newObjectId env2) (map s_id (shares db1))
             \/ In (random env2 10) (map s_hash (shares db1))))
  /\ (forall link,
        In link (shares db) -> s_userId link = owner ->
        NoDup (map s_hash (shares db)) ->
        random env2 10 = s_hash link -> s_hash link <> EmptyString ->
        ~ In (newObjectId env2) (map s_id (shares db)) ->
        fst out = share_created (s_hash link)
        /\ In (new_share owner env2) (shares (snd out))
        /\ s_hash (new_share owner env2) = s_hash link).
Proof.
  intros Hcast Hbody Hfalsy Htruthy Howners db1 out. subst out db1.
  rewrite (post_brain_share_disable userId body1 env1 db owner Hcast Hbody
             Hfalsy).
  cbn [snd].
  pose proof (find_after_remove_first s_userId owner _ Howners) as Hnone.
  set (p := fun s => (s_userId s =? owner)%string) in *.
  pose proof (post_brain_share_create userId body2 env2
                (set_shares db (remove_first p (shares db)))
                owner Hcast Htruthy Hnone) as Hcases.
  split; [|split].
  - intros s Hs. cbn [shares set_shares] in Hs.
    pose proof (find_none _ _ Hnone s Hs) as Hno. cbv beta in Hno.
    now apply String.eqb_neq.
  - destruct Hcases as [(Hout & Hwhy)|(Hout & _)].
    + right. now split.
    + now left.
  - intros link Hin Hown Hhashes Hdraw Hne Hid.
    pose proof (find_unique s_userId owner _ link Howners Hin Hown) as Hfind.
    fold p in Hfind.
    destruct (remove_first_split _ _ _ Hfind) as (l1 & l2 & Hl & Hrm & _).
    destruct Hcases as [(Hout & [Hwhy|[Hwhy|Hwhy]])|(Hout & _)].
    + congruence.
    + exfalso. cbn [shares set_shares] in Hwhy. apply Hid.
      apply in_map_iff in Hwhy as (x & Hx & Hwhy). rewrite <- Hx.
      apply in_map. now apply In_remove_first in Hwhy.
    + exfalso. cbn [shares set_shares] in Hwhy. rewrite Hrm, Hdraw in Hwhy.
      rewrite Hl, map_app in Hhashes. cbn [map] in Hhashes.
      apply NoDup_remove_2 in Hhashes. apply Hhashes. now rewrite <- map_app.
    + rewrite Hout. cbn [fst snd shares set_shares].
      split; [now rewrite Hdraw|]. split; [|exact Hdraw].
      apply in_app_iff. right. now left.
Qed.

End ShareRoutes.

Section Reachable.

Context {mongoose : Mongoose} {bcrypt : Bcrypt} {jsonwebtoken : JsonWebToken}
        {zod : Zod}.
Variable JWT_PASSWORD : string.

Lemma NoDup_map_inj {A B : Type} (f : A -> B) (l : list A) (x y : A) :
  NoDup (map f l) -> In x l -> In y l -> f x = f y -> x = y.
Proof.
  induction l as [|z l IH]; simpl; [contradiction|].
  intros Hnodup Hx Hy Heq. inversion Hnodup as [|? ? Hz Hl]; subst.
  destruct Hx as [->|Hx], Hy as [->|Hy]; trivial.
  - exfalso. apply Hz. rewrite Heq. now apply in_map.
  - exfalso. apply Hz. rewrite <- Heq. now apply in_map.
  - now apply IH.
Qed.




(** [X20] Two enables of one caller that interleave.  From a store the
    server can be in where the caller has no mapping, two enable requests of
    the caller whose draws are free and differ both find no mapping before
    either inserts, and both insert: the server is then in a store where the
    caller owns two mappings, under two hashes. *)
Theorem interleaved_enables_race (h1 h2 : option string) (b1 b2 : json)
  (env1 env2 : Env) (db : Store) (userId : json) (owner : ObjectId) :
  reachable JWT_PASSWORD db ->
  userMiddleware JWT_PASSWORD h1 (now env1) = Next userId ->
  userMiddleware JWT_PASSWORD h2 (now env2) = Next userId ->
  castObjectId userId = Some owner ->
  truthy (prop "share" b1) = true ->
  truthy (prop "share" b2) = true ->
  (forall s, In s (shares db) -> s_userId s <> owner) ->
  random env1 10 <> EmptyString -> random env2 10 <> EmptyString ->
  random env1 10 <> random env2 10 ->
  newObjectId env1 <> newObjectId env2 ->
  ~ In (random env1 10) (map s_hash (shares db)) ->
  ~ In (random env2 10) (map s_hash (shares db)) ->
  ~ In (newObjectId env1) (map s_id (shares db)) ->
  ~ In (newObjectId env2) (map s_id (shares db)) ->
  let db' := set_shares db
               (shares db ++ [new_share owner env1; new_share owner env2]) in
  reachable JWT_PASSWORD db'
  /\ In (new_share owner env1) (shares db')
  /\ In (new_share owner env2) (shares db')
  /\ s_userId (new_share owner env1) = s_userId (new_share owner env2)
  /\ s_hash (new_share owner env1) <> s_hash (new_share owner env2).
Proof.
  intros (pool & Hfl) Hg1 Hg2 Hcast Ht1 Ht2 Hnone Hne1 Hne2 Hdiff Hids
    Hh1 Hh2 Hi1 Hi2 db'.
  split; [|split; [|split; [|split; [reflexivity|exact Hdiff]]]];
    [|subst db'; cbn [shares set_shares]; apply in_app_iff; right; cbn; tauto..].
  assert (Hfind : find (fun s => (s_userId s =? owner)%string) (shares db) = None).
  { apply find_none_iff. intros s Hs. apply String.eqb_neq. now apply Hnone. }
  assert (Hserve : forall h b env, userMiddleware JWT_PASSWORD h (now env) = Next userId ->
            truthy (prop "share" b) = true ->
            serve JWT_PASSWORD (PostBrainShare h b) env
            = post_brain_share_prog userId b env).
  { intros h b env Hg Ht. cbn [serve]. unfold guarded_prog. now rewrite Hg. }
  apply (flight_arrive JWT_PASSWORD _ _ (PostBrainShare h1 b1) env1) in Hfl.
  apply (flight_arrive JWT_PASSWORD _ _ (PostBrainShare h2 b2) env2) in Hfl.
  rewrite (Hserve h1 b1 env1 Hg1 Ht1), (Hserve h2 b2 env2 Hg2 Ht2) in Hfl.
  unfold post_brain_share_prog in Hfl.
  rewrite (destructure_truthy _ _ Ht1), (destructure_truthy _ _ Ht2), Ht1, Ht2
    in Hfl.
  unfold await at 1 3 in Hfl.
  (* both handlers look for the caller's mapping *)
  apply (flight_resume JWT_PASSWORD db [] _) in Hfl.
  apply (flight_resume JWT_PASSWORD _ [_] _) in Hfl.
  unfold reads, ShareModel_findOne_userId in Hfl. cbn [castQuery bind] in Hfl.
  rewrite Hcast in Hfl. cbn [bind app] in Hfl. rewrite Hfind in Hfl.
  (* and both insert *)
  unfold await in Hfl.
  apply (flight_resume JWT_PASSWORD db [_] _) in Hfl.
  apply (flight_resume JWT_PASSWORD _ [] _) in Hfl.
  revert Hfl. unfold writes, ShareModel_create. cbn [castQuery].
  rewrite Hcast. cbn [s_hash s_id bind app].
  apply String.eqb_neq in Hne1, Hne2. rewrite Hne1, Hne2.
  assert (existsb (fun s => (s_id s =? newObjectId env1)%string) (shares db)
          = false) as ->.
  { apply existsb_false_iff. intros s Hs. apply String.eqb_neq. intros Heq.
    apply Hi1. rewrite <- Heq. now apply in_map. }
  assert (existsb (fun s => (s_hash s =? random env1 10)%string) (shares db)
          = false) as ->.
  { apply existsb_false_iff. intros s Hs. apply String.eqb_neq. intros Heq.
    apply Hh1. rewrite <- Heq. now apply in_map. }
  cbn [bind shares set_shares].
  rewrite !existsb_app. cbn [existsb s_id s_hash].
  assert (existsb (fun s => (s_id s =? newObjectId env2)%string) (shares db)
          = false) as ->.
  { apply existsb_false_iff. intros s Hs. apply String.eqb_neq. intros Heq.
    apply Hi2. rewrite <- Heq. now apply in_map. }
  assert (existsb (fun s => (s_hash s =? random env2 10)%string) (shares db)
          = false) as ->.
  { apply existsb_false_iff. intros s Hs. apply String.eqb_neq. intros Heq.
    apply Hh2. rewrite <- Heq. now apply in_map. }
  apply String.eqb_neq in Hids, Hdiff. rewrite Hids, Hdiff.
  cbn [orb bind shares set_shares]. rewrite <- app_assoc. cbn [app].
  intros Hfl. eexists. exact Hfl.
Qed.

Lemma shape_step_refl (db : Store) : shape_step db db.
Proof. repeat split; intros; now left. Qed.

Lemma store_op_shape (db db' : Store) : store_op db db' -> shape_step db db'.
Proof.
  intros [|reqBody v env db1 Hparse Hop|reqBody v userId env c db1 Hparse Hop
          |contentId userId deleted db1 Hop|userId env db1 Hop|userId db1 Hop].
  - apply shape_step_refl.
  - apply UserModel_create_ok in Hop as (-> & Hmin & _ & _ & _).
    destruct (userSchema_parse_trimmed _ _ Hparse) as (Htrim & Hmax & _).
    rewrite Htrim in *.
    split; [|split; intros; now left].
    cbn [users set_users]. intros u Hu.
    apply in_app_iff in Hu as [Hu|[<-|[]]]; [now left|right].
    unfold username_ok. cbn [u_username]. now repeat split.
  - apply ContentModel_create_ok in Hop
      as (owner & _ & -> & -> & _ & Hl & _ & _).
    destruct (contentSchema_parse_trimmed _ _ Hparse) as (_ & _ & Hmax).
    split; [intros; now left|]. split; [|intros; now left].
    cbn [contents set_contents]. intros x Hx.
    apply in_app_iff in Hx as [Hx|[<-|[]]]; [now left|right].
    cbn [c_tags c_link]. now repeat split.
  - apply ContentModel_findOneAndDelete_ok in Hop as (p & ->).
    split; [intros; now left|]. split; [|intros; now left].
    cbn [contents set_contents]. intros x Hx. left.
    now apply In_remove_first in Hx.
  - apply ShareModel_create_ok in Hop as (owner & _ & -> & Hne & _ & _).
    split; [intros; now left|]. split; [intros; now left|].
    cbn [shares set_shares]. intros x Hx.
    apply in_app_iff in Hx as [Hx|[<-|[]]]; [now left|now right].
  - apply ShareModel_deleteOne_ok in Hop as (p & ->).
    split; [intros; now left|]. split; [intros; now left|].
    cbn [shares set_shares]. intros x Hx. left.
    now apply In_remove_first in Hx.
Qed.

(** [X14] In every store the server can be in, however its requests
    interleave: each username is trimmed and has 3 to 50 UTF-16 code units;
    each content has no tags (no route attaches one) and a link that is not
    empty and has at most 2000 code units; each share hash is not empty.  So
    every list and every public lookup sends each record with an empty
    [tags] array. *)
Theorem reachable_well_shaped (db : Store) :
  reachable JWT_PASSWORD db ->
  well_shaped db
  /\ (forall c, In c (contents db) -> populate_tags db (c_tags c) = []).
Proof.
  intros Hreach.
  assert (Hshape : well_shaped db).
  { revert db Hreach. apply reachable_invariant.
    - intros seed. constructor; cbn; constructor.
    - intros db db' [Hu Ht Hl Hs] Hop.
      destruct (store_op_shape db db' Hop) as (Hu' & Hc' & Hs').
      rewrite Forall_forall in Hu, Ht, Hl, Hs.
      constructor; apply Forall_forall.
      + intros u Hin. destruct (Hu' u Hin); auto.
      + intros c Hin. destruct (Hc' c Hin) as [?|(? & _)]; auto.
      + intros c Hin. destruct (Hc' c Hin) as [?|(_ & ? & ?)]; auto.
      + intros s Hin. destruct (Hs' s Hin); auto. }
  split; [assumption|].
  intros c Hc. destruct Hshape as [_ Ht _ _].
  rewrite Forall_forall in Ht. now rewrite (Ht c Hc).
Qed.

End Reachable.

Section Compositions.

Context {mongoose : Mongoose} {bcrypt : Bcrypt} {jsonwebtoken : JsonWebToken}
        {zod : Zod}.
Variable JWT_PASSWORD : string.


Lemma userSchema_parse_fields (fields1 fields2 : list (string * json)) :
  prop "username" (JObj fields1) = prop "username" (JObj fields2) ->
  prop "password" (JObj fields1) = prop "password" (JObj fields2) ->
  userSchema_parse (JObj fields1) = userSchema_parse (JObj fields2).
Proof.
  intros Hu Hp. unfold userSchema_parse, userSchema_issues. now rewrite Hu, Hp.
Qed.

Lemma contentSchema_parse_fields (fields1 fields2 : list (string * json)) :
  prop "title" (JObj fields1) = prop "title" (JObj fields2) ->
  prop "link" (JObj fields1) = prop "link" (JObj fields2) ->
  contentSchema_parse (JObj fields1) = contentSchema_parse (JObj fields2).
Proof.
  intros Ht Hl. unfold contentSchema_parse, contentSchema_issues.
  now rewrite Ht, Hl.
Qed.

(** [X17] What a route reads from the body.  Signup and login read only
    [username] and [password]; create reads only [title] and [link], so the
    owner and the tags of the new record never come from the body; delete
    reads only [contentId]; the share route reads only whether [share] is
    truthy.  Two bodies that agree there, both objects for the first three
    routes and both present or both absent for the last two, get the same
    answer and leave the same store.  Whether the body is present does
    count: the delete and share routes answer 500 to a request with no body,
    and 400 and (to a caller whose identity casts) 200 to one with an empty
    object. *)
Theorem routes_read_their_fields (env : Env) (db : Store) (userId : json) :
  (forall fields1 fields2,
     prop "username" (JObj fields1) = prop "username" (JObj fields2) ->
     prop "password" (JObj fields1) = prop "password" (JObj fields2) ->
     post_signin (JObj fields1) env db = post_signin (JObj fields2) env db
     /\ post_login JWT_PASSWORD (JObj fields1) env db
        = post_login JWT_PASSWORD (JObj fields2) env db)
  /\ (forall fields1 fields2,
       prop "title" (JObj fields1) = prop "title" (JObj fields2) ->
       prop "link" (JObj fields1) = prop "link" (JObj fields2) ->
       post_content userId (JObj fields1) env db
       = post_content userId (JObj fields2) env db)
  /\ (forall body1 body2,
       nullish body1 = nullish body2 ->
       prop "contentId" body1 = prop "contentId" body2 ->
       delete_content userId body1 db = delete_content userId body2 db)
  /\ (forall body1 body2,
       nullish body1 = nullish body2 ->
       truthy (prop "share" body1) = truthy (prop "share" body2) ->
       post_brain_share userId body1 env db
       = post_brain_share userId body2 env db)
  /\ delete_content userId JUndefined db = (failed_to_delete_content, db)
  /\ delete_content userId (JObj []) db = (content_id_required, db)
  /\ post_brain_share userId JUndefined env db = (share_failed, db)
  /\ (forall owner, castObjectId userId = Some owner ->
       fst (post_brain_share userId (JObj []) env db) = share_removed).
Proof.
  split; [|split; [|split; [|split; [|split; [|split; [|split]]]]]];
    try reflexivity.
  - intros fields1 fields2 Hu Hp. unfold post_signin, post_login.
    now rewrite (userSchema_parse_fields fields1 fields2 Hu Hp).
  - intros fields1 fields2 Ht Hl. unfold post_content.
    now rewrite (contentSchema_parse_fields fields1 fields2 Ht Hl).
  - intros body1 body2 Hbody Hid. unfold delete_content.
    destruct (nullish body1) eqn:H1; symmetry in Hbody.
    + now rewrite (destructure_nullish _ _ H1), (destructure_nullish _ _ Hbody).
    + now rewrite (destructure_ok _ _ H1), (destructure_ok _ _ Hbody), Hid.
  - intros body1 body2 Hbody Hshare. unfold post_brain_share.
    destruct (nullish body1) eqn:H1; symmetry in Hbody.
    + now rewrite (destructure_nullish _ _ H1), (destructure_nullish _ _ Hbody).
    + rewrite (destructure_ok _ _ H1), (destructure_ok _ _ Hbody).
      cbn [bind]. now rewrite Hshare.
  - intros owner Hcast. unfold post_brain_share, ShareModel_deleteOne.
    cbn [destructure prop assoc bind truthy castQuery]. now rewrite Hcast.
Qed.

(** [X18] The length checks run before trimming.  A create whose title has
    1 to 200 bytes as sent but is empty once trimmed, or whose link is the
    empty string, passes the shape check and is then refused by the store:
    the answer is 500, not 400.  A signup whose username has 3 to 50 bytes
    as sent but fewer than 3 once trimmed, the trimmed name not being taken,
    likewise gets 500.  Neither changes the store. *)
Theorem length_checks_precede_trim (env : Env) (db : Store) :
  (forall userId fields title link,
     prop "title" (JObj fields) = JStr title ->
     (1 <= String.length title <= 200)%nat ->
     prop "link" (JObj fields) = JStr link ->
     (String.length link <= 2000)%nat ->
     trim title = EmptyString \/ link = EmptyString ->
     post_content userId (JObj fields) env db = (failed_to_add_content, db))
  /\ (forall fields username password,
       prop "username" (JObj fields) = JStr username ->
       (3 <= String.length username <= 50)%nat ->
       prop "password" (JObj fields) = JStr password ->
       (6 <= String.length password <= 100)%nat ->
       (String.length (trim username) < 3)%nat ->
       ~ In (trim username) (map u_username (users db)) ->
       post_signin (JObj fields) env db = (internal_server_error, db)).
Proof.
  split.
  - intros userId fields title link Ht Hlt Hl Hll Hblank.
    assert (Hparse : contentSchema_parse (JObj fields)
                     = Ok {| in_title := trim title; in_link := link |}).
    { apply contentSchema_parse_ok. exists fields, title, link.
      pose proof (js_length_le title). pose proof (js_length_le link).
      assert (1 <= js_length title)%nat
        by (apply js_length_pos; intros ->; simpl in Hlt; lia).
      repeat split; try assumption; lia. }
    destruct (post_content_cases userId (JObj fields) env db)
      as [(issues & Hp & _)|[(v & _ & _ & Hout)
         |(v & o & Hp & _ & Htitle & Hlink & _)]]; [congruence|assumption|].
    exfalso. assert (v = {| in_title := trim title; in_link := link |})
      by congruence. subst v. cbn [in_title in_link] in *.
    destruct Hblank; contradiction.
  - intros fields username password Hu Hlu Hp Hlp Hshort Hfree.
    assert (Hname : forall v, userSchema_parse (JObj fields) = Ok v ->
                      in_username v = trim username).
    { intros v Hv. apply userSchema_parse_ok in Hv
        as (f & u & pw & _ & Hu' & _ & _ & _ & ->).
      rewrite Hu in Hu'. now injection Hu' as <-. }
    destruct (post_signin_cases (JObj fields) env db)
      as [(e & _ & Hout)|[(v & Hv & Hin & _)|[(v & _ & _ & _ & Hout)
         |(v & Hv & _ & Hlen & _)]]]; try assumption; exfalso;
      rewrite (Hname v Hv) in *.
    + contradiction.
    + pose proof (js_length_le (trim username)). lia.
Qed.

Lemma find_owned_record (db : Store) (c : Content) :
  NoDup (map c_id (contents db)) -> In c (contents db) ->
  find (fun x => ((c_id x =? c_id c)%string && (c_userId x =? c_userId c)%string)%bool)
       (contents db) = Some c.
Proof.
  intros Hnodup Hin.
  destruct (find _ (contents db)) as [c'|] eqn:Hfind.
  - apply find_some in Hfind as (Hin' & Hm).
    apply andb_true_iff in Hm as (Hid & _). apply String.eqb_eq in Hid.
    f_equal. exact (NoDup_map_inj c_id _ c' c Hnodup Hin' Hin Hid).
  - pose proof (find_none _ _ Hfind c Hin) as Hno. cbv beta in Hno.
    now rewrite !String.eqb_refl in Hno.
Qed.

(** [X19] A delete frees the title.  In a store the server can be in, after
    the owner deletes a record no remaining record has its title, and a
    create by any caller with that title, a link of 1 to 2000 bytes and a
    free new identifier is answered 201: the unique index on titles is over
    the records that are there. *)
Theorem delete_frees_title (userId other reqBody : json)
  (fields : list (string * json)) (link : string) (env : Env) (db : Store)
  (c : Content) (A : ObjectId) :
  reachable JWT_PASSWORD db ->
  In c (contents db) ->
  castObjectId userId = Some (c_userId c) ->
  truthy (prop "contentId" reqBody) = true ->
  castObjectId (prop "contentId" reqBody) = Some (c_id c) ->
  let db' := snd (delete_content userId reqBody db) in
  ~ In (c_title c) (map c_title (contents db'))
  /\ (prop "title" (JObj fields) = JStr (c_title c) ->
      prop "link" (JObj fields) = JStr link ->
      (1 <= String.length link <= 2000)%nat ->
      castObjectId other = Some A ->
      ~ In (newObjectId env) (map c_id (contents db')) ->
      status (fst (post_content other (JObj fields) env db')) = 201).
Proof.
  intros Hreach Hin Hcast Htruthy Hcid db'.
  apply reachable_inv in Hreach.
  destruct Hreach as [_ _ _ Hids Htitles Htok _].
  assert (Hdb' : db' = set_contents db
                   (remove_first
                      (fun x => ((c_id x =? c_id c)%string
                                 && (c_userId x =? c_userId c)%string)%bool)
                      (contents db))).
  { subst db'. unfold delete_content, ContentModel_findOneAndDelete.
    rewrite (destructure_truthy _ _ Htruthy). cbn [bind]. rewrite Htruthy.
    cbn [negb castQuery]. rewrite (castFilter_id _ _ Hcid), Hcast.
    cbn [bind try_catch]. now rewrite (find_owned_record db c Hids Hin). }
  destruct (remove_first_split _ _ _ (find_owned_record db c Hids Hin))
    as (l1 & l2 & Hl & Hrm & _).
  assert (Hfree : ~ In (c_title c) (map c_title (contents db'))).
  { rewrite Hdb'. cbn [contents set_contents]. rewrite Hrm.
    rewrite Hl, map_app in Htitles. cbn [map] in Htitles.
    apply NoDup_remove_2 in Htitles. now rewrite map_app. }
  split; [assumption|].
  intros Ht Hlink Hlen HA Hid.
  rewrite Forall_forall in Htok. destruct (Htok c Hin) as (Htrim & Hne & Hmax).
  assert (Hparse : contentSchema_parse (JObj fields)
                   = Ok {| in_title := c_title c; in_link := link |}).
  { apply contentSchema_parse_ok. exists fields, (c_title c), link.
    rewrite Htrim. pose proof (js_length_le link).
    pose proof (js_length_pos (c_title c) Hne).
    repeat split; try assumption; lia. }
  destruct (post_content_cases other (JObj fields) env db')
    as [(issues & Hp & _)|[(v & Hp & Hbad & _)|(v & o & _ & _ & _ & _ & _ & _ & Hout)]].
  - congruence.
  - exfalso.
    assert (v = {| in_title := c_title c; in_link := link |}) by congruence.
    subst v. cbn [in_title in_link] in Hbad.
    destruct Hbad as [Hb|[Hb|[Hb|[Hb|Hb]]]]; try congruence; try contradiction.
    subst link. simpl in Hlen. lia.
  - now rewrite Hout.
Qed.

End Compositions.

(** * Worked instances of the further properties *)

Lemma signup_once_witness :
  let db' := run (mongoose := ref_mongoose) (bcrypt := ref_bcrypt)
               (jsonwebtoken := ref_jsonwebtoken)
               (zod := ref_zod) ref_key
               [(PostLogin alice_body, ref_env2)]
               (snd (post_signin (bcrypt := ref_bcrypt) alice_body ref_env
                       ref_init)) in
  post_signin (bcrypt := ref_bcrypt) alice_body ref_env2 db'
  = (username_exists, db').
Proof.
  exact (signup_once (mongoose := ref_mongoose) (bcrypt := ref_bcrypt)
           (jsonwebtoken := ref_jsonwebtoken)
           (zod := ref_zod) ref_key alice_body ref_env ref_env2
           ref_init [(PostLogin alice_body, ref_env2)] eq_refl).
Defined.

Lemma signup_then_login_witness :
  let db' := run (mongoose := ref_mongoose) (bcrypt := ref_bcrypt)
               (jsonwebtoken := ref_jsonwebtoken)
               (zod := ref_zod) ref_key
               [(GetBrain "h4shh4shh4", ref_env2)]
               (snd (post_signin (bcrypt := ref_bcrypt) alice_body ref_env
                       ref_init)) in
  post_login (bcrypt := ref_bcrypt) (jsonwebtoken := ref_jsonwebtoken) ref_key
    alice_body ref_env2 db'
  = (login_ok "k3y.65a0000000000000000000ff.1700000060.1700086460", db').
Proof.
  exact (signup_then_login (mongoose := ref_mongoose) (bcrypt := ref_bcrypt)
           (jsonwebtoken := ref_jsonwebtoken)
           (zod := ref_zod) ref_key alice_body ref_env ref_env2
           ref_init [(GetBrain "h4shh4shh4", ref_env2)]
           {| in_username := "alice"; in_password := "secret1" |}
           eq_refl eq_refl).
Defined.

Lemma login_token_authenticates_witness :
  let token := "k3y.65a000000000000000000001.1700000000.1700086400" in
  post_login (bcrypt := ref_bcrypt) (jsonwebtoken := ref_jsonwebtoken) ref_key
    alice_body ref_env ref_store = (login_ok token, ref_store)
  /\ userMiddleware (jsonwebtoken := ref_jsonwebtoken) ref_key (Some token)
       1700000060000 = Next (JStr alice).
Proof.
  intros token.
  pose proof (login_token_authenticates (mongoose := ref_mongoose)
                (bcrypt := ref_bcrypt) (jsonwebtoken := ref_jsonwebtoken)
                (zod := ref_zod) ref_key alice_body ref_env ref_store
                {| in_username := "alice"; in_password := "secret1" |}
                alice_user 1700000060000 eq_refl eq_refl eq_refl) as H.
  cbv zeta in H.
  assert (Hne : token <> EmptyString) by discriminate.
  assert (Hid : alice <> EmptyString) by discriminate.
  destruct (H eq_refl Hne Hid eq_refl) as (Hlogin & Hguard & _).
  split; assumption.
Defined.


Lemma list_depends_on_own_records_witness :
  fst (get_content (mongoose := ref_mongoose) (JStr alice) ref_store)
  = fst (get_content (mongoose := ref_mongoose) (JStr alice) ref_store_other).
Proof.
  exact (proj1 (list_depends_on_own_records (mongoose := ref_mongoose)
                  (JStr alice) ref_store ref_store_other alice
                  eq_refl eq_refl eq_refl eq_refl)).
Defined.


Lemma disable_revokes_witness :
  let db' := snd (post_brain_share (mongoose := ref_mongoose) (JStr alice)
                    (JObj [("share", JBool false)]) ref_env ref_store) in
  status (fst (get_brain (mongoose := ref_mongoose) "h4shh4shh4" ref_store))
  = 200
  /\ get_brain (mongoose := ref_mongoose) "h4shh4shh4" db'
     = (share_link_not_found, db').
Proof.
  intros db'. split; [reflexivity|].
  refine (proj1 (disable_revokes (mongoose := ref_mongoose) (JStr alice)
                   (JObj [("share", JBool false)]) ref_env ref_store alice
                   alice_share eq_refl eq_refl _ _ _ eq_refl) eq_refl).
  - constructor; [intros []|constructor].
  - constructor; [intros []|constructor].
  - now left.
Defined.

Lemma reenable_draws_anew_witness :
  let db1 := snd (post_brain_share (mongoose := ref_mongoose) (JStr alice)
                    (JObj []) ref_env ref_store) in
  let again := {| now := 1700000060000; newObjectId := "65a0000000000000000000fe";
                  genSalt := fun _ => "pepperpepperpepperpepp";
                  random := fun _ => "h4shh4shh4" |} in
  (forall s, In s (shares db1) -> s_userId s <> alice)
  /\ post_brain_share (mongoose := ref_mongoose) (JStr alice)
       (JObj [("share", JBool true)]) ref_env2 db1
     = (share_created "z9y8x7w6v5",
        set_shares db1 (shares db1 ++ [new_share alice ref_env2]))
  /\ fst (post_brain_share (mongoose := ref_mongoose) (JStr alice)
            (JObj [("share", JBool true)]) again db1)
     = share_created "h4shh4shh4".
Proof.
  intros db1 again.
  assert (Hnodup : NoDup (map s_userId (shares ref_store)))
    by (constructor; [intros []|constructor]).
  assert (Hhashes : NoDup (map s_hash (shares ref_store)))
    by (constructor; [intros []|constructor]).
  pose proof (reenable_draws_anew (mongoose := ref_mongoose) (JStr alice)
                (JObj []) (JObj [("share", JBool true)]) ref_env ref_env2
                ref_store alice eq_refl eq_refl eq_refl eq_refl Hnodup) as H.
  pose proof (reenable_draws_anew (mongoose := ref_mongoose) (JStr alice)
                (JObj []) (JObj [("share", JBool true)]) ref_env again
                ref_store alice eq_refl eq_refl eq_refl eq_refl Hnodup) as H'.
  cbv zeta in H, H'. destruct H as (Hnone & _). destruct H' as (_ & _ & Hsame).
  split; [exact Hnone|]. split; [reflexivity|].
  refine (proj1 (Hsame alice_share _ eq_refl Hhashes eq_refl _ _)).
  - now left.
  - discriminate.
  - cbn. intros [Heq|[]]. discriminate.
Defined.


Lemma interleaved_enables_race_witness :
  let token := "k3y.65a000000000000000000001.1700000000.1700086400" in
  let db' := set_shares ref_init
               [new_share alice ref_env; new_share alice ref_env2] in
  reachable (mongoose := ref_mongoose) (bcrypt := ref_bcrypt)
    (jsonwebtoken := ref_jsonwebtoken) (zod := ref_zod) ref_key db'
  /\ map s_userId (shares db') = [alice; alice]
  /\ map s_hash (shares db') = ["a1b2c3d4e5"; "z9y8x7w6v5"].
Proof.
  intros token db'. split; [|split; reflexivity].
  refine (proj1 (interleaved_enables_race (mongoose := ref_mongoose)
                   (bcrypt := ref_bcrypt) (jsonwebtoken := ref_jsonwebtoken)
                   (zod := ref_zod) ref_key (Some token) (Some token)
                   (JObj [("share", JBool true)]) (JObj [("share", JBool true)])
                   ref_env ref_env2 ref_init (JStr alice) alice
                   (reachable_init ref_key _) eq_refl eq_refl eq_refl eq_refl
                   eq_refl _ _ _ _ _ _ _ _ _));
    try discriminate; cbn; tauto.
Defined.

Lemma reachable_well_shaped_witness :
  let token := "k3y.65a000000000000000000001.1700000000.1700086400" in
  let db := snd (handle (mongoose := ref_mongoose) (bcrypt := ref_bcrypt)
                   (jsonwebtoken := ref_jsonwebtoken)
                   (zod := ref_zod) ref_key
                   (PostContent (Some token) new_bookmark) ref_env ref_init) in
  map c_title (contents db) = ["new"] /\ well_shaped db.
Proof.
  intros token db. split; [reflexivity|].
  apply (reachable_well_shaped (mongoose := ref_mongoose) (bcrypt := ref_bcrypt)
           (jsonwebtoken := ref_jsonwebtoken)
           (zod := ref_zod) ref_key db).
  apply reachable_step, reachable_init.
Defined.

Lemma username_surrounding_whitespace_witness :
  let padded := ("  alice" ++ nbsp)%string in
  trim padded = "alice"
  /\ post_login (bcrypt := ref_bcrypt) (jsonwebtoken := ref_jsonwebtoken) ref_key
       (JObj [("username", JStr padded); ("password", JStr "secret1")])
       ref_env ref_store
     = post_login (bcrypt := ref_bcrypt) (jsonwebtoken := ref_jsonwebtoken)
         ref_key alice_body ref_env ref_store
  /\ post_signin (bcrypt := ref_bcrypt)
       (JObj [("username", JStr padded); ("password", JStr "secret1")])
       ref_env ref_store
     = (username_exists, ref_store).
Proof.
  intros padded. split; [reflexivity|].
  pose proof (username_surrounding_whitespace (bcrypt := ref_bcrypt)
                (jsonwebtoken := ref_jsonwebtoken) ref_key
                [("username", JStr padded); ("password", JStr "secret1")]
                [("username", JStr "alice"); ("password", JStr "secret1")]
                padded "alice" "secret1" ref_env ref_store
                eq_refl eq_refl eq_refl eq_refl) as H.
  destruct H as (Hsignin & Hlogin); try (vm_compute; lia); [reflexivity|].
  split; [exact Hlogin|]. rewrite Hsignin. reflexivity.
Defined.

(** The lengths are counted in UTF-16 code units: a username of two accented
    letters is four bytes and two code units, and is turned away. *)
Lemma signin_counts_code_units :
  String.length (e_acute ++ e_acute) = 4%nat
  /\ js_length (e_acute ++ e_acute) = 2%nat
  /\ post_signin (bcrypt := ref_bcrypt)
       (JObj [("username", JStr (e_acute ++ e_acute)); ("password", JStr "secret1")])
       ref_env ref_store
     = (internal_server_error, ref_store).
Proof. repeat split. Qed.


Lemma length_checks_precede_trim_witness :
  post_content (mongoose := ref_mongoose) (zod := ref_zod) (JStr alice)
    (JObj [("title", JStr "   "); ("link", JStr "https://example.org")])
    ref_env ref_store
  = (failed_to_add_content, ref_store)
  /\ post_signin (bcrypt := ref_bcrypt)
       (JObj [("username", JStr " al "); ("password", JStr "secret1")])
       ref_env ref_store
     = (internal_server_error, ref_store).
Proof.
  destruct (length_checks_precede_trim (mongoose := ref_mongoose) (zod := ref_zod)
              (bcrypt := ref_bcrypt) ref_env ref_store) as (Hcontent & Hsignup).
  split.
  - apply (Hcontent (JStr alice)
             [("title", JStr "   "); ("link", JStr "https://example.org")]
             "   " "https://example.org" eq_refl);
      [cbn; lia|reflexivity|cbn; lia|now left].
  - apply (Hsignup [("username", JStr " al "); ("password", JStr "secret1")]
             " al " "secret1" eq_refl); [cbn; lia|reflexivity|cbn; lia| |].
    + vm_compute. lia.
    + vm_compute. intros [Heq|[Heq|[]]]; discriminate.
Defined.

Lemma delete_frees_title_witness :
  let token := "k3y.65a000000000000000000001.1700000000.1700086400" in
  let db := snd (handle (mongoose := ref_mongoose) (bcrypt := ref_bcrypt)
                   (jsonwebtoken := ref_jsonwebtoken)
                   (zod := ref_zod) ref_key
                   (PostContent (Some token) new_bookmark) ref_env ref_init) in
  let db' := snd (delete_content (mongoose := ref_mongoose) (JStr alice)
                    (JObj [("contentId", JStr "65a0000000000000000000ff")]) db) in
  contents db' = []
  /\ status (fst (post_content (mongoose := ref_mongoose) (zod := ref_zod) (JStr bob)
                    (JObj [("title", JStr "new"); ("link", JStr "https://b.example")])
                    ref_env2 db')) = 201.
Proof.
  intros token db db'. split; [reflexivity|].
  assert (Hreach : reachable (mongoose := ref_mongoose) (bcrypt := ref_bcrypt)
                     (jsonwebtoken := ref_jsonwebtoken)
                     (zod := ref_zod) ref_key db)
    by apply reachable_step, reachable_init.
  pose proof (delete_frees_title (mongoose := ref_mongoose) (bcrypt := ref_bcrypt)
                (jsonwebtoken := ref_jsonwebtoken)
                (zod := ref_zod) ref_key (JStr alice) (JStr bob)
                (JObj [("contentId", JStr "65a0000000000000000000ff")])
                [("title", JStr "new"); ("link", JStr "https://b.example")]
                "https://b.example" ref_env2 db
                {| c_id := "65a0000000000000000000ff"; c_title := "new";
                   c_link := "https://example.org/new"; c_tags := [];
                   c_userId := alice |} bob Hreach) as H.
  cbv zeta in H.
  refine (proj2 (H _ eq_refl eq_refl eq_refl) eq_refl eq_refl _ eq_refl _).
  - now left.
  - cbn. lia.
  - intros [].
Defined.

Lemma delete_content_conditions_witness :
  let reqBody := JObj [("contentId", JObj [("$ne", JNull)])] in
  let out := delete_content (mongoose := ref_mongoose) (JStr alice) reqBody
               ref_store in
  castObjectId (Mongoose := ref_mongoose) (prop "contentId" reqBody) = None
  /\ fst out = content_deleted
  /\ map c_title (contents (snd out)) = ["news"; "docs"].
Proof.
  intros reqBody out. split; [reflexivity|].
  destruct (delete_content_conditions (mongoose := ref_mongoose) (JStr alice)
              reqBody ref_store alice (fun _ => true)
              eq_refl eq_refl eq_refl eq_refl) as (Hfst & Hcontents & _).
  split; [exact Hfst|]. subst out. now rewrite Hcontents.
Defined.

(** A body that fails the shape check of [POST /content]: the 400 answer
    lists one object per issue. *)
Lemma post_content_issue_objects :
  post_content (mongoose := ref_mongoose) (zod := ref_zod) (JStr alice)
    (JObj [("title", JStr EmptyString)]) ref_env ref_store
  = (res_status_json 400
       (JObj [("status", JStr "error"); ("message", JStr "Validation failed");
              ("errors",
               JArr [JObj [("code", JStr "too_small"); ("minimum", JNum 1);
                           ("type", JStr "string"); ("inclusive", JBool true);
                           ("exact", JBool false);
                           ("message", JStr "Title is required");
                           ("path", JArr [JStr "title"])];
                     JObj [("code", JStr "invalid_type");
                           ("expected", JStr "string");
                           ("received", JStr "undefined");
                           ("path", JArr [JStr "link"]);
                           ("message", JStr "Required")]])]), ref_store).
Proof. reflexivity. Qed.
